(** * HttpService of http-request-manager: a shallow embedding

    The development follows [http.service.ts] (class [HttpService]), the
    option and middleware interfaces of [interfaces/http.interface.ts] and the
    cache configuration of [http.module.ts].

    JavaScript values that can hold object references are modelled over an
    explicit heap, so that shared and circular structures exist in the model.
    Effects (cache store, transport, logger) are threaded through a [world]
    by a small state monad.  The two libraries the service delegates to
    (axios' interceptor chain and axios-retry's retry handler) are not part of
    the repository; their documented behaviour is written out in the
    definitions marked as such. *)

From Stdlib Require Import ZArith Lia Ascii String Permutation Sorted.
From stdpp Require Import base decidable option list gmap strings pretty.

Local Open Scope string_scope.
Local Open Scope Z_scope.
Local Open Scope list_scope.

(** ** JavaScript values *)

(** Object identity: an address into the heap. *)
Abbreviation addr := nat (only parsing).

(** The values a request's [params] and [data] are built from.  Functions
    and symbols are left out; [JBigInt] is the value [JSON.stringify] cannot
    serialise.  Numbers are the integers; the heaps the theorems on
    serialisation speak of hold safe integers only ([wfVal]). *)
Inductive jsval : Type :=
| JUndefined
| JNull
| JBool (b : bool)
| JNum (n : Z)
| JBigInt (n : Z)
| JStr (s : string)
| JRef (a : addr).

(** A heap object: a plain object with its own enumerable properties in
    enumeration order, or an array. *)
Inductive jsobj : Type :=
| JObject (fields : list (string * jsval))
| JArray (items : list jsval).

Abbreviation heap := (list jsobj) (only parsing).

#[global] Instance jsval_eq_dec : EqDecision jsval.
Proof. solve_decision. Defined.

#[global] Instance jsobj_eq_dec : EqDecision jsobj.
Proof. solve_decision. Defined.

(** JavaScript truthiness, as used by [config.params ? ... : ''] and by the
    [||] defaults. *)
Definition truthy (v : jsval) : bool :=
  match v with
  | JUndefined | JNull => false
  | JBool b => b
  | JNum n | JBigInt n => negb (n =? 0)
  | JStr s => negb (String.eqb s "")
  | JRef _ => true
  end.

(** The values an object holds, and well-formed heaps: no reference
    dangles, and every number is a safe integer, one that a double holds
    exactly.  These are the numbers [JNum] stands for: [JSON.stringify]
    prints them in plain decimal. *)
Definition children (o : jsobj) : list jsval :=
  match o with
  | JObject fields => snd <$> fields
  | JArray items => items
  end.

Definition safeInteger (n : Z) : Prop := - 2 ^ 53 < n < 2 ^ 53.

Definition wfVal (h : heap) (v : jsval) : Prop :=
  match v with
  | JRef a => (a < length h)%nat
  | JNum n => safeInteger n
  | _ => True
  end.

Definition wfHeap (h : heap) : Prop :=
  ∀ a o, h !! a = Some o → Forall (wfVal h) (children o).

(** ** Strings *)

Definition lowerAscii (c : ascii) : ascii :=
  let n := nat_of_ascii c in
  if (Nat.leb 65 n && Nat.leb n 90)%bool then ascii_of_nat (n + 32) else c.

(** [String.prototype.toLowerCase] on the ASCII letters. *)
Fixpoint toLowerCase (s : string) : string :=
  match s with
  | EmptyString => EmptyString
  | String c rest => String (lowerAscii c) (toLowerCase rest)
  end.

Definition dquote : string := String (ascii_of_nat 34) EmptyString.
Definition backslash : string := String (ascii_of_nat 92) EmptyString.

Definition hexDigit (n : nat) : string :=
  String (ascii_of_nat (if Nat.ltb n 10 then 48 + n else 87 + n)) EmptyString.

(** One code unit of [QuoteJSONString]. *)
Definition quoteChar (c : ascii) : string :=
  let n := nat_of_ascii c in
  if Nat.eqb n 34 then backslash +:+ dquote
  else if Nat.eqb n 92 then backslash +:+ backslash
  else if Nat.eqb n 8 then backslash +:+ "b"
  else if Nat.eqb n 9 then backslash +:+ "t"
  else if Nat.eqb n 10 then backslash +:+ "n"
  else if Nat.eqb n 12 then backslash +:+ "f"
  else if Nat.eqb n 13 then backslash +:+ "r"
  else if Nat.ltb n 32 then
    backslash +:+ "u00" +:+ hexDigit (Nat.div n 16) +:+ hexDigit (Nat.modulo n 16)
  else String c EmptyString.

Fixpoint quoteBody (s : string) : string :=
  match s with
  | EmptyString => EmptyString
  | String c rest => quoteChar c +:+ quoteBody rest
  end.

Definition quoteJSONString (s : string) : string :=
  dquote +:+ quoteBody s +:+ dquote.

(** ** [JSON.stringify] with the circular replacer *)

(** Result of a computation that may throw, or that the model could not
    finish (fuel exhausted, or a dangling reference). *)
Inductive outcome (A E : Type) : Type :=
| Returns (a : A)
| Throws (e : E)
| OutOfFuel.
Arguments Returns {A E} a.
Arguments Throws {A E} e.
Arguments OutOfFuel {A E}.

Definition circularMarker : string := "[Circular Reference]".

(** The replacer returned by [getCircularReplacer()]: [seen] is the state of
    its [WeakSet]; an object met before is replaced by the marker, a new one
    is recorded. *)
Definition getCircularReplacer (seen : list addr) (value : jsval)
  : jsval * list addr :=
  match value with
  | JRef a =>
      if bool_decide (a ∈ seen) then (JStr circularMarker, seen)
      else (value, a :: seen)
  | _ => (value, seen)
  end.

(** A serialised property: [None] is JavaScript's [undefined] (the property
    is omitted from an object and printed as [null] in an array). *)
Definition serialised : Type := outcome (option string * list addr) string.

(** The loop shared by [SerializeJSONObject] and [SerializeJSONArray]: the
    elements in order, the replacer state threaded from one to the next;
    [emit] is what an element adds to the output. *)
Definition serializeElements {A : Type} (valueOf : A → jsval)
    (emit : A → option string → list string)
    (property : list addr → jsval → serialised) :
    list A → list addr → list string
    → outcome (list string * list addr) string :=
  fix go elements seen acc :=
    match elements with
    | [] => Returns (acc, seen)
    | x :: rest =>
        match property seen (valueOf x) with
        | Returns (s, seen') => go rest seen' (acc ++ emit x s)
        | Throws e => Throws e
        | OutOfFuel => OutOfFuel
        end
    end.

(** [SerializeJSONObject]: a property whose value is [undefined] is left
    out. *)
Definition serializeJSONObject (property : list addr → jsval → serialised)
  : list (string * jsval) → list addr → list string
    → outcome (list string * list addr) string :=
  serializeElements snd
    (λ field s,
       match s with
       | Some s => [quoteJSONString field.1 +:+ ":" +:+ s]
       | None => []
       end)
    property.

(** [SerializeJSONArray]: an [undefined] element is printed as [null]. *)
Definition serializeJSONArray (property : list addr → jsval → serialised)
  : list jsval → list addr → list string
    → outcome (list string * list addr) string :=
  serializeElements id (λ _ s, [default "null" s]) property.

(** [SerializeJSONProperty] after the property has been read: the replacer
    is called first, then the value it returned is serialised.  Fuel is
    spent on entering an object. *)
Fixpoint serializeJSONProperty (fuel : nat) (h : heap)
    (seen : list addr) (value : jsval) : serialised :=
  let '(value, seen) := getCircularReplacer seen value in
  match value with
  | JUndefined => Returns (None, seen)
  | JNull => Returns (Some "null", seen)
  | JBool true => Returns (Some "true", seen)
  | JBool false => Returns (Some "false", seen)
  | JNum n => Returns (Some (pretty n), seen)
  | JBigInt _ => Throws "Do not know how to serialize a BigInt"
  | JStr s => Returns (Some (quoteJSONString s), seen)
  | JRef a =>
      match fuel with
      | O => OutOfFuel
      | S fuel' =>
          match h !! a with
          | None => OutOfFuel
          | Some (JObject fields) =>
              match serializeJSONObject (serializeJSONProperty fuel' h)
                      fields seen [] with
              | Returns (parts, seen') =>
                  Returns (Some ("{" +:+ String.concat "," parts +:+ "}"), seen')
              | Throws e => Throws e
              | OutOfFuel => OutOfFuel
              end
          | Some (JArray items) =>
              match serializeJSONArray (serializeJSONProperty fuel' h)
                      items seen [] with
              | Returns (parts, seen') =>
                  Returns (Some ("[" +:+ String.concat "," parts +:+ "]"), seen')
              | Throws e => Throws e
              | OutOfFuel => OutOfFuel
              end
          end
      end
  end.

(** [JSON.stringify(value, getCircularReplacer())]: a fresh replacer, and
    one unit of fuel per heap object plus one. *)
Definition stringify (h : heap) (value : jsval) : outcome (option string) string :=
  match serializeJSONProperty (S (length h)) h [] value with
  | Returns (s, _) => Returns s
  | Throws e => Throws e
  | OutOfFuel => OutOfFuel
  end.

(** ** Requests, responses, errors *)

Abbreviation headers := (list (string * string)) (only parsing).

(** The [config] kept inside a cached response: [{ url, method, headers }]. *)
Record SafeConfig : Type := {
  safe_url : option string;
  safe_method : option string;
  safe_reqHeaders : headers;
}.

(** [safeResponse]: what the response interceptor stores in the cache. *)
Record SafeResponse : Type := {
  safe_data : jsval;
  safe_status : Z;
  safe_statusText : string;
  safe_headers : headers;
  safe_config : SafeConfig;
}.

(** [AxiosRequestConfig], restricted to the fields the service reads.
    [cfg_adapter] is [Some cached] once the cache interceptor has replaced
    the adapter by [() => Promise.resolve(cached)]; [cfg_retryCount] is the
    state axios-retry keeps in the config between attempts. *)
Record AxiosRequestConfig : Type := {
  cfg_method : option string;
  cfg_url : option string;
  cfg_headers : headers;
  cfg_params : jsval;
  cfg_data : jsval;
  cfg_adapter : option SafeResponse;
  cfg_retryCount : option nat;
}.

Record AxiosResponse : Type := {
  resp_data : jsval;
  resp_status : Z;
  resp_statusText : string;
  resp_headers : headers;
  resp_config : AxiosRequestConfig;
}.

(** An [Error] object; an [AxiosError] carries [config] and, when a
    response was received, [response]. *)
Record JsError : Type := {
  err_message : string;
  err_code : option string;
  err_config : option AxiosRequestConfig;
  err_response : option AxiosResponse;
}.

(** What a promise of the response chain settles with. *)
Inductive value : Type :=
| VResponse (r : AxiosResponse)
| VError (e : JsError)
| VData (d : jsval).

(** [v instanceof Error]. *)
Definition instanceofError (v : value) : bool :=
  match v with VError _ => true | _ => false end.

Definition typeError (message : string) : value :=
  VError {| err_message := message; err_code := None;
            err_config := None; err_response := None |}.

(** [error.message] inside a template literal. *)
Definition messageOf (v : value) : string :=
  match v with VError e => err_message e | _ => "undefined" end.

(** The awaited result of a user-supplied function. *)
Inductive settled (A : Type) : Type :=
| Fulfilled (a : A)
| Rejected (reason : value).
Arguments Fulfilled {A} a.
Arguments Rejected {A} reason.

(** ** Options ([http.interface.ts]) *)

Inductive CacheStrategy : Type :=
| CACHE_FIRST
| SIDE_CACHE
| ONLY_CACHE
| NO_CACHE.

Record RedisConfig : Type := {
  redis_host : option string;
  redis_port : option Z;
  redis_password : option string;
  redis_db : option Z;
}.

Record CacheRouteConfig : Type := {
  route_pattern : string;
  route_strategy : CacheStrategy;
  route_ttl : option Z;
  route_methods : option (list string);
}.

Record CacheOptions : Type := {
  cache_ttl : option Z;
  cache_max : option Z;
  cache_methods : option (list string);
  cache_strategy : option CacheStrategy;
  cache_redis : option RedisConfig;
  cache_routes : option (list CacheRouteConfig);
  cache_shouldCache : option (AxiosResponse → bool);
  cache_cacheKey : option (string + (AxiosRequestConfig → string));
}.

Record RetryOptions : Type := {
  retries : option Z;
  retryDelay : option Z;
  statusCodesToRetry : option (list Z);
  methodsToRetry : option (list string);
  retryCondition : option (JsError → bool);
}.

Record RequestInterceptor : Type := {
  rqi_onFulfilled : option (AxiosRequestConfig → settled AxiosRequestConfig);
  rqi_onRejected : option (value → settled AxiosRequestConfig);
}.

Record ResponseInterceptor : Type := {
  rsi_onFulfilled : option (value → settled value);
  rsi_onRejected : option (value → settled value);
}.

Record InterceptorsConfig : Type := {
  ic_request : option (list RequestInterceptor);
  ic_response : option (list ResponseInterceptor);
}.

(** [boolean | T], the type [setupRetry] and [setupCache] accept. *)
Inductive flagOr (T : Type) : Type :=
| Flag (b : bool)
| Options (o : T).
Arguments Flag {T} b.
Arguments Options {T} o.

Record HttpModuleOptions : Type := {
  opt_retry : option (flagOr RetryOptions);
  opt_cache : option (flagOr CacheOptions);
  opt_interceptors : option InterceptorsConfig;
}.

Record RequestMiddleware : Type := {
  rqm_priority : option Z;
  rqm_process : AxiosRequestConfig → settled AxiosRequestConfig;
}.

Record ResponseMiddleware : Type := {
  rsm_priority : option Z;
  rsm_process : value → settled value;
}.

Record ErrorMiddleware : Type := {
  erm_priority : option Z;
  erm_process : value → settled value;
}.

(** [x || d] on an optional number: [undefined] and [0] give [d]. *)
Definition numberOr (x : option Z) (d : Z) : Z :=
  match x with
  | Some n => if n =? 0 then d else n
  | None => d
  end.

Definition emptyRetryOptions : RetryOptions :=
  {| retries := None; retryDelay := None; statusCodesToRetry := None;
     methodsToRetry := None; retryCondition := None |}.

Definition emptyCacheOptions : CacheOptions :=
  {| cache_ttl := None; cache_max := None; cache_methods := None;
     cache_strategy := None; cache_redis := None; cache_routes := None;
     cache_shouldCache := None; cache_cacheKey := None |}.

(** ** The world: cache store, transport, logger *)

Record CacheEntry : Type := {
  entry_value : SafeResponse;
  entry_ttl : Z;
}.

Inductive storeOp : Type :=
| StoreGet (key : string)
| StoreSet (key : string) (v : SafeResponse) (ttl : Z).

Inductive logLevel : Type := LogDebug | LogLog | LogWarn | LogError.

(** A call of a middleware's [process]. *)
Inductive middlewareCall : Type :=
| CallRequest (m : RequestMiddleware)
| CallResponse (m : ResponseMiddleware)
| CallError (m : ErrorMiddleware).

(** [store] is the content of the cache manager (expiry is not modelled),
    [storeOps] the reads and writes issued so far, [sent] the configs the
    transport was invoked with, [invoked] the middleware calls made, [logs]
    the logger output; the four lists are newest first. *)
Record world : Type := {
  store : gmap string CacheEntry;
  storeOps : list storeOp;
  sent : list AxiosRequestConfig;
  invoked : list middlewareCall;
  logs : list (logLevel * string);
}.

Definition setStore (m : gmap string CacheEntry) (w : world) : world :=
  {| store := m; storeOps := storeOps w; sent := sent w;
     invoked := invoked w; logs := logs w |}.

Definition addStoreOp (op : storeOp) (w : world) : world :=
  {| store := store w; storeOps := op :: storeOps w; sent := sent w;
     invoked := invoked w; logs := logs w |}.

Definition addSent (c : AxiosRequestConfig) (w : world) : world :=
  {| store := store w; storeOps := storeOps w; sent := c :: sent w;
     invoked := invoked w; logs := logs w |}.

Definition addInvoked (c : middlewareCall) (w : world) : world :=
  {| store := store w; storeOps := storeOps w; sent := sent w;
     invoked := c :: invoked w; logs := logs w |}.

Definition addLog (l : logLevel * string) (w : world) : world :=
  {| store := store w; storeOps := storeOps w; sent := sent w;
     invoked := invoked w; logs := l :: logs w |}.

(** The collaborators the service is given: the heap the request values
    live in, the transport behind axios' default adapter (its answer to the
    n-th invocation), the failures of the cache manager, and axios-retry's
    classification of [error.code] inside [isNetworkError]. *)
Record Env : Type := {
  env_heap : heap;
  transport : nat → AxiosRequestConfig → AxiosResponse + JsError;
  cacheGetFails : string → option JsError;
  cacheSetFails : string → option JsError;
  networkErrorCode : option string → bool;
}.

(** State and exceptions: a rejected promise is [Throws]. *)
Definition M (A : Type) : Type := world → outcome A value * world.

Definition ret {A : Type} (a : A) : M A := λ w, (Returns a, w).

Definition throw {A : Type} (v : value) : M A := λ w, (Throws v, w).

Definition unfinished {A : Type} : M A := λ w, (OutOfFuel, w).

(** [promise.then(onFulfilled, onRejected)]. *)
Definition then_ {A B : Type} (m : M A) (onFulfilled : A → M B)
    (onRejected : value → M B) : M B :=
  λ w, match m w with
       | (Returns a, w') => onFulfilled a w'
       | (Throws v, w') => onRejected v w'
       | (OutOfFuel, w') => (OutOfFuel, w')
       end.

Definition bind {A B : Type} (m : M A) (k : A → M B) : M B :=
  then_ m k throw.

(** [try { m } catch (e) { handler e }]. *)
Definition tryCatch {A : Type} (m : M A) (handler : value → M A) : M A :=
  then_ m ret handler.

Notation "'do' x ← m ; k" := (bind m (λ x, k))
  (at level 10, x name, m at level 100, k at level 200).
Notation "'run' m ; k" := (bind m (λ _, k))
  (at level 10, m at level 100, k at level 200).

Definition awaitSettled {A : Type} (s : settled A) : M A :=
  match s with
  | Fulfilled a => ret a
  | Rejected v => throw v
  end.

Definition logger (level : logLevel) (message : string) : M unit :=
  λ w, (Returns tt, addLog (level, message) w).

Definition invoke (c : middlewareCall) : M unit :=
  λ w, (Returns tt, addInvoked c w).

(** [await this.cacheManager.get(key)]. *)
Definition cacheManagerGet (env : Env) (key : string)
  : M (option SafeResponse) :=
  λ w,
    match cacheGetFails env key with
    | Some e => (Throws (VError e), addStoreOp (StoreGet key) w)
    | None =>
        (Returns (entry_value <$> store w !! key), addStoreOp (StoreGet key) w)
    end.

(** [await this.cacheManager.set(key, value, ttl)]. *)
Definition cacheManagerSet (env : Env) (key : string) (v : SafeResponse)
    (ttl : Z) : M unit :=
  λ w,
    match cacheSetFails env key with
    | Some e => (Throws (VError e), addStoreOp (StoreSet key v ttl) w)
    | None =>
        (Returns tt,
         setStore (<[key := {| entry_value := v; entry_ttl := ttl |}]> (store w))
           (addStoreOp (StoreSet key v ttl) w))
    end.

(** ** [generateCacheKey] *)

(** The body of the [try] block, for one of [config.params], [config.data]. *)
Definition serializeForKey (h : heap) (v : jsval) : outcome string string :=
  if truthy v then
    match stringify h v with
    | Returns (Some s) => Returns s
    | Returns None => Returns "undefined"
    | Throws e => Throws e
    | OutOfFuel => OutOfFuel
    end
  else Returns "".

(** [config.method?.toLowerCase() || d]. *)
Definition lowerMethodOr (method : option string) (d : string) : string :=
  match method with
  | Some m => if String.eqb (toLowerCase m) "" then d else toLowerCase m
  | None => d
  end.

Definition generateCacheKey (h : heap) (config : AxiosRequestConfig)
    (options : CacheOptions) : M string :=
  let default_ : M string :=
    let method := lowerMethodOr (cfg_method config) "get" in
    let url := default "" (cfg_url config) in
    do pd ← tryCatch
        (match serializeForKey h (cfg_params config) with
         | Returns params =>
             match serializeForKey h (cfg_data config) with
             | Returns data => ret (params, data)
             | Throws e => throw (typeError e)
             | OutOfFuel => unfinished
             end
         | Throws e => throw (typeError e)
         | OutOfFuel => unfinished
         end)
        (λ error,
           run logger LogWarn
                 ("Error al serializar datos para caché: " +:+ messageOf error);
           ret (if truthy (cfg_params config) then "params-present" else "",
                if truthy (cfg_data config) then "data-present" else ""));
    ret ("http-cache:" +:+ method +:+ ":" +:+ url +:+ ":" +:+ pd.1
           +:+ ":" +:+ pd.2) in
  match cache_cacheKey options with
  | Some (inr f) => ret (f config)
  | Some (inl k) => if String.eqb k "" then default_ else ret k
  | None => default_
  end.

(** ** [HttpService] *)

Record HttpService : Type := {
  httpModuleOptions : HttpModuleOptions;
  cacheManager : bool;
  requestMiddlewares : list RequestMiddleware;
  responseMiddlewares : list ResponseMiddleware;
  errorMiddlewares : list ErrorMiddleware;
}.

(** The constructor: the registries start empty; [cacheManager] tells
    whether the optional [CACHE_MANAGER] was injected. *)
Definition newHttpService (options : HttpModuleOptions) (hasCacheManager : bool)
  : HttpService :=
  {| httpModuleOptions := options; cacheManager := hasCacheManager;
     requestMiddlewares := []; responseMiddlewares := [];
     errorMiddlewares := [] |}.

(** [if (!options) return; typeof options === 'boolean' ? {} : options]. *)
Definition enabledOptions {T : Type} (empty : T) (o : option (flagOr T))
  : option T :=
  match o with
  | None | Some (Flag false) => None
  | Some (Flag true) => Some empty
  | Some (Options t) => Some t
  end.

Definition retryOptionsOf (svc : HttpService) : option RetryOptions :=
  enabledOptions emptyRetryOptions (opt_retry (httpModuleOptions svc)).

Definition cacheOptionsOf (svc : HttpService) : option CacheOptions :=
  if cacheManager svc
  then enabledOptions emptyCacheOptions (opt_cache (httpModuleOptions svc))
  else None.

(** *** Registration *)




(** *** Sorting by priority *)

(** [[...list].sort((a, b) => (a.priority || 0) - (b.priority || 0))].
    [Array.prototype.sort] is stable; with this comparator its result is the
    stable ascending arrangement, computed here by insertion. *)
Fixpoint insertByPriority {A : Type} (priority : A → option Z) (x : A)
    (sorted : list A) : list A :=
  match sorted with
  | [] => [x]
  | y :: rest =>
      if numberOr (priority x) 0 - numberOr (priority y) 0 <=? 0
      then x :: sorted
      else y :: insertByPriority priority x rest
  end.

Fixpoint sortByPriority {A : Type} (priority : A → option Z) (l : list A)
  : list A :=
  match l with
  | [] => []
  | x :: rest => insertByPriority priority x (sortByPriority priority rest)
  end.

(** *** Middleware interceptors ([setupInterceptors]) *)

Fixpoint applyRequestMiddlewares (sortedMiddlewares : list RequestMiddleware)
    (currentConfig : AxiosRequestConfig) : M AxiosRequestConfig :=
  match sortedMiddlewares with
  | [] => ret currentConfig
  | middleware :: rest =>
      run invoke (CallRequest middleware);
      do next ← awaitSettled (rqm_process middleware currentConfig);
      applyRequestMiddlewares rest next
  end.

Definition requestMiddlewareInterceptor (svc : HttpService)
    (config : AxiosRequestConfig) : M AxiosRequestConfig :=
  tryCatch
    (applyRequestMiddlewares
       (sortByPriority rqm_priority (requestMiddlewares svc)) config)
    (λ error,
       run logger LogError "Error in request middleware";
       throw error).

Fixpoint applyResponseMiddlewares (sortedMiddlewares : list ResponseMiddleware)
    (currentResponse : value) : M value :=
  match sortedMiddlewares with
  | [] => ret currentResponse
  | middleware :: rest =>
      run invoke (CallResponse middleware);
      do next ← awaitSettled (rsm_process middleware currentResponse);
      applyResponseMiddlewares rest next
  end.

Definition responseMiddlewareInterceptor (svc : HttpService)
    (response : value) : M value :=
  tryCatch
    (applyResponseMiddlewares
       (sortByPriority rsm_priority (responseMiddlewares svc)) response)
    (λ error,
       run logger LogError "Error in response middleware";
       throw error).

(** The loop of the error handler.  [Fulfilled v] is the early
    [return currentError]; [Rejected e] is the final
    [return Promise.reject(currentError)], which the surrounding [try] does
    not catch; a rejection of [process] itself is thrown. *)
Fixpoint applyErrorMiddlewares (sortedMiddlewares : list ErrorMiddleware)
    (currentError : value) : M (settled value) :=
  match sortedMiddlewares with
  | [] => ret (Rejected currentError)
  | middleware :: rest =>
      run invoke (CallError middleware);
      do next ← awaitSettled (erm_process middleware currentError);
      if negb (instanceofError next) then ret (Fulfilled next)
      else applyErrorMiddlewares rest next
  end.

Definition errorMiddlewareInterceptor (svc : HttpService) (error : value)
  : M value :=
  do result ← tryCatch
      (applyErrorMiddlewares
         (sortByPriority erm_priority (errorMiddlewares svc)) error)
      (λ processError,
         run logger LogError "Error in error middleware";
         throw processError);
  awaitSettled result.

(** *** Retry ([setupRetry]) *)

Definition defaultStatusCodesToRetry : list Z := [408; 429; 500; 502; 503; 504].

Definition defaultMethodsToRetry : list string :=
  ["get"; "head"; "options"; "delete"; "put"].

(** [axiosRetry.isNetworkError]: no response was received, the error has
    a code, the code is not the one of a timed-out or aborted request
    ([ECONNABORTED]), and the library classifies it as a failure that may be
    retried ([isRetryAllowed]). *)
Definition isNetworkError (env : Env) (error : JsError) : bool :=
  match err_response error with
  | Some _ => false
  | None =>
      match err_code error with
      | None => false
      | Some code =>
          if bool_decide (code = "" ∨ code = "ECONNABORTED") then false
          else networkErrorCode env (Some code)
      end
  end.

(** The [retryCondition] handed to axios-retry.  [method.toLowerCase()]
    throws when [error.config] exists without a [method]. *)
Definition retryConditionOf (env : Env) (options : RetryOptions)
    (error : JsError) : outcome bool value :=
  match retryCondition options with
  | Some custom => Returns (custom error)
  | None =>
      let statusCodes := default defaultStatusCodesToRetry
                           (statusCodesToRetry options) in
      let methods := default defaultMethodsToRetry (methodsToRetry options) in
      if isNetworkError env error then Returns true
      else
        match err_response error with
        | None => Returns false
        | Some response =>
            if bool_decide (resp_status response ∈ statusCodes) then
              match err_config error with
              | None => Returns false
              | Some config =>
                  match cfg_method config with
                  | None =>
                      Throws (typeError
                        "Cannot read properties of undefined (reading 'toLowerCase')")
                  | Some method =>
                      Returns (bool_decide (toLowerCase method ∈ methods))
                  end
              end
            else Returns false
        end
  end.

(** The [retries] handed to axios-retry: [options.retries || 3]. *)
Definition retriesOf (options : RetryOptions) : Z :=
  numberOr (retries options) 3.

Definition setRetryCount (n : nat) (config : AxiosRequestConfig)
  : AxiosRequestConfig :=
  {| cfg_method := cfg_method config; cfg_url := cfg_url config;
     cfg_headers := cfg_headers config; cfg_params := cfg_params config;
     cfg_data := cfg_data config; cfg_adapter := cfg_adapter config;
     cfg_retryCount := Some n |}.

(** axios-retry's request interceptor: the retry state is created on the
    first attempt and kept on the later ones. *)
Definition axiosRetryRequestInterceptor (config : AxiosRequestConfig)
  : M AxiosRequestConfig :=
  ret (setRetryCount (default 0%nat (cfg_retryCount config)) config).

(** axios-retry's response error handler.  A rejection without a [config]
    is passed on.  Otherwise the request is issued again, through the whole
    instance ([again]), while [retryCount < retries] and the condition holds;
    the delay between attempts and the timeout budget are not modelled. *)
Definition axiosRetryOnRejected (env : Env) (options : RetryOptions)
    (again : AxiosRequestConfig → M value) (error : value) : M value :=
  match error with
  | VError e =>
      match err_config e with
      | None => throw error
      | Some config =>
          let retryCount := default 0%nat (cfg_retryCount config) in
          if Z.of_nat retryCount <? retriesOf options then
            match retryConditionOf env options e with
            | Returns true => again (setRetryCount (S retryCount) config)
            | Returns false => throw error
            | Throws thrown => throw thrown
            | OutOfFuel => unfinished
            end
          else throw error
      end
  | _ => throw error
  end.

(** *** Cache ([setupCache]) *)

Definition setAdapter (cached : SafeResponse) (config : AxiosRequestConfig)
  : AxiosRequestConfig :=
  {| cfg_method := cfg_method config; cfg_url := cfg_url config;
     cfg_headers := cfg_headers config; cfg_params := cfg_params config;
     cfg_data := cfg_data config; cfg_adapter := Some cached;
     cfg_retryCount := cfg_retryCount config |}.

(** [methods.includes(config.method?.toLowerCase() || '')] with
    [methods = options.methods || ['get']]. *)
Definition cacheableMethod (options : CacheOptions) (method : option string)
  : bool :=
  bool_decide (lowerMethodOr method "" ∈ default ["get"] (cache_methods options)).

(** The request interceptor: look the request up in the cache and, on a
    hit, replace the adapter by one that resolves with the cached value. *)
Definition cacheRequestInterceptor (env : Env) (options : CacheOptions)
    (config : AxiosRequestConfig) : M AxiosRequestConfig :=
  if negb (cacheableMethod options (cfg_method config)) then ret config
  else
    do cacheKey ← generateCacheKey (env_heap env) config options;
    do cachedResponse ← cacheManagerGet env cacheKey;
    match cachedResponse with
    | Some cached =>
        run logger LogDebug ("Cache hit for " +:+ cacheKey);
        ret (setAdapter cached config)
    | None => ret config
    end.

Definition safeResponseOf (response : AxiosResponse) : SafeResponse :=
  {| safe_data := resp_data response;
     safe_status := resp_status response;
     safe_statusText := resp_statusText response;
     safe_headers := resp_headers response;
     safe_config :=
       {| safe_url := cfg_url (resp_config response);
          safe_method := cfg_method (resp_config response);
          safe_reqHeaders := cfg_headers (resp_config response) |} |}.

(** The response interceptor: store the response.  A fulfilled value that
    is not a response has no [config], and reading [config.method] throws. *)
Definition cacheResponseInterceptor (env : Env) (options : CacheOptions)
    (response : value) : M value :=
  match response with
  | VResponse r =>
      if negb (cacheableMethod options (cfg_method (resp_config r)))
      then ret response
      else if match cache_shouldCache options with
              | Some shouldCache => negb (shouldCache r)
              | None => false
              end
      then ret response
      else
        do cacheKey ← generateCacheKey (env_heap env) (resp_config r) options;
        run tryCatch
              (let safeResponse := safeResponseOf r in
               let ttl := numberOr (cache_ttl options) 60000 in
               run cacheManagerSet env cacheKey safeResponse ttl;
               logger LogDebug ("Cached response for " +:+ cacheKey
                                +:+ " (TTL: " +:+ pretty ttl +:+ "ms)"))
              (λ error,
                 logger LogWarn ("Error al almacenar respuesta en caché: "
                                 +:+ messageOf error));
        ret response
  | _ =>
      throw (typeError "Cannot read properties of undefined (reading 'method')")
  end.

(** *** The axios instance *)

(** A cached value handed back by the replaced adapter, seen as a response:
    its [config] has only [url], [method] and [headers]. *)
Definition responseOfSafe (cached : SafeResponse) : AxiosResponse :=
  {| resp_data := safe_data cached;
     resp_status := safe_status cached;
     resp_statusText := safe_statusText cached;
     resp_headers := safe_headers cached;
     resp_config :=
       {| cfg_method := safe_method (safe_config cached);
          cfg_url := safe_url (safe_config cached);
          cfg_headers := safe_reqHeaders (safe_config cached);
          cfg_params := JUndefined; cfg_data := JUndefined;
          cfg_adapter := None; cfg_retryCount := None |} |}.

(** [dispatchRequest]: call [config.adapter], which is the transport unless
    the cache interceptor replaced it.  axios' [transformRequest] and
    [transformResponse], which run before and after the adapter, are not
    modelled: the body is handed to the adapter as it is, and so is the value
    of a replaced adapter to the response interceptors.  axios does the same
    when the request has no body and the [data] of the value is not text. *)
Definition dispatchRequest (env : Env) (config : AxiosRequestConfig) : M value :=
  match cfg_adapter config with
  | Some cached => ret (VResponse (responseOfSafe cached))
  | None =>
      λ w,
        match transport env (length (sent w)) config with
        | inl response => (Returns (VResponse response), addSent config w)
        | inr error => (Throws (VError error), addSent config w)
        end
  end.

(** [Axios.request] sets [config.method] to
    [(config.method || 'get').toLowerCase()] before the chain starts.  The
    merge with the defaults of the instance, which comes first, is not
    modelled: a config stands for the caller's config with the default
    headers already in it. *)
Definition normaliseMethod (config : AxiosRequestConfig) : AxiosRequestConfig :=
  {| cfg_method := Some (lowerMethodOr (cfg_method config) "get");
     cfg_url := cfg_url config; cfg_headers := cfg_headers config;
     cfg_params := cfg_params config; cfg_data := cfg_data config;
     cfg_adapter := cfg_adapter config;
     cfg_retryCount := cfg_retryCount config |}.

Definition optionalHandler {A B : Type} (handler : option (A → settled B))
    (absent : A → M B) : A → M B :=
  match handler with
  | Some f => λ a, awaitSettled (f a)
  | None => absent
  end.

(** The interceptors of [options.interceptors]: on requests the chain runs
    them last-registered first, on responses in registration order. *)
Definition userRequestInterceptors (svc : HttpService) : list RequestInterceptor :=
  match opt_interceptors (httpModuleOptions svc) with
  | Some ic => default [] (ic_request ic)
  | None => []
  end.

Definition userResponseInterceptors (svc : HttpService) : list ResponseInterceptor :=
  match opt_interceptors (httpModuleOptions svc) with
  | Some ic => default [] (ic_response ic)
  | None => []
  end.

Definition throughRequestInterceptors (interceptors : list RequestInterceptor)
    (p : M AxiosRequestConfig) : M AxiosRequestConfig :=
  fold_left
    (λ p i, then_ p (optionalHandler (rqi_onFulfilled i) ret)
                    (optionalHandler (rqi_onRejected i) throw))
    (rev interceptors) p.

Definition throughResponseInterceptors (interceptors : list ResponseInterceptor)
    (p : M value) : M value :=
  fold_left
    (λ p i, then_ p (optionalHandler (rsi_onFulfilled i) ret)
                    (optionalHandler (rsi_onRejected i) throw))
    interceptors p.

(** [this.axiosInstance.request(config)]: the promise chain axios builds.
    Interceptors were registered in the order retry, cache, global
    interceptors, middlewares; request interceptors run in the reverse of
    that order, response interceptors in that order. *)

(** The request interceptors, from the merged config to the config handed
    to the adapter. *)
Definition requestChain (env : Env) (svc : HttpService)
    (config : AxiosRequestConfig) : M AxiosRequestConfig :=
  let p := ret (normaliseMethod config) in
  let p := then_ p (requestMiddlewareInterceptor svc) throw in
  let p := throughRequestInterceptors (userRequestInterceptors svc) p in
  let p := match cacheOptionsOf svc with
           | Some options => then_ p (cacheRequestInterceptor env options) throw
           | None => p
           end in
  match retryOptionsOf svc with
  | Some _ => then_ p axiosRetryRequestInterceptor throw
  | None => p
  end.

(** The chain up to the middleware interceptor, which is the last one;
    [again] is the instance itself, called by axios-retry. *)
Definition beforeMiddlewares (again : AxiosRequestConfig → M value)
    (env : Env) (svc : HttpService) (config : AxiosRequestConfig) : M value :=
  let p := then_ (requestChain env svc config) (dispatchRequest env) throw in
  let p := match retryOptionsOf svc with
           | Some options =>
               then_ p ret (axiosRetryOnRejected env options again)
           | None => p
           end in
  let p := match cacheOptionsOf svc with
           | Some options => then_ p (cacheResponseInterceptor env options) throw
           | None => p
           end in
  throughResponseInterceptors (userResponseInterceptors svc) p.

Definition instanceRequest (again : AxiosRequestConfig → M value)
    (env : Env) (svc : HttpService) (config : AxiosRequestConfig) : M value :=
  then_ (beforeMiddlewares again env svc config)
    (responseMiddlewareInterceptor svc) (errorMiddlewareInterceptor svc).

(** One unit of fuel per pass through the instance: a retry is a new
    pass. *)
Fixpoint axiosRequest (fuel : nat) (env : Env) (svc : HttpService)
    (config : AxiosRequestConfig) : M value :=
  match fuel with
  | O => unfinished
  | S fuel' => instanceRequest (axiosRequest fuel' env svc) env svc config
  end.

(** *** The public methods *)

Definition request := axiosRequest.

Definition withMethodUrl (method url : string) (config : AxiosRequestConfig)
  : AxiosRequestConfig :=
  {| cfg_method := Some method; cfg_url := Some url;
     cfg_headers := cfg_headers config; cfg_params := cfg_params config;
     cfg_data := cfg_data config; cfg_adapter := cfg_adapter config;
     cfg_retryCount := cfg_retryCount config |}.

Definition withData (data : jsval) (config : AxiosRequestConfig)
  : AxiosRequestConfig :=
  {| cfg_method := cfg_method config; cfg_url := cfg_url config;
     cfg_headers := cfg_headers config; cfg_params := cfg_params config;
     cfg_data := data; cfg_adapter := cfg_adapter config;
     cfg_retryCount := cfg_retryCount config |}.

Definition emptyConfig : AxiosRequestConfig :=
  {| cfg_method := None; cfg_url := None; cfg_headers := [];
     cfg_params := JUndefined; cfg_data := JUndefined;
     cfg_adapter := None; cfg_retryCount := None |}.

Definition get (fuel : nat) (env : Env) (svc : HttpService) (url : string)
    (config : AxiosRequestConfig) : M value :=
  axiosRequest fuel env svc (withMethodUrl "get" url config).

Definition post (fuel : nat) (env : Env) (svc : HttpService) (url : string)
    (data : jsval) (config : AxiosRequestConfig) : M value :=
  axiosRequest fuel env svc (withMethodUrl "post" url (withData data config)).

(** ** [HttpModule.configureCacheModule] ([http.module.ts]) *)

Record CacheModuleOptions : Type := {
  cm_redis : option (string * Z * option string);
  cm_ttl : Z;
  cm_max : Z;
}.

Definition stringOr (x : option string) (d : string) : string :=
  match x with
  | Some s => if String.eqb s "" then d else s
  | None => d
  end.

Definition configureCacheModule (options : HttpModuleOptions)
  : CacheModuleOptions :=
  let cacheConfig :=
    match opt_cache options with
    | Some (Options c) => c
    | _ => emptyCacheOptions
    end in
  {| cm_redis :=
       match cache_redis cacheConfig with
       | Some redis =>
           Some (stringOr (redis_host redis) "localhost",
                 numberOr (redis_port redis) 6379,
                 redis_password redis)
       | None => None
       end;
     cm_ttl := numberOr (cache_ttl cacheConfig) 60000;
     cm_max := numberOr (cache_max cacheConfig) 100 |}.

(** * Vocabulary of the properties *)

(** ** Renaming of object identities *)

Definition renameVal (f : addr → addr) (v : jsval) : jsval :=
  match v with
  | JRef a => JRef (f a)
  | _ => v
  end.

Definition renameObj (f : addr → addr) (o : jsobj) : jsobj :=
  match o with
  | JObject fields => JObject ((λ field, (field.1, renameVal f field.2)) <$> fields)
  | JArray items => JArray (renameVal f <$> items)
  end.

Definition renameConfig (f : addr → addr) (config : AxiosRequestConfig)
  : AxiosRequestConfig :=
  {| cfg_method := cfg_method config; cfg_url := cfg_url config;
     cfg_headers := cfg_headers config;
     cfg_params := renameVal f (cfg_params config);
     cfg_data := renameVal f (cfg_data config);
     cfg_adapter := cfg_adapter config;
     cfg_retryCount := cfg_retryCount config |}.

(** [h2] holds, at the addresses [f] names, the same objects as [h1]: the
    two heaps have the same structure, sharing and cycles included. *)
Definition sameStructure (f : addr → addr) (h1 h2 : heap) : Prop :=
  (∀ a o, h1 !! a = Some o → h2 !! f a = Some (renameObj f o))
  ∧ (∀ a b, (a < length h1)%nat → (b < length h1)%nat → f a = f b → a = b).

(** Deep equality of two values to depth [n]: equal primitive values,
    arrays of the same length with deep-equal elements, objects with the
    same property names in the same order and deep-equal values.  Whether
    two references name one object or two equal ones makes no difference. *)
Fixpoint all2 {A B : Type} (p : A → B → bool) (l1 : list A) (l2 : list B)
  : bool :=
  match l1, l2 with
  | [], [] => true
  | x :: l1', y :: l2' => p x y && all2 p l1' l2'
  | _, _ => false
  end.

Fixpoint deepEqualTo (n : nat) (h1 h2 : heap) (v1 v2 : jsval) : bool :=
  match v1, v2 with
  | JRef a1, JRef a2 =>
      match n with
      | O => true
      | S n' =>
          match h1 !! a1, h2 !! a2 with
          | Some (JObject fields1), Some (JObject fields2) =>
              all2 (λ x y, String.eqb x.1 y.1 && deepEqualTo n' h1 h2 x.2 y.2)
                fields1 fields2
          | Some (JArray items1), Some (JArray items2) =>
              all2 (deepEqualTo n' h1 h2) items1 items2
          | _, _ => false
          end
      end
  | JRef _, _ | _, JRef _ => false
  | _, _ => bool_decide (v1 = v2)
  end.

(** Structural equality in the sense of the specification: deep equality
    to every depth. *)
Definition deepEqual (h1 h2 : heap) (v1 v2 : jsval) : Prop :=
  ∀ n, deepEqualTo n h1 h2 v1 v2 = true.

Definition structurallyEqual (h1 h2 : heap) (c1 c2 : AxiosRequestConfig)
  : Prop :=
  cfg_method c1 = cfg_method c2 ∧ cfg_url c1 = cfg_url c2
  ∧ cfg_headers c1 = cfg_headers c2
  ∧ deepEqual h1 h2 (cfg_params c1) (cfg_params c2)
  ∧ deepEqual h1 h2 (cfg_data c1) (cfg_data c2).

(** The replacer state is a set of heap addresses. *)
Definition boundedSeen (h : heap) (seen : list addr) : Prop :=
  NoDup seen ∧ ∀ a, a ∈ seen → (a < length h)%nat.

(** What one call of the serialiser guarantees, on the heap [h1] and on a
    heap [h2] of the same structure. *)
Definition stepSpec (f : addr → addr) (h1 : heap) (n : nat)
    (P Q : list addr → jsval → serialised) : Prop :=
  ∀ seen v, boundedSeen h1 seen → wfVal h1 v →
    (length h1 - length seen < n)%nat →
    match P seen v with
    | Returns (s, seen') =>
        boundedSeen h1 seen' ∧ (length seen ≤ length seen')%nat
        ∧ Q (f <$> seen) (renameVal f v) = Returns (s, f <$> seen')
    | Throws e => Q (f <$> seen) (renameVal f v) = Throws e
    | OutOfFuel => False
    end.

(** ** Order of execution *)


(** The calls of [process] made between the worlds [w] and [w'], oldest
    first. *)
Definition callsBetween (w w' : world) (calls : list middlewareCall) : Prop :=
  invoked w' = rev calls ++ invoked w.



(** The error after every middleware of [ms] has handed an error on; [None]
    when one of them resolves the error or rejects. *)
Fixpoint handedOn (ms : list ErrorMiddleware) (error : value) : option value :=
  match ms with
  | [] => Some error
  | m :: rest =>
      match erm_process m error with
      | Fulfilled next => if instanceofError next then handedOn rest next else None
      | Rejected _ => None
      end
  end.

(** ** Retries *)

(** The retry decision in the words of the specification.  A custom
    predicate, if supplied, decides alone; otherwise retry on a
    network-level failure, which is one where no response was received, or
    when the response status is in the retryable-status set and the request
    method is in the retryable-method set, compared without regard to
    letter case. *)
Definition retryDecisionAsSpecified (options : RetryOptions)
    (error : JsError) : Prop :=
  match retryCondition options with
  | Some custom => custom error = true
  | None =>
      err_response error = None
      ∨ ∃ response config method entry,
          err_response error = Some response
          ∧ resp_status response
              ∈ default defaultStatusCodesToRetry (statusCodesToRetry options)
          ∧ err_config error = Some config
          ∧ cfg_method config = Some method
          ∧ entry ∈ default defaultMethodsToRetry (methodsToRetry options)
          ∧ toLowerCase entry = toLowerCase method
  end.

(** The retry decision as amended.  A custom predicate, if supplied,
    decides alone; otherwise retry when axios-retry takes the failure for a
    network error, or when the response status is in the retryable-status
    set and the lower-cased request method is an element of the
    retryable-method set as it is configured. *)
Definition retryDecision (env : Env) (options : RetryOptions)
    (error : JsError) : Prop :=
  match retryCondition options with
  | Some custom => custom error = true
  | None =>
      isNetworkError env error = true
      ∨ ∃ response config method,
          err_response error = Some response
          ∧ resp_status response
              ∈ default defaultStatusCodesToRetry (statusCodesToRetry options)
          ∧ err_config error = Some config
          ∧ cfg_method config = Some method
          ∧ toLowerCase method
              ∈ default defaultMethodsToRetry (methodsToRetry options)
  end.

(** The same error for a request with another method. *)
Definition withErrorMethod (method : string) (error : JsError) : JsError :=
  {| err_message := err_message error; err_code := err_code error;
     err_config :=
       (λ config,
          {| cfg_method := Some method; cfg_url := cfg_url config;
             cfg_headers := cfg_headers config;
             cfg_params := cfg_params config; cfg_data := cfg_data config;
             cfg_adapter := cfg_adapter config;
             cfg_retryCount := cfg_retryCount config |})
       <$> err_config error;
     err_response := err_response error |}.

(** The config of an attempt: the method normalised by axios, the retry
    count set by axios-retry. *)
Definition attemptConfig (config : AxiosRequestConfig) (retryCount : nat)
  : AxiosRequestConfig :=
  setRetryCount retryCount (normaliseMethod config).

(** The transport fails every attempt of the request with an error that
    carries the config of the attempt and that the retry condition
    accepts. *)
Definition alwaysFailsRetryable (env : Env) (options : RetryOptions)
    (config : AxiosRequestConfig) : Prop :=
  ∀ n retryCount, ∃ error,
    transport env n (attemptConfig config retryCount) = inr error
    ∧ err_config error = Some (attemptConfig config retryCount)
    ∧ retryConditionOf env options error = Returns true.

(** The outcome of a request whose attempts all failed: the transport was
    invoked [attempts] more times, and the request is rejected with the
    error the transport gave to the last invocation. *)
Definition rejectedWithLastError (env : Env) (attempts : nat) (w : world)
    (result : outcome value value * world) : Prop :=
  ∃ configs last error,
    sent result.2 = last :: configs ++ sent w
    ∧ S (length configs) = attempts
    ∧ transport env (length (configs ++ sent w)) last = inr error
    ∧ result.1 = Throws (VError error).

(** The cache does not serve the request: at every attempt the cache
    request interceptor, if the service has one, returns the config as it
    is (a miss, or a method that is not cached) and touches neither the
    transport nor the store. *)
Definition notServedFromCache (env : Env) (svc : HttpService)
    (config : AxiosRequestConfig) (w : world) : Prop :=
  ∀ options c w',
    cacheOptionsOf svc = Some options →
    (∀ n, attemptConfig c n = attemptConfig config n) →
    store w' = store w →
    ∃ w'',
      cacheRequestInterceptor env options (normaliseMethod c) w'
      = (Returns (normaliseMethod c), w'')
      ∧ sent w'' = sent w' ∧ store w'' = store w'.

(** ** Default configuration *)

(** The request method is POST, in any letter case. *)
Definition isPost (config : AxiosRequestConfig) : Prop :=
  ∃ method, cfg_method config = Some method ∧ toLowerCase method = "post".

(** No middleware is registered and no global interceptor configured. *)
Definition noCustomStages (svc : HttpService) : Prop :=
  requestMiddlewares svc = [] ∧ responseMiddlewares svc = []
  ∧ errorMiddlewares svc = []
  ∧ userRequestInterceptors svc = [] ∧ userResponseInterceptors svc = [].

(** The answers of the transport carry the config it was called with. *)
Definition transportEchoesConfig (env : Env) : Prop :=
  ∀ n config,
    match transport env n config with
    | inl response => resp_config response = config
    | inr error => err_config error = Some config
    end.

(** The config the adapter is called with when no interceptor changes it. *)
Definition dispatchedConfig (svc : HttpService) (config : AxiosRequestConfig)
  : AxiosRequestConfig :=
  match retryOptionsOf svc with
  | Some _ => attemptConfig config (default 0%nat (cfg_retryCount config))
  | None => normaliseMethod config
  end.

(** What a POST request leaves behind: the cache store untouched and never
    consulted, and a fulfilled value that is a response to a POST. *)
Definition cacheUntouched (w : world) (result : outcome value value * world)
  : Prop :=
  storeOps result.2 = storeOps w
  ∧ store result.2 = store w
  ∧ ∀ v, result.1 = Returns v → ∃ r, v = VResponse r ∧ isPost (resp_config r).

(** ** Cache options *)

(** [options.shouldCache] is absent or accepts the response. *)
Definition acceptedByShouldCache (options : CacheOptions)
    (response : AxiosResponse) : Prop :=
  match cache_shouldCache options with
  | Some shouldCache => shouldCache response = true
  | None => True
  end.

Definition withStrategyAndRoutes (strategy : option CacheStrategy)
    (routes : option (list CacheRouteConfig)) (options : CacheOptions)
  : CacheOptions :=
  {| cache_ttl := cache_ttl options; cache_max := cache_max options;
     cache_methods := cache_methods options; cache_strategy := strategy;
     cache_redis := cache_redis options; cache_routes := routes;
     cache_shouldCache := cache_shouldCache options;
     cache_cacheKey := cache_cacheKey options |}.

(** * Scenarios *)

(** ** Worlds, transports, requests *)

Definition emptyWorld : world :=
  {| store := ∅; storeOps := []; sent := []; invoked := []; logs := [] |}.

(** A 200 response to the given config. *)
Definition okResponse (data : jsval) (config : AxiosRequestConfig)
  : AxiosResponse :=
  {| resp_data := data; resp_status := 200; resp_statusText := "OK";
     resp_headers := []; resp_config := config |}.

(** An [AxiosError] for a response with the given status. *)
Definition statusError (status : Z) (config : AxiosRequestConfig) : JsError :=
  {| err_message := "Request failed with status code " +:+ pretty status;
     err_code := Some "ERR_BAD_RESPONSE";
     err_config := Some config;
     err_response :=
       Some {| resp_data := JNull; resp_status := status;
               resp_statusText := ""; resp_headers := [];
               resp_config := config |} |}.

(** A transport that answers every request with the given status. *)
Definition failingTransport (status : Z)
  : nat → AxiosRequestConfig → AxiosResponse + JsError :=
  λ _ config, inr (statusError status config).

(** A transport that answers every request with a fresh 200 response. *)
Definition freshTransport : nat → AxiosRequestConfig → AxiosResponse + JsError :=
  λ _ config, inl (okResponse (JStr "fresh") config).

(** A working cache manager. *)
Definition plainEnv (h : heap)
    (t : nat → AxiosRequestConfig → AxiosResponse + JsError) : Env :=
  {| env_heap := h; transport := t;
     cacheGetFails := λ _, None; cacheSetFails := λ _, None;
     networkErrorCode := λ code, bool_decide (code = Some "ECONNRESET") |}.

(** The transport answers every request with 503 Service Unavailable. *)
Definition unavailableEnv : Env := plainEnv [] (failingTransport 503).

Definition pokemonConfig : AxiosRequestConfig :=
  withMethodUrl "get" "/pokemon/25" emptyConfig.

Definition postConfig : AxiosRequestConfig :=
  withMethodUrl "POST" "/pokemon" emptyConfig.

(** ** Services *)

(** Retry configured; no cache, no global interceptors, no middlewares. *)
Definition retryOnlyService (options : RetryOptions) : HttpService :=
  newHttpService
    {| opt_retry := Some (Options options); opt_cache := None;
       opt_interceptors := None |}
    false.

(** Cache configured, with a cache manager; nothing else. *)
Definition cachingService (options : CacheOptions) : HttpService :=
  newHttpService
    {| opt_retry := None; opt_cache := Some (Options options);
       opt_interceptors := None |}
    true.

(** Retry and cache both configured with their defaults: [retry: {}],
    [cache: {}], and a cache manager. *)
Definition retryAndCacheService : HttpService :=
  newHttpService
    {| opt_retry := Some (Options emptyRetryOptions);
       opt_cache := Some (Options emptyCacheOptions);
       opt_interceptors := None |}
    true.

(** ** A circular request value *)

(** [const o = { self: o, items: [o, 25] }], laid out in two ways. *)
Definition heapA : heap :=
  [JObject [("self", JRef 0%nat); ("items", JRef 1%nat)];
   JArray [JRef 0%nat; JNum 25]].

Definition heapB : heap :=
  [JArray [JRef 1%nat; JNum 25];
   JObject [("self", JRef 1%nat); ("items", JRef 0%nat)]].

Definition swap01 (a : addr) : addr :=
  match a with
  | O => 1%nat
  | S O => O
  | _ => a
  end.

Definition circularConfig : AxiosRequestConfig :=
  {| cfg_method := Some "GET"; cfg_url := Some "/pokemon";
     cfg_headers := []; cfg_params := JRef 0%nat; cfg_data := JUndefined;
     cfg_adapter := None; cfg_retryCount := None |}.

(** ** A shared request value *)

(** [const o = {}; const shared = [o, o]; const copied = [{}, {}]]: the
    arrays are at the addresses 0 and 1. *)
Definition sharedHeap : heap :=
  [JArray [JRef 2%nat; JRef 2%nat]; JArray [JRef 2%nat; JRef 3%nat];
   JObject []; JObject []].

Definition sharedConfig (params : addr) : AxiosRequestConfig :=
  {| cfg_method := Some "GET"; cfg_url := Some "/pokemon";
     cfg_headers := []; cfg_params := JRef params; cfg_data := JUndefined;
     cfg_adapter := None; cfg_retryCount := None |}.

(** ** A request value of every kind *)

(** [{ name: 'pikachu', id: 25, shiny: undefined,
       tags: [true, null, undefined, -3, false], stats: {} }]. *)
Definition pikachuHeap : heap :=
  [JObject [("name", JStr "pikachu"); ("id", JNum 25); ("shiny", JUndefined);
            ("tags", JRef 1%nat); ("stats", JRef 2%nat)];
   JArray [JBool true; JNull; JUndefined; JNum (-3); JBool false];
   JObject []].

(** ** A service that turns a 404 into [{ found: false }] *)

(** The heap holds the substituted value [{ found: false }]. *)
Definition notFoundHeap : heap := [JObject [("found", JBool false)]].

(** The error middleware of [example.service.ts]: it logs and rejects. *)
Definition loggingErrorMiddleware : ErrorMiddleware :=
  {| erm_priority := Some 10; erm_process := λ error, Rejected error |}.

(** [if (error.response?.status === 404) return { found: false };
     return error], registered with priority 5. *)
Definition notFoundMiddleware : ErrorMiddleware :=
  {| erm_priority := Some 5;
     erm_process := λ error,
       match error with
       | VError e =>
           match err_response e with
           | Some r =>
               if resp_status r =? 404 then Fulfilled (VData (JRef 0%nat))
               else Fulfilled error
           | None => Fulfilled error
           end
       | _ => Fulfilled error
       end |}.

(** Retry configured with the defaults; the two error middlewares
    registered in this order. *)
Definition notFoundService : HttpService :=
  {| httpModuleOptions :=
       {| opt_retry := Some (Options emptyRetryOptions); opt_cache := None;
          opt_interceptors := None |};
     cacheManager := false;
     requestMiddlewares := []; responseMiddlewares := [];
     errorMiddlewares := [loggingErrorMiddleware; notFoundMiddleware] |}.

(** ** Cache configurations and stores *)

(** Cache options that ask for the side-cache strategy and nothing else. *)
Definition sideCacheOptions : CacheOptions :=
  {| cache_ttl := None; cache_max := None; cache_methods := None;
     cache_strategy := Some SIDE_CACHE; cache_redis := None;
     cache_routes := None; cache_shouldCache := None;
     cache_cacheKey := None |}.

(** Global [{ ttl: 60000, strategy: cache-first, methods: [get] }] and the
    route rule [{ pattern: "/pokemon/.*", strategy: side-cache,
    ttl: 3600000 }]. *)
Definition pokemonCacheOptions : CacheOptions :=
  {| cache_ttl := Some 60000; cache_max := None;
     cache_methods := Some ["get"]; cache_strategy := Some CACHE_FIRST;
     cache_redis := None;
     cache_routes :=
       Some [ {| route_pattern := "/pokemon/.*"; route_strategy := SIDE_CACHE;
                 route_ttl := Some 3600000; route_methods := None |} ];
     cache_shouldCache := None; cache_cacheKey := None |}.

(** Options in which the numbers are explicitly zero. *)
Definition zeroRetryOptions : RetryOptions :=
  {| retries := Some 0; retryDelay := None; statusCodesToRetry := None;
     methodsToRetry := None; retryCondition := None |}.

Definition zeroTtlCacheOptions : CacheOptions :=
  {| cache_ttl := Some 0; cache_max := None; cache_methods := None;
     cache_strategy := None; cache_redis := None; cache_routes := None;
     cache_shouldCache := None; cache_cacheKey := None |}.

(** The key of GET /pokemon/25 without params and body. *)
Definition pokemonKey : string := "http-cache:get:/pokemon/25::".

(** What an earlier request left in the cache. *)
Definition staleResponse : SafeResponse :=
  safeResponseOf (okResponse (JStr "stale") (normaliseMethod pokemonConfig)).

Definition staleWorld : world :=
  setStore {[ pokemonKey := {| entry_value := staleResponse; entry_ttl := 60000 |} ]}
    emptyWorld.

(** A cache manager whose reads, respectively writes, fail. *)
Definition storeError : JsError :=
  {| err_message := "Connection is closed."; err_code := None;
     err_config := None; err_response := None |}.

Definition brokenReadEnv : Env :=
  {| env_heap := []; transport := freshTransport;
     cacheGetFails := λ _, Some storeError; cacheSetFails := λ _, None;
     networkErrorCode := λ code, bool_decide (code = Some "ECONNRESET") |}.

Definition brokenWriteEnv : Env :=
  {| env_heap := []; transport := freshTransport;
     cacheGetFails := λ _, None; cacheSetFails := λ _, Some storeError;
     networkErrorCode := λ code, bool_decide (code = Some "ECONNRESET") |}.

(** * Further functions, vocabulary and scenarios *)

(** ** Middleware failures *)

(** The world [w'] differs from [w] at most in the middleware calls and the
    log: the cache store and the transport were not touched. *)
Definition sameStoreAndTransport (w w' : world) : Prop :=
  store w' = store w ∧ storeOps w' = storeOps w ∧ sent w' = sent w.

(** Nothing changes a request on its way to the transport, and no global
    interceptor sees the outcome. *)
Definition noRequestStages (svc : HttpService) : Prop :=
  requestMiddlewares svc = []
  ∧ userRequestInterceptors svc = [] ∧ userResponseInterceptors svc = [].

(** axios-retry leaves the failure alone: retry is not configured, the
    error carries no config, or the retry condition is false. *)
Definition notRetried (env : Env) (svc : HttpService) (e : JsError) : Prop :=
  match retryOptionsOf svc with
  | None => True
  | Some options =>
      err_config e = None ∨ retryConditionOf env options e = Returns false
  end.


(** A rejection value without a [config] property: axios-retry passes it
    on. *)
Definition carriesNoConfig (v : value) : Prop :=
  match v with
  | VError e => err_config e = None
  | _ => True
  end.

(** The response middleware of the README: it throws when the API reports
    an error in the body; here, always. *)
Definition validatingMiddleware : ResponseMiddleware :=
  {| rsm_priority := Some 10;
     rsm_process := λ _, Rejected (typeError "API returned error status") |}.

(** A request middleware that rejects the request. *)
Definition refusingMiddleware : RequestMiddleware :=
  {| rqm_priority := None;
     rqm_process := λ _, Rejected (typeError "not signed in") |}.

(** Retry and cache with their defaults, the two middlewares above and the
    error middlewares of [notFoundService]. *)
Definition guardedService (refuse : bool) : HttpService :=
  {| httpModuleOptions :=
       {| opt_retry := Some (Options emptyRetryOptions);
          opt_cache := Some (Options emptyCacheOptions);
          opt_interceptors := None |};
     cacheManager := true;
     requestMiddlewares := if refuse then [refusingMiddleware] else [];
     responseMiddlewares := [validatingMiddleware];
     errorMiddlewares := [loggingErrorMiddleware; notFoundMiddleware] |}.

(** ** Cache keys and cache entries *)

(** The key [generateCacheKey] gives to a request: the warning it may log
    aside, the function reads nothing but its arguments. *)
Definition cacheKeyOf (h : heap) (config : AxiosRequestConfig)
    (options : CacheOptions) : outcome string value :=
  (generateCacheKey h config options emptyWorld).1.

(** [options.cacheKey] is a function. *)
Definition keyFunction (options : CacheOptions) : bool :=
  match cache_cacheKey options with
  | Some (inr _) => true
  | _ => false
  end.

(** The method of the request, as axios normalises it, is one the cache
    handles. *)
Definition cacheable (options : CacheOptions) (config : AxiosRequestConfig)
  : Prop :=
  cacheableMethod options (cfg_method (normaliseMethod config)) = true.

(** Two requests agree on the method (letter case aside), the URL, the
    params and the body; their headers are free. *)
Definition sameCacheIdentity (c1 c2 : AxiosRequestConfig) : Prop :=
  lowerMethodOr (cfg_method c1) "get" = lowerMethodOr (cfg_method c2) "get"
  ∧ default "" (cfg_url c1) = default "" (cfg_url c2)
  ∧ cfg_params c1 = cfg_params c2
  ∧ cfg_data c1 = cfg_data c2.

(** The entry the response interceptor writes for a value. *)
Definition entryFor (options : CacheOptions) (v : SafeResponse) : CacheEntry :=
  {| entry_value := v; entry_ttl := numberOr (cache_ttl options) 60000 |}.

(** The default key of a request to the URL of a cached value, with the
    method of that value and neither params nor body. *)
Definition bareKey (cached : SafeResponse) : string :=
  "http-cache:" +:+ lowerMethodOr (safe_method (safe_config cached)) "get"
  +:+ ":" +:+ default "" (safe_url (safe_config cached)) +:+ "::".

(** The request has no body, so that axios' [transformRequest] has nothing
    to change. *)
Definition noBody (config : AxiosRequestConfig) : Prop :=
  cfg_data config = JUndefined.

(** Data that axios' [transformResponse] leaves as it is: anything but
    text, which it would try to parse as JSON. *)
Definition notText (data : jsval) : Prop :=
  ∀ s, data = JStr s → s = "".

(** The request was answered by the response [r] of the transport, which
    was invoked once, and [r] is stored under [key]. *)
Definition fetchedAndStored (svc : HttpService) (options : CacheOptions)
    (config : AxiosRequestConfig) (r : AxiosResponse) (key : string)
    (w : world) (result : outcome value value * world) : Prop :=
  result.1 = Returns (VResponse r)
  ∧ sent result.2 = dispatchedConfig svc config :: sent w
  ∧ store result.2 = <[key := entryFor options (safeResponseOf r)]> (store w).

(** The request was answered with the cached value, and the transport was
    not invoked. *)
Definition servedFromCache (cached : SafeResponse) (w : world)
    (result : outcome value value * world) : Prop :=
  result.1 = Returns (VResponse (responseOfSafe cached))
  ∧ sent result.2 = sent w.

(** ** Requests for a list of pokémon *)

(** [{ limit: 10 }]. *)
Definition listHeap : heap := [JObject [("limit", JNum 10)]].

Definition listConfigOf (method : string) (token : string)
  : AxiosRequestConfig :=
  {| cfg_method := Some method; cfg_url := Some "/pokemon";
     cfg_headers := [("Authorization", token)];
     cfg_params := JRef 0%nat; cfg_data := JUndefined;
     cfg_adapter := None; cfg_retryCount := None |}.

(** The same list requested by two users. *)
Definition aliceConfig : AxiosRequestConfig := listConfigOf "GET" "Bearer alice".

Definition bobConfig : AxiosRequestConfig := listConfigOf "get" "Bearer bob".

(** The list without params. *)
Definition bareListConfig : AxiosRequestConfig :=
  withMethodUrl "get" "/pokemon" emptyConfig.

(** A transport that answers every request with 200 and the number 25. *)
Definition numberTransport
  : nat → AxiosRequestConfig → AxiosResponse + JsError :=
  λ _ config, inl (okResponse (JNum 25) config).

Definition listEnv : Env := plainEnv listHeap numberTransport.

Definition listKey : string :=
  Eval vm_compute in
    match cacheKeyOf listHeap aliceConfig emptyCacheOptions with
    | Returns key => key
    | _ => ""
    end.

(** What the transport answers to the first request of [aliceConfig]. *)
Definition aliceResponse : AxiosResponse :=
  okResponse (JNum 25) (dispatchedConfig retryAndCacheService aliceConfig).

(** The world after [aliceConfig] was requested once. *)
Definition aliceWorld : world :=
  (request 1 listEnv retryAndCacheService aliceConfig emptyWorld).2.

(** One key for every request: [cacheKey: 'pokemon']. *)
Definition fixedKeyOptions : CacheOptions :=
  {| cache_ttl := None; cache_max := None; cache_methods := None;
     cache_strategy := None; cache_redis := None; cache_routes := None;
     cache_shouldCache := None; cache_cacheKey := Some (inl "pokemon") |}.

(** ** Method lists *)

(** No entry of the list is in lower case throughout. *)
Definition noLowerCaseEntry (methods : list string) : Prop :=
  ∀ m, m ∈ methods → toLowerCase m ≠ m.

(** [methods: ['GET', 'HEAD']]. *)
Definition upperCaseCacheOptions : CacheOptions :=
  {| cache_ttl := None; cache_max := None;
     cache_methods := Some ["GET"; "HEAD"];
     cache_strategy := None; cache_redis := None; cache_routes := None;
     cache_shouldCache := None; cache_cacheKey := None |}.

(** [methodsToRetry: ['GET', 'HEAD']]. *)
Definition upperCaseRetryOptions : RetryOptions :=
  {| retries := None; retryDelay := None; statusCodesToRetry := None;
     methodsToRetry := Some ["GET"; "HEAD"]; retryCondition := None |}.

(** The error of a request that timed out: no response, and the code
    axios-retry excludes from the network errors. *)
Definition timeoutError : JsError :=
  {| err_message := "timeout of 10000ms exceeded";
     err_code := Some "ECONNABORTED";
     err_config := Some pokemonConfig; err_response := None |}.

(** ** Params that cannot be serialised *)

(** [{ id: 1n }] and [{ id: 2n }]. *)
Definition bigIntHeap : heap :=
  [JObject [("id", JBigInt 1)]; JObject [("id", JBigInt 2)]].

Definition bigIntConfig (a : addr) : AxiosRequestConfig :=
  {| cfg_method := Some "get"; cfg_url := Some "/pokemon";
     cfg_headers := []; cfg_params := JRef a; cfg_data := JUndefined;
     cfg_adapter := None; cfg_retryCount := None |}.

(** ** Requests that fail *)

(** A result that is either a response or a rejection that left the store
    as it was. *)
Definition responseOrStoreKept (s : gmap string CacheEntry)
    (result : outcome value value * world) : Prop :=
  match result.1 with
  | Returns v => ∃ r, v = VResponse r
  | Throws _ => store result.2 = s
  | OutOfFuel => True
  end.

(** ** Retries and middlewares *)

(** [l], [n] times over. *)
Fixpoint repeated {A : Type} (n : nat) (l : list A) : list A :=
  match n with
  | O => []
  | S n' => l ++ repeated n' l
  end.

(** Retry is configured, the cache is not, and nothing changes a request
    on its way to the transport. *)
Definition retriesOnly (svc : HttpService) (options : RetryOptions) : Prop :=
  retryOptionsOf svc = Some options ∧ cacheOptionsOf svc = None
  ∧ requestMiddlewares svc = []
  ∧ userRequestInterceptors svc = [] ∧ userResponseInterceptors svc = [].

(** The response middlewares return the response they are given, as the
    logging middleware of the example service does. *)
Definition observesResponses (svc : HttpService) : Prop :=
  ∀ m v, m ∈ responseMiddlewares svc → rsm_process m v = Fulfilled v.

(** The error middlewares return the error they are given. *)
Definition observesErrors (svc : HttpService) : Prop :=
  ∀ m v, m ∈ errorMiddlewares svc → erm_process m v = Fulfilled v.

(** From the [sentBefore]-th invocation on, the transport fails the
    attempts [first], ..., [first + failures - 1] of the request with errors
    that the retry condition accepts, and answers the next attempt with
    [r]. *)
Definition failsThenAnswers (env : Env) (options : RetryOptions)
    (config : AxiosRequestConfig) (sentBefore first failures : nat)
    (r : AxiosResponse) : Prop :=
  (∀ d, (d < failures)%nat →
     ∃ error,
       transport env (sentBefore + d) (attemptConfig config (first + d))
       = inr error
       ∧ err_config error = Some (attemptConfig config (first + d))
       ∧ retryConditionOf env options error = Returns true)
  ∧ transport env (sentBefore + failures)
      (attemptConfig config (first + failures)) = inl r.

(** Between [w] and [w'] the transport was invoked with the attempts
    [first], ..., [first + count - 1] of the request, in this order. *)
Definition attemptsSent (config : AxiosRequestConfig) (first count : nat)
    (w w' : world) : Prop :=
  sent w' = rev (attemptConfig config <$> seq first count) ++ sent w.

(** A transport that answers 503 to its first [failures] invocations and
    200 from then on. *)
Definition flakyTransport (failures : nat)
  : nat → AxiosRequestConfig → AxiosResponse + JsError :=
  λ n config,
    if (n <? failures)%nat then inr (statusError 503 config)
    else inl (okResponse (JStr "fresh") config).

(** The response middleware of the example service: it logs and returns
    the response. *)
Definition loggingResponseMiddleware : ResponseMiddleware :=
  {| rsm_priority := None; rsm_process := λ response, Fulfilled response |}.

(** An error middleware that logs and returns the error. *)
Definition observingErrorMiddleware : ErrorMiddleware :=
  {| erm_priority := None; erm_process := λ error, Fulfilled error |}.

(** Retry with its defaults, and the two middlewares above. *)
Definition observedService : HttpService :=
  {| httpModuleOptions :=
       {| opt_retry := Some (Options emptyRetryOptions); opt_cache := None;
          opt_interceptors := None |};
     cacheManager := false;
     requestMiddlewares := [];
     responseMiddlewares := [loggingResponseMiddleware];
     errorMiddlewares := [observingErrorMiddleware] |}.

(** ** [HttpService.getAxiosConfig] *)

(** The options object as the set of its own properties.  The values are
    whatever the application put there: [truthyV] is JavaScript's truthiness
    on them, [numberV] embeds the numbers, and [qsSerializer] is the function
    [(params) => qs.stringify(params, { arrayFormat: 'brackets' })].  A
    property that is present with the value [undefined] is present. *)
Section AxiosConfig.
Context {V : Type} (truthyV : V → bool) (numberV : Z → V) (qsSerializer : V).

(** [const { retry, cache, interceptors, ...axiosOptions } = options]. *)
Definition axiosOptionsOf (options : gmap string V) : gmap string V :=
  delete "interceptors" (delete "cache" (delete "retry" options)).

(** [options.timeout || 10000]. *)
Definition timeoutOr (options : gmap string V) : V :=
  match options !! "timeout" with
  | Some t => if truthyV t then t else numberV 10000
  | None => numberV 10000
  end.

(** In the object literal the spread comes last: its properties replace
    the two written before it. *)
Definition getAxiosConfig (options : gmap string V) : gmap string V :=
  let config :=
    axiosOptionsOf options
    ∪ <["paramsSerializer" := qsSerializer]>
        (<["timeout" := timeoutOr options]> ∅) in
  match options !! "headers" with
  | Some hs => if truthyV hs then <["headers" := hs]> config else config
  | None => config
  end.

End AxiosConfig.

(** The properties the service keeps for itself. *)
Definition customOptionKeys : list string := ["retry"; "cache"; "interceptors"].

(** ** Retry, cache and an error middleware that resolves *)








(** ** [ExampleService.fetchData] ([example.service.ts]) *)

(** [o.name] for a value [o] that is neither [undefined] nor [null]: an own
    property of a plain object, [undefined] for everything else the model
    has. *)
Definition getProperty (h : heap) (o : jsval) (name : string) : jsval :=
  match o with
  | JRef a =>
      match h !! a with
      | Some (JObject fields) =>
          match list_find (λ field, field.1 = name) fields with
          | Some (_, field) => field.2
          | None => JUndefined
          end
      | _ => JUndefined
      end
  | _ => JUndefined
  end.

(** Reading a property of [undefined] or [null] throws. *)
Definition readProperty (h : heap) (o : jsval) (name : string)
  : outcome jsval value :=
  match o with
  | JUndefined =>
      Throws (typeError ("Cannot read properties of undefined (reading '"
                         +:+ name +:+ "')"))
  | JNull =>
      Throws (typeError ("Cannot read properties of null (reading '"
                         +:+ name +:+ "')"))
  | _ => Returns (getProperty h o name)
  end.

(** [response.data] on what [get] was fulfilled with.  An error object has
    no [data]. *)
Definition dataOf (h : heap) (response : value) : outcome jsval value :=
  match response with
  | VResponse r => Returns (resp_data r)
  | VError _ => Returns JUndefined
  | VData d => readProperty h d "data"
  end.

(** [error.message] on what was caught, for its effect only. *)
Definition readMessage (h : heap) (error : value) : outcome unit value :=
  match error with
  | VData d =>
      match readProperty h d "message" with
      | Returns _ => Returns tt
      | Throws thrown => Throws thrown
      | OutOfFuel => OutOfFuel
      end
  | _ => Returns tt
  end.

(** [error.response?.status === 404].  A response object has no
    [response]. *)
Definition isNotFound (h : heap) (error : value) : bool :=
  match error with
  | VError e =>
      match err_response e with
      | Some response => resp_status response =? 404
      | None => false
      end
  | VResponse _ => false
  | VData d =>
      match getProperty h d "response" with
      | JUndefined | JNull => false
      | response =>
          bool_decide (getProperty h response "status" = JNum 404)
      end
  end.

Definition withParams (params : jsval) (config : AxiosRequestConfig)
  : AxiosRequestConfig :=
  {| cfg_method := cfg_method config; cfg_url := cfg_url config;
     cfg_headers := cfg_headers config; cfg_params := params;
     cfg_data := cfg_data config; cfg_adapter := cfg_adapter config;
     cfg_retryCount := cfg_retryCount config |}.

(** [new Error(`Pokémon no encontrado en la ruta ${endpoint}`)]. *)
Definition notFoundError (endpoint : string) : value :=
  typeError ("Pokémon no encontrado en la ruta " +:+ endpoint).

(** [fetchData(endpoint, params)].  What it writes to the console is left
    out. *)
Definition fetchData (fuel : nat) (env : Env) (svc : HttpService)
    (endpoint : string) (params : jsval) : M jsval :=
  tryCatch
    (do response ← get fuel env svc endpoint (withParams params emptyConfig);
     match dataOf (env_heap env) response with
     | Returns data => ret data
     | Throws thrown => throw thrown
     | OutOfFuel => unfinished
     end)
    (λ error,
       match readMessage (env_heap env) error with
       | Returns _ =>
           if isNotFound (env_heap env) error
           then throw (notFoundError endpoint)
           else throw error
       | Throws thrown => throw thrown
       | OutOfFuel => unfinished
       end).

(** ** Retries and request middlewares *)

(** Retry is configured, and the request middlewares are the only custom
    stage. *)
Definition retriesAndTransforms (svc : HttpService) (options : RetryOptions)
  : Prop :=
  retryOptionsOf svc = Some options ∧ cacheOptionsOf svc = None
  ∧ responseMiddlewares svc = [] ∧ errorMiddlewares svc = []
  ∧ userRequestInterceptors svc = [] ∧ userResponseInterceptors svc = [].

(** The request middlewares, taken together, turn a config [c] into
    [F c], and leave the adapter and the retry state alone. *)
Definition transformsRequests (svc : HttpService)
    (F : AxiosRequestConfig → AxiosRequestConfig) : Prop :=
  (∀ c w, (requestMiddlewareInterceptor svc c w).1 = Returns (F c))
  ∧ (∀ c, cfg_adapter (F c) = cfg_adapter c
          ∧ cfg_retryCount (F c) = cfg_retryCount c).

(** The config the transport is called with in a pass that was entered
    with [c]: normalised by axios, transformed by the request middlewares,
    counted by axios-retry. *)
Definition dispatchedWith (F : AxiosRequestConfig → AxiosRequestConfig)
    (c : AxiosRequestConfig) : AxiosRequestConfig :=
  setRetryCount (default 0%nat (cfg_retryCount (F (normaliseMethod c))))
    (F (normaliseMethod c)).

(** The config the [i]-th pass is entered with: the caller's config, then
    the config the pass before was dispatched with, its retry count
    incremented. *)
Fixpoint passInput (F : AxiosRequestConfig → AxiosRequestConfig)
    (config : AxiosRequestConfig) (i : nat) : AxiosRequestConfig :=
  match i with
  | O => config
  | S i' =>
      let sent := dispatchedWith F (passInput F config i') in
      setRetryCount (S (default 0%nat (cfg_retryCount sent))) sent
  end.

Definition dispatchedAt (F : AxiosRequestConfig → AxiosRequestConfig)
    (config : AxiosRequestConfig) (i : nat) : AxiosRequestConfig :=
  dispatchedWith F (passInput F config i).

(** [config.url = config.url + '/x'; return config]. *)
Definition appendToUrl (c : AxiosRequestConfig) : AxiosRequestConfig :=
  {| cfg_method := cfg_method c;
     cfg_url := Some (default "" (cfg_url c) +:+ "/x");
     cfg_headers := cfg_headers c; cfg_params := cfg_params c;
     cfg_data := cfg_data c; cfg_adapter := cfg_adapter c;
     cfg_retryCount := cfg_retryCount c |}.

Definition appendingMiddleware : RequestMiddleware :=
  {| rqm_priority := None; rqm_process := λ c, Fulfilled (appendToUrl c) |}.

(** Retry with its defaults and the middleware above. *)
Definition appendingService : HttpService :=
  {| httpModuleOptions :=
       {| opt_retry := Some (Options emptyRetryOptions); opt_cache := None;
          opt_interceptors := None |};
     cacheManager := false;
     requestMiddlewares := [appendingMiddleware];
     responseMiddlewares := [];
     errorMiddlewares := [] |}.

(** * Properties *)

(** ** Cache keys *)

Lemma bounded_length (n : nat) (l : list nat) :
  NoDup l → (∀ a, a ∈ l → (a < n)%nat) → (length l ≤ n)%nat.
Proof.
  intros Hnd Hlt.
  rewrite <- (length_seq n 0%nat).
  apply submseteq_length, NoDup_submseteq; [done|].
  intros a Ha. apply elem_of_seq. specialize (Hlt a Ha). lia.
Qed.

Lemma boundedSeen_nil (h : heap) : boundedSeen h [].
Proof. split; [constructor | intros a Ha; inversion Ha]. Qed.

Lemma boundedSeen_cons (h : heap) (a : addr) (seen : list addr) :
  boundedSeen h seen → a ∉ seen → (a < length h)%nat →
  boundedSeen h (a :: seen) ∧ (length seen < length h)%nat.
Proof.
  intros [Hnd Hlt] Hnotin Ha.
  assert (Hb : boundedSeen h (a :: seen)).
  { split; [by constructor|].
    intros b Hb. apply elem_of_cons in Hb as [->|Hb]; auto. }
  split; [done|].
  destruct Hb as [Hnd' Hlt'].
  pose proof (bounded_length (length h) (a :: seen) Hnd' Hlt') as Hlen.
  cbn [length] in Hlen. lia.
Qed.

Lemma serializeElements_spec {A : Type} (valueOf : A → jsval)
    (emit : A → option string → list string) (ren : A → A)
    (f : addr → addr) (h1 : heap) (n : nat)
    (P Q : list addr → jsval → serialised) :
  (∀ x, valueOf (ren x) = renameVal f (valueOf x)) →
  (∀ x s, emit (ren x) s = emit x s) →
  stepSpec f h1 n P Q →
  ∀ xs seen acc,
    Forall (wfVal h1) (valueOf <$> xs) → boundedSeen h1 seen →
    (length h1 - length seen < n)%nat →
    match serializeElements valueOf emit P xs seen acc with
    | Returns (parts, seen') =>
        boundedSeen h1 seen' ∧ (length seen ≤ length seen')%nat
        ∧ serializeElements valueOf emit Q (ren <$> xs) (f <$> seen) acc
          = Returns (parts, f <$> seen')
    | Throws e =>
        serializeElements valueOf emit Q (ren <$> xs) (f <$> seen) acc = Throws e
    | OutOfFuel => False
    end.
Proof.
  intros Hval Hemit Hstep xs.
  induction xs as [|x xs IH]; intros seen acc Hwf Hb Hfuel; simpl.
  - auto.
  - rewrite fmap_cons in Hwf. apply Forall_cons in Hwf as [Hx Hxs].
    specialize (Hstep seen (valueOf x) Hb Hx Hfuel).
    rewrite Hval.
    destruct (P seen (valueOf x)) as [[s seen1]|e|]; [|by rewrite Hstep|done].
    destruct Hstep as (Hb1 & Hlen1 & ->).
    rewrite Hemit.
    specialize (IH seen1 (acc ++ emit x s) Hxs Hb1 ltac:(lia)).
    destruct (serializeElements valueOf emit P xs seen1 (acc ++ emit x s))
      as [[parts seen2]|e|]; [|done|done].
    destruct IH as (Hb2 & Hlen2 & HQ). split; [done|]. split; [lia|exact HQ].
Qed.

Lemma serializeJSONProperty_ref (n : nat) (h : heap) (seen : list addr)
    (a : addr) :
  serializeJSONProperty (S n) h seen (JRef a) =
  if bool_decide (a ∈ seen)
  then Returns (Some (quoteJSONString circularMarker), seen)
  else
    match h !! a with
    | None => OutOfFuel
    | Some (JObject fields) =>
        match serializeJSONObject (serializeJSONProperty n h) fields
                (a :: seen) [] with
        | Returns (parts, seen') =>
            Returns (Some ("{" +:+ String.concat "," parts +:+ "}"), seen')
        | Throws e => Throws e
        | OutOfFuel => OutOfFuel
        end
    | Some (JArray items) =>
        match serializeJSONArray (serializeJSONProperty n h) items
                (a :: seen) [] with
        | Returns (parts, seen') =>
            Returns (Some ("[" +:+ String.concat "," parts +:+ "]"), seen')
        | Throws e => Throws e
        | OutOfFuel => OutOfFuel
        end
    end.
Proof. cbn. by case_bool_decide. Qed.

Lemma serializeJSONProperty_spec (f : addr → addr) (h1 h2 : heap) :
  wfHeap h1 → sameStructure f h1 h2 →
  ∀ fuel, stepSpec f h1 fuel (serializeJSONProperty fuel h1)
                             (serializeJSONProperty fuel h2).
Proof.
  intros Hwf [Hobj Hinj] fuel.
  induction fuel as [|n IH]; intros seen v Hb Hv Hfuel; [lia|].
  destruct v as [| |[]|k|k|s|a]; try (cbn; by auto).
  cbn [renameVal]. rewrite !serializeJSONProperty_ref.
  destruct Hb as [Hnd Hlt].
  assert (Hmem : bool_decide (f a ∈ f <$> seen) = bool_decide (a ∈ seen)).
  { apply bool_decide_ext. split.
    - intros (b & Hfb & Hbin)%list_elem_of_fmap.
      by rewrite (Hinj a b Hv (Hlt b Hbin) Hfb).
    - apply list_elem_of_fmap_2. }
  rewrite Hmem. clear Hmem. case_bool_decide as Hin.
  { split; [by split|]. split; [lia|done]. }
  destruct (boundedSeen_cons h1 a seen (conj Hnd Hlt) Hin Hv) as [Hb' Hlen].
  apply lookup_lt_is_Some in Hv as Hlook. destruct Hlook as [o Ho].
  rewrite Ho, (Hobj a o Ho).
  pose proof (Hwf a o Ho) as Hch.
  destruct o as [fields|items]; cbn [renameObj children] in *.
  - pose proof (serializeElements_spec snd
      (λ field s, match s with
                  | Some s => [quoteJSONString field.1 +:+ ":" +:+ s]
                  | None => []
                  end)
      (λ field, (field.1, renameVal f field.2)) f h1 n _ _
      ltac:(done) ltac:(done) IH fields (a :: seen) [] Hch Hb'
      ltac:(cbn [length]; lia)) as Hel.
    rewrite fmap_cons in Hel. unfold serializeJSONObject.
    destruct (serializeElements _ _ (serializeJSONProperty n h1) fields _ _)
      as [[parts seen']|e|]; [|by rewrite Hel|done].
    destruct Hel as (Hb2 & Hlen2 & ->).
    split; [done|]. split; [cbn [length] in Hlen2; lia|done].
  - pose proof (serializeElements_spec id (λ _ s, [default "null" s])
      (renameVal f) f h1 n _ _
      ltac:(done) ltac:(done) IH items (a :: seen) []
      ltac:(by rewrite list_fmap_id) Hb' ltac:(cbn [length]; lia)) as Hel.
    rewrite fmap_cons in Hel. unfold serializeJSONArray.
    destruct (serializeElements _ _ (serializeJSONProperty n h1) items _ _)
      as [[parts seen']|e|]; [|by rewrite Hel|done].
    destruct Hel as (Hb2 & Hlen2 & ->).
    split; [done|]. split; [cbn [length] in Hlen2; lia|done].
Qed.

Lemma serializeElements_mono {A : Type} (valueOf : A → jsval)
    (emit : A → option string → list string)
    (P Q : list addr → jsval → serialised) :
  (∀ seen v, P seen v ≠ OutOfFuel → Q seen v = P seen v) →
  ∀ xs seen acc,
    serializeElements valueOf emit P xs seen acc ≠ OutOfFuel →
    serializeElements valueOf emit Q xs seen acc
    = serializeElements valueOf emit P xs seen acc.
Proof.
  intros HPQ xs. induction xs as [|x xs IH]; intros seen acc Hne; cbn in *.
  - done.
  - destruct (P seen (valueOf x)) as [[s seen1]|e|] eqn:HP; [| |done].
    + rewrite (HPQ seen (valueOf x)), HP by (by rewrite HP). by apply IH.
    + by rewrite (HPQ seen (valueOf x)), HP by (by rewrite HP).
Qed.

(** More fuel does not change a result. *)
Lemma serializeJSONProperty_mono (h : heap) (n m : nat) :
  (n ≤ m)%nat →
  ∀ seen v, serializeJSONProperty n h seen v ≠ OutOfFuel →
    serializeJSONProperty m h seen v = serializeJSONProperty n h seen v.
Proof.
  revert m. induction n as [|n IH]; intros m Hle seen v Hne.
  - destruct v as [| |[]|k|k|s|a]; try (by destruct m).
    destruct m; cbn in *; by case_bool_decide.
  - destruct m as [|m]; [lia|].
    destruct v as [| |[]|k|k|s|a]; try done.
    rewrite !serializeJSONProperty_ref in *.
    case_bool_decide; [done|].
    destruct (h !! a) as [[fields|items]|]; [| |done].
    + unfold serializeJSONObject in *.
      rewrite (serializeElements_mono _ _ (serializeJSONProperty n h)
                 (serializeJSONProperty m h)); [done| |].
      * intros seen' v' Hne'. apply IH; [lia|done].
      * intros Heq. by rewrite Heq in Hne.
    + unfold serializeJSONArray in *.
      rewrite (serializeElements_mono _ _ (serializeJSONProperty n h)
                 (serializeJSONProperty m h)); [done| |].
      * intros seen' v' Hne'. apply IH; [lia|done].
      * intros Heq. by rewrite Heq in Hne.
Qed.

Lemma sameStructure_length (f : addr → addr) (h1 h2 : heap) :
  sameStructure f h1 h2 → (length h1 ≤ length h2)%nat.
Proof.
  intros [Hobj Hinj].
  rewrite <- (length_seq (length h1) 0%nat), <- (length_fmap f).
  apply bounded_length.
  - apply NoDup_fmap_2_strong; [|apply NoDup_seq].
    intros a b Ha%elem_of_seq Hb%elem_of_seq. apply Hinj; lia.
  - intros b (a & -> & Ha%elem_of_seq)%list_elem_of_fmap.
    assert (is_Some (h1 !! a)) as [o Ho] by (apply lookup_lt_is_Some; lia).
    apply lookup_lt_is_Some. rewrite (Hobj a o Ho). eauto.
Qed.

Lemma truthy_renameVal (f : addr → addr) (v : jsval) :
  truthy (renameVal f v) = truthy v.
Proof. by destruct v. Qed.

(** [JSON.stringify] with the replacer terminates on every well-formed heap,
    and gives the same answer on a heap of the same structure. *)
Lemma stringify_spec (f : addr → addr) (h1 h2 : heap) (v : jsval) :
  wfHeap h1 → sameStructure f h1 h2 → wfVal h1 v →
  stringify h1 v ≠ OutOfFuel
  ∧ stringify h2 (renameVal f v) = stringify h1 v.
Proof.
  intros Hwf Hsame Hv. unfold stringify.
  pose proof (serializeJSONProperty_spec f h1 h2 Hwf Hsame (S (length h1))
                [] v (boundedSeen_nil h1) Hv ltac:(cbn [length]; lia)) as Hs.
  pose proof (sameStructure_length f h1 h2 Hsame) as Hlen.
  rewrite fmap_nil in Hs.
  destruct (serializeJSONProperty (S (length h1)) h1 [] v)
    as [[s seen']|e|]; [| |done].
  - destruct Hs as (_ & _ & Hs). split; [done|].
    rewrite (serializeJSONProperty_mono h2 (S (length h1)) (S (length h2)));
      [by rewrite Hs|lia|by rewrite Hs].
  - split; [done|].
    rewrite (serializeJSONProperty_mono h2 (S (length h1)) (S (length h2)));
      [by rewrite Hs|lia|by rewrite Hs].
Qed.

Lemma renameObj_id (o : jsobj) : renameObj id o = o.
Proof.
  destruct o as [fields|items]; cbn; f_equal.
  - rewrite <- (list_fmap_id fields) at 2. apply list_fmap_ext.
    by intros _ [k []] _.
  - rewrite <- (list_fmap_id items) at 2. apply list_fmap_ext.
    by intros _ [] _.
Qed.

Lemma sameStructure_refl (h : heap) : sameStructure id h h.
Proof. split; [intros a o Ho; by rewrite renameObj_id|done]. Qed.

Lemma serializeForKey_spec (f : addr → addr) (h1 h2 : heap) (v : jsval) :
  wfHeap h1 → sameStructure f h1 h2 → wfVal h1 v →
  serializeForKey h1 v ≠ OutOfFuel
  ∧ serializeForKey h2 (renameVal f v) = serializeForKey h1 v.
Proof.
  intros Hwf Hsame Hv. unfold serializeForKey.
  rewrite truthy_renameVal.
  destruct (stringify_spec f h1 h2 v Hwf Hsame Hv) as [Hne ->].
  destruct (truthy v); [|done].
  by destruct (stringify h1 v) as [[s|]|e|].
Qed.

Lemma serializeElements_seen_grows {A : Type} (valueOf : A → jsval)
    (emit : A → option string → list string)
    (P : list addr → jsval → serialised) :
  (∀ seen v s seen', P seen v = Returns (s, seen') → seen `suffix_of` seen') →
  ∀ xs seen acc parts seen',
    serializeElements valueOf emit P xs seen acc = Returns (parts, seen') →
    seen `suffix_of` seen'.
Proof.
  intros HP xs. induction xs as [|x xs IH]; intros seen acc parts seen' Hrun;
    cbn in Hrun.
  - by inversion Hrun.
  - destruct (P seen (valueOf x)) as [[s seen1]|e|] eqn:Hx; [|done|done].
    transitivity seen1; [by eapply HP|by eapply IH].
Qed.

(** The replacer never forgets an object: its state only grows. *)
Lemma serializeJSONProperty_seen_grows (h : heap) (fuel : nat) :
  ∀ seen v s seen',
    serializeJSONProperty fuel h seen v = Returns (s, seen') →
    seen `suffix_of` seen'.
Proof.
  induction fuel as [|n IH]; intros seen v s seen' Hrun.
  - destruct v as [| |[]|k|k|t|a]; cbn in Hrun; try by inversion Hrun.
    case_bool_decide; by inversion Hrun.
  - destruct v as [| |[]|k|k|t|a]; try (cbn in Hrun; by inversion Hrun).
    rewrite serializeJSONProperty_ref in Hrun.
    case_bool_decide; [by inversion Hrun|].
    destruct (h !! a) as [[fields|items]|]; [| |done].
    + destruct (serializeJSONObject _ fields (a :: seen) [])
        as [[parts seen1]|e|] eqn:Hel; [|done|done].
      inversion Hrun; subst.
      eapply suffix_cons_l, serializeElements_seen_grows; [exact IH|exact Hel].
    + destruct (serializeJSONArray _ items (a :: seen) [])
        as [[parts seen1]|e|] eqn:Hel; [|done|done].
      inversion Hrun; subst.
      eapply suffix_cons_l, serializeElements_seen_grows; [exact IH|exact Hel].
Qed.

Lemma serializeJSONProperty_seen (h : heap) (fuel : nat) (seen : list addr)
    (a : addr) :
  a ∈ seen →
  serializeJSONProperty fuel h seen (JRef a)
  = Returns (Some (quoteJSONString circularMarker), seen).
Proof.
  intros Hin. destruct fuel; cbn; by rewrite bool_decide_eq_true_2.
Qed.

(** The key the [catch] block falls back to. *)
Lemma generateCacheKey_fallback (h : heap) (config : AxiosRequestConfig)
    (options : CacheOptions) (w : world) (e : string) :
  cache_cacheKey options = None →
  (serializeForKey h (cfg_params config) = Throws e
   ∨ (∃ p, serializeForKey h (cfg_params config) = Returns p
           ∧ serializeForKey h (cfg_data config) = Throws e)) →
  (generateCacheKey h config options w).1
  = Returns ("http-cache:" +:+ lowerMethodOr (cfg_method config) "get"
             +:+ ":" +:+ default "" (cfg_url config)
             +:+ ":" +:+ (if truthy (cfg_params config)
                          then "params-present" else "")
             +:+ ":" +:+ (if truthy (cfg_data config)
                          then "data-present" else "")).
Proof.
  intros Hkey Hthrows. unfold generateCacheKey. rewrite Hkey.
  destruct Hthrows as [Hp|(p & Hp & Hd)]; rewrite Hp; [|rewrite Hd]; done.
Qed.

(** The key is made of the method, the URL and the two serialisations. *)
Lemma generateCacheKey_composed (h : heap) (config : AxiosRequestConfig)
    (options : CacheOptions) (w : world) (p d : string) :
  cache_cacheKey options = None →
  serializeForKey h (cfg_params config) = Returns p →
  serializeForKey h (cfg_data config) = Returns d →
  generateCacheKey h config options w
  = (Returns ("http-cache:" +:+ lowerMethodOr (cfg_method config) "get"
              +:+ ":" +:+ default "" (cfg_url config)
              +:+ ":" +:+ p +:+ ":" +:+ d), w).
Proof.
  intros Hkey Hp Hd. unfold generateCacheKey. by rewrite Hkey, Hp, Hd.
Qed.

(** An object that holds itself: the inner reference is printed as the
    marker. *)
Lemma stringify_self_reference (h : heap) (a : addr) (name : string) :
  h !! a = Some (JObject [(name, JRef a)]) →
  stringify h (JRef a)
  = Returns (Some ("{" +:+ (quoteJSONString name +:+ ":"
                            +:+ quoteJSONString circularMarker) +:+ "}")).
Proof.
  intros Ha. unfold stringify. rewrite serializeJSONProperty_ref.
  rewrite bool_decide_eq_false_2 by apply not_elem_of_nil. rewrite Ha.
  cbn [serializeJSONObject serializeElements snd].
  rewrite serializeJSONProperty_seen by apply list_elem_of_here.
  reflexivity.
Qed.

(** An object that is met twice without being its own ancestor: the second
    reference is printed as the marker all the same. *)
Lemma stringify_shared_reference (h : heap) (a b : addr) :
  a ≠ b →
  h !! a = Some (JArray [JRef b; JRef b]) →
  h !! b = Some (JObject []) →
  stringify h (JRef a)
  = Returns (Some ("[{}," +:+ quoteJSONString circularMarker +:+ "]")).
Proof.
  intros Hab Ha Hb. unfold stringify. rewrite serializeJSONProperty_ref.
  rewrite bool_decide_eq_false_2 by apply not_elem_of_nil. rewrite Ha.
  destruct (length h) as [|n] eqn:Hlen.
  { apply lookup_lt_Some in Ha. lia. }
  cbn [serializeJSONArray serializeElements id].
  rewrite serializeJSONProperty_ref.
  rewrite bool_decide_eq_false_2
    by (intros Hin; apply list_elem_of_singleton in Hin; congruence).
  rewrite Hb. cbn [serializeJSONObject serializeElements].
  rewrite serializeJSONProperty_seen by apply list_elem_of_here.
  reflexivity.
Qed.

(** C5, as amended.  Default cache-key generation is total and
    deterministic on object graphs.  On a well-formed heap it returns a key
    and never throws, circular structures included; two requests whose
    values form the same object graph (the same objects up to a renaming
    [f] of their identities, with the same sharing and the same order of
    properties) get the same key.  The key is made of the method, the URL
    and the serialisations of params and body, which are empty for a falsy
    value and the text of [JSON.stringify] with the replacer otherwise.
    During serialisation the replacer only adds to the set of visited
    objects, and a reference to a visited object is printed as the marker,
    be the object an ancestor, as in an object that holds itself, or merely
    met before, as in [[o, o]]; a string is quoted, a number printed in
    decimal, a property that is [undefined] left out and an [undefined]
    element of an array printed as [null].  When serialisation throws, the
    key is built from the coarse [params-present] / [data-present]
    markers. *)
Theorem generateCacheKey_total_deterministic (f : addr → addr) (h1 h2 : heap)
    (config : AxiosRequestConfig) (options : CacheOptions) (w : world) :
  cache_cacheKey options = None →
  wfHeap h1 →
  wfVal h1 (cfg_params config) → wfVal h1 (cfg_data config) →
  sameStructure f h1 h2 →
  (∃ key w', generateCacheKey h1 config options w = (Returns key, w'))
  ∧ generateCacheKey h2 (renameConfig f config) options w
    = generateCacheKey h1 config options w
  ∧ (∀ fuel seen v s seen',
       serializeJSONProperty fuel h1 seen v = Returns (s, seen') →
       seen `suffix_of` seen')
  ∧ (∀ fuel seen a, a ∈ seen →
       serializeJSONProperty fuel h1 seen (JRef a)
       = Returns (Some (quoteJSONString circularMarker), seen))
  ∧ (∀ e,
       serializeForKey h1 (cfg_params config) = Throws e
       ∨ (∃ p, serializeForKey h1 (cfg_params config) = Returns p
               ∧ serializeForKey h1 (cfg_data config) = Throws e) →
       (generateCacheKey h1 config options w).1
       = Returns ("http-cache:" +:+ lowerMethodOr (cfg_method config) "get"
                  +:+ ":" +:+ default "" (cfg_url config)
                  +:+ ":" +:+ (if truthy (cfg_params config)
                               then "params-present" else "")
                  +:+ ":" +:+ (if truthy (cfg_data config)
                               then "data-present" else "")))
  ∧ (∀ p d,
       serializeForKey h1 (cfg_params config) = Returns p →
       serializeForKey h1 (cfg_data config) = Returns d →
       generateCacheKey h1 config options w
       = (Returns ("http-cache:" +:+ lowerMethodOr (cfg_method config) "get"
                   +:+ ":" +:+ default "" (cfg_url config)
                   +:+ ":" +:+ p +:+ ":" +:+ d), w))
  ∧ (∀ v, truthy v = false → serializeForKey h1 v = Returns "")
  ∧ (∀ v s, truthy v = true → stringify h1 v = Returns (Some s) →
            serializeForKey h1 v = Returns s)
  ∧ (∀ s, stringify h1 (JStr s) = Returns (Some (quoteJSONString s)))
  ∧ (∀ n, safeInteger n → stringify h1 (JNum n) = Returns (Some (pretty n)))
  ∧ quoteJSONString "id" = dquote +:+ "id" +:+ dquote
  ∧ stringify pikachuHeap (JRef 0%nat)
    = Returns (Some ("{" +:+ quoteJSONString "name" +:+ ":"
                     +:+ quoteJSONString "pikachu" +:+ ","
                     +:+ quoteJSONString "id" +:+ ":25,"
                     +:+ quoteJSONString "tags" +:+ ":[true,null,null,-3,false],"
                     +:+ quoteJSONString "stats" +:+ ":{}}"))
  ∧ (∀ a name,
       h1 !! a = Some (JObject [(name, JRef a)]) →
       stringify h1 (JRef a)
       = Returns (Some ("{" +:+ (quoteJSONString name +:+ ":"
                                 +:+ quoteJSONString circularMarker)
                        +:+ "}")))
  ∧ (∀ a b,
       a ≠ b →
       h1 !! a = Some (JArray [JRef b; JRef b]) →
       h1 !! b = Some (JObject []) →
       stringify h1 (JRef a)
       = Returns (Some ("[{}," +:+ quoteJSONString circularMarker +:+ "]"))).
Proof.
  intros Hkey Hwf Hp Hd Hsame.
  destruct (serializeForKey_spec f h1 h2 _ Hwf Hsame Hp) as [Hpne Hpeq].
  destruct (serializeForKey_spec f h1 h2 _ Hwf Hsame Hd) as [Hdne Hdeq].
  repeat apply conj.
  - unfold generateCacheKey. rewrite Hkey.
    destruct (serializeForKey h1 (cfg_params config)) as [p|e|] eqn:Ep;
      [|by eexists _, _|done].
    destruct (serializeForKey h1 (cfg_data config)) as [d|e|] eqn:Ed;
      [by eexists _, _|by eexists _, _|done].
  - unfold generateCacheKey. rewrite Hkey. cbn [renameConfig cfg_params
      cfg_data cfg_method cfg_url]. rewrite Hpeq, Hdeq.
    by rewrite !truthy_renameVal.
  - apply serializeJSONProperty_seen_grows.
  - intros fuel seen a. apply serializeJSONProperty_seen.
  - intros e. by apply generateCacheKey_fallback.
  - intros p d. by apply generateCacheKey_composed.
  - intros v Hv. unfold serializeForKey. by rewrite Hv.
  - intros v s Hv Hs. unfold serializeForKey. by rewrite Hv, Hs.
  - done.
  - done.
  - reflexivity.
  - vm_compute. reflexivity.
  - intros a name. apply stringify_self_reference.
  - intros a b. apply stringify_shared_reference.
Qed.

Lemma heapA_wf : wfHeap heapA.
Proof.
  intros [|[|a]] o Ho; cbn in Ho; [| |done]; inversion Ho; subst; cbn;
    repeat constructor.
Defined.

Lemma heapA_heapB : sameStructure swap01 heapA heapB.
Proof.
  split.
  - intros [|[|a]] o Ho; cbn in Ho; [| |done]; by inversion Ho.
  - intros [|[|a]] [|[|b]] Ha Hb; cbn in *; intros; first [done|lia].
Defined.

Lemma generateCacheKey_total_deterministic_witness :
  (∃ key w', generateCacheKey heapA circularConfig emptyCacheOptions emptyWorld
             = (Returns key, w'))
  ∧ generateCacheKey heapB (renameConfig swap01 circularConfig)
      emptyCacheOptions emptyWorld
    = generateCacheKey heapA circularConfig emptyCacheOptions emptyWorld.
Proof.
  pose proof (generateCacheKey_total_deterministic swap01 heapA heapB
                circularConfig emptyCacheOptions emptyWorld eq_refl heapA_wf
                ltac:(cbn; lia) I heapA_heapB) as (Htotal & Hsame & _).
  exact (conj Htotal Hsame).
Defined.

(** The claim as stated fails.  The params [[o, o]] and [[{}, {}]] are
    structurally equal, and so are the two requests that carry them, but
    their keys differ: the second [o] is printed as the marker. *)
Lemma deep_equal_requests_counterexample :
  structurallyEqual sharedHeap sharedHeap (sharedConfig 0) (sharedConfig 1)
  ∧ (generateCacheKey sharedHeap (sharedConfig 0) emptyCacheOptions
       emptyWorld).1
    = Returns ("http-cache:get:/pokemon:[{},"
               +:+ quoteJSONString circularMarker +:+ "]:")
  ∧ (generateCacheKey sharedHeap (sharedConfig 1) emptyCacheOptions
       emptyWorld).1
    = Returns "http-cache:get:/pokemon:[{},{}]:"
  ∧ (generateCacheKey sharedHeap (sharedConfig 0) emptyCacheOptions
       emptyWorld).1
    ≠ (generateCacheKey sharedHeap (sharedConfig 1) emptyCacheOptions
         emptyWorld).1.
Proof.
  split; [|split; [|split]].
  - repeat split; try reflexivity; intros [|[|n]]; reflexivity.
  - vm_compute. reflexivity.
  - vm_compute. reflexivity.
  - vm_compute. discriminate.
Qed.

(** An object met a second time is marked even when it is merely shared:
    [const o = {}; params = [o, o]]. *)
Example stringify_shared :
  stringify [JArray [JRef 1%nat; JRef 1%nat]; JObject []] (JRef 0%nat)
  = Returns (Some ("[{}," +:+ quoteJSONString circularMarker +:+ "]")).
Proof. vm_compute. reflexivity. Qed.

Example generateCacheKey_circular :
  (generateCacheKey heapA circularConfig emptyCacheOptions emptyWorld).1
  = Returns ("http-cache:get:/pokemon:{" +:+ quoteJSONString "self" +:+ ":"
             +:+ quoteJSONString circularMarker +:+ ","
             +:+ quoteJSONString "items" +:+ ":["
             +:+ quoteJSONString circularMarker +:+ ",25]}:").
Proof. vm_compute. reflexivity. Qed.

(** ** Middleware order *)

Section Sorting.
Context {A : Type} (priority : A → option Z).

Local Abbreviation key := (λ x, numberOr (priority x) 0).

Lemma insertByPriority_perm (x : A) (l : list A) :
  insertByPriority priority x l ≡ₚ x :: l.
Proof.
  induction l as [|y l IH]; cbn; [done|].
  case_match; [done|]. rewrite IH. apply Permutation_swap.
Qed.

Lemma sortByPriority_perm (l : list A) : sortByPriority priority l ≡ₚ l.
Proof.
  induction l as [|x l IH]; cbn; [done|].
  by rewrite insertByPriority_perm, IH.
Qed.





End Sorting.

Lemma callsBetween_nil (w : world) : callsBetween w w [].
Proof. done. Qed.

Lemma callsBetween_cons (w w' : world) (c : middlewareCall)
    (calls : list middlewareCall) :
  callsBetween (addInvoked c w) w' calls → callsBetween w w' (c :: calls).
Proof.
  unfold callsBetween. cbn. intros ->. by rewrite <- app_assoc.
Qed.


Lemma applyResponseMiddlewares_calls (ms : list ResponseMiddleware) :
  ∀ response w,
    ∃ executed,
      executed `prefix_of` ms
      ∧ callsBetween w (applyResponseMiddlewares ms response w).2
          (CallResponse <$> executed)
      ∧ (∀ r, (applyResponseMiddlewares ms response w).1 = Returns r →
              executed = ms).
Proof.
  induction ms as [|m ms IH]; intros response w.
  - exists []. by repeat split.
  - cbn. destruct (rsm_process m response) as [next|reason]; cbn.
    + destruct (IH next (addInvoked (CallResponse m) w))
        as (executed & Hpre & Hcalls & Hall).
      exists (m :: executed). split; [by apply prefix_cons|].
      split; [by apply callsBetween_cons|].
      intros r Hr. f_equal. by eapply Hall.
    + exists [m]. split; [apply prefix_cons, prefix_nil|]. by split.
Qed.


(** The handlers around the loops only log. *)
Lemma tryCatch_log_invoked {A : Type} (m : M A) (message : string) (w : world) :
  invoked (tryCatch m (λ error, run logger LogError message; throw error) w).2
  = invoked (m w).2.
Proof.
  unfold tryCatch, then_. by destruct (m w) as [[a|v|] w'].
Qed.












(** ** Error middlewares *)


(** ** The retry condition *)

Lemma isNetworkError_no_response (env : Env) (error : JsError) :
  isNetworkError env error = true → err_response error = None.
Proof. unfold isNetworkError. by destruct (err_response error). Qed.

Lemma isNetworkError_code (env : Env) (error : JsError) :
  isNetworkError env error = true →
  ∃ code, err_code error = Some code ∧ code ≠ "" ∧ code ≠ "ECONNABORTED"
          ∧ networkErrorCode env (Some code) = true.
Proof.
  unfold isNetworkError.
  destruct (err_response error); [done|].
  destruct (err_code error) as [code|]; [|done].
  case_bool_decide as Hcode; [done|].
  intros Hnet. exists code. split; [done|].
  split; [intros ->; apply Hcode; by left|].
  split; [intros ->; apply Hcode; by right|done].
Qed.

Lemma retryConditionOf_decision (env : Env) (options : RetryOptions)
    (error : JsError) :
  retryConditionOf env options error = Returns true
  ↔ retryDecision env options error.
Proof.
  unfold retryConditionOf, retryDecision.
  destruct (retryCondition options) as [custom|].
  { split; [by intros [= ->]|by intros ->]. }
  destruct (isNetworkError env error) eqn:Hnet.
  { split; [by left|done]. }
  split.
  - intros Hrun. right.
    destruct (err_response error) as [response|]; [|done].
    case_bool_decide as Hstatus; [|done].
    destruct (err_config error) as [config|]; [|done].
    destruct (cfg_method config) as [method|] eqn:Hmethod; [|done].
    injection Hrun as Hin. apply bool_decide_eq_true_1 in Hin.
    by exists response, config, method.
  - intros [?|(response & config & method & -> & Hstatus & -> & Hm & Hin)];
      [done|].
    rewrite bool_decide_eq_true_2 by done. rewrite Hm.
    by rewrite bool_decide_eq_true_2.
Qed.

(** C6, as amended.  The retry decision.  A configured [retryCondition]
    decides alone.  Otherwise the condition holds exactly when axios-retry
    takes the failure for a network error (which requires that no response
    was received and that the error has a code other than that of a
    timeout) or the response status is in the retryable-status set and
    the request method, lower-cased, is an element of the retryable-method
    set as configured: the letter case of the request method does not
    matter, that of the configured entries does.  The condition always
    yields a boolean when the error's config carries a method, and, while
    retries remain, axios-retry issues the request again exactly when the
    condition holds. *)
Theorem retry_decision (env : Env) (options : RetryOptions) (error : JsError) :
  (∀ custom, retryCondition options = Some custom →
     retryConditionOf env options error = Returns (custom error))
  ∧ (retryConditionOf env options error = Returns true
     ↔ retryDecision env options error)
  ∧ (isNetworkError env error = true →
     err_response error = None
     ∧ ∃ code, err_code error = Some code ∧ code ≠ "" ∧ code ≠ "ECONNABORTED"
               ∧ networkErrorCode env (Some code) = true)
  ∧ (∀ config method,
       err_config error = Some config → cfg_method config = Some method →
       ∃ b, retryConditionOf env options error = Returns b)
  ∧ (∀ method method',
       retryCondition options = None →
       toLowerCase method = toLowerCase method' →
       retryConditionOf env options (withErrorMethod method error)
       = retryConditionOf env options (withErrorMethod method' error))
  ∧ (∀ again config,
       err_config error = Some config →
       Z.of_nat (default 0%nat (cfg_retryCount config)) < retriesOf options →
       (retryConditionOf env options error = Returns true →
        axiosRetryOnRejected env options again (VError error)
        = again (setRetryCount (S (default 0%nat (cfg_retryCount config)))
                   config))
       ∧ (retryConditionOf env options error = Returns false →
          axiosRetryOnRejected env options again (VError error)
          = throw (VError error))).
Proof.
  split; [|split; [|split; [|split; [|split]]]].
  - intros custom Hc. unfold retryConditionOf. by rewrite Hc.
  - apply retryConditionOf_decision.
  - intros Hnet. split; [by apply (isNetworkError_no_response env)|].
    by apply isNetworkError_code.
  - intros config method Hc Hm. unfold retryConditionOf.
    destruct (retryCondition options); [by eexists|].
    destruct (isNetworkError env error); [by eexists|].
    destruct (err_response error); [|by eexists].
    case_bool_decide; [|by eexists].
    rewrite Hc, Hm. by eexists.
  - intros method method' Hrc Hlow.
    unfold retryConditionOf, isNetworkError, withErrorMethod. rewrite Hrc.
    cbn [err_response err_code err_config].
    destruct (err_response error); [|done].
    case_bool_decide; [|done].
    destruct (err_config error); [|done]. cbn. by rewrite Hlow.
  - intros again config Hc Hlt. unfold axiosRetryOnRejected. rewrite Hc.
    apply Z.ltb_lt in Hlt. rewrite Hlt.
    split; by intros ->.
Qed.

(** The claim as stated fails.  With [methodsToRetry: ['GET', 'HEAD']] a
    GET answered 503 is to be retried by the specified decision, the
    methods being compared without regard to letter case, but the condition
    is false: the lower-cased method is looked up among the entries as they
    are.  And a timeout, a failure without a response, is to be retried by
    the specified decision, but is not a network error for axios-retry. *)
Lemma case_insensitive_methods_counterexample :
  retryDecisionAsSpecified upperCaseRetryOptions (statusError 503 pokemonConfig)
  ∧ (∀ env,
       retryConditionOf env upperCaseRetryOptions
         (statusError 503 pokemonConfig) = Returns false)
  ∧ retryDecisionAsSpecified emptyRetryOptions timeoutError
  ∧ (∀ env,
       retryConditionOf env emptyRetryOptions timeoutError = Returns false).
Proof.
  split; [|split; [|split]].
  - right. eexists _, pokemonConfig, "get", "GET".
    repeat split; try reflexivity.
    + cbn. by repeat constructor.
    + apply list_elem_of_here.
  - intros env. reflexivity.
  - by left.
  - intros env. reflexivity.
Qed.

Lemma isPost_lowerMethodOr (config : AxiosRequestConfig) (d : string) :
  isPost config → lowerMethodOr (cfg_method config) d = "post".
Proof. intros (method & Hm & Hlow). unfold lowerMethodOr. by rewrite Hm, Hlow. Qed.

(** ** Retries *)

Lemma requestMiddlewareInterceptor_none (svc : HttpService)
    (config : AxiosRequestConfig) (w : world) :
  requestMiddlewares svc = [] →
  requestMiddlewareInterceptor svc config w = (Returns config, w).
Proof. intros Hnone. unfold requestMiddlewareInterceptor. by rewrite Hnone. Qed.

(** Without middlewares the last interceptor passes every settlement on. *)
Lemma middlewares_none (svc : HttpService) (p : M value) (w : world) :
  responseMiddlewares svc = [] → errorMiddlewares svc = [] →
  then_ p (responseMiddlewareInterceptor svc) (errorMiddlewareInterceptor svc) w
  = p w.
Proof.
  intros Hresp Herr.
  unfold then_, responseMiddlewareInterceptor, errorMiddlewareInterceptor.
  rewrite Hresp, Herr. by destruct (p w) as [[v|v|] w'].
Qed.

Lemma lowerAscii_idem (c : ascii) : lowerAscii (lowerAscii c) = lowerAscii c.
Proof. by destruct c as [[] [] [] [] [] [] [] []]. Qed.

Lemma toLowerCase_idem (s : string) : toLowerCase (toLowerCase s) = toLowerCase s.
Proof.
  induction s as [|c s IH]; cbn; [done|]. by rewrite lowerAscii_idem, IH.
Qed.

Lemma lowerMethodOr_idem (method : option string) :
  lowerMethodOr (Some (lowerMethodOr method "get")) "get"
  = lowerMethodOr method "get".
Proof.
  destruct method as [m|]; cbn; [|done].
  destruct (String.eqb (toLowerCase m) "") eqn:Hempty; cbn; [done|].
  by rewrite toLowerCase_idem, Hempty.
Qed.

Lemma attemptConfig_again (config : AxiosRequestConfig) (i j n : nat) :
  attemptConfig (setRetryCount j (attemptConfig config i)) n
  = attemptConfig config n.
Proof.
  unfold attemptConfig, setRetryCount, normaliseMethod.
  cbn [cfg_method cfg_url cfg_headers cfg_params cfg_data cfg_adapter
       cfg_retryCount].
  by rewrite lowerMethodOr_idem.
Qed.

(** A handler for fulfilled values passes a rejection on. *)
Lemma then_rejected {A B : Type} (p : M A) (f : A → M B) (w : world)
    (v : value) :
  (p w).1 = Throws v → then_ p f throw w = (Throws v, (p w).2).
Proof. unfold then_. destruct (p w) as [[a|v'|] w']; by intros [= ->]. Qed.

(** The request interceptors of an attempt that the cache does not serve:
    the adapter gets the attempt's config, the transport and the store are
    as before. *)
Lemma requestChain_attempt (env : Env) (svc : HttpService)
    (options : RetryOptions) (config0 c : AxiosRequestConfig) (w0 w : world) :
  noCustomStages svc →
  retryOptionsOf svc = Some options →
  notServedFromCache env svc config0 w0 →
  (∀ n, attemptConfig c n = attemptConfig config0 n) →
  store w = store w0 →
  ∃ w1,
    requestChain env svc c w
    = (Returns (attemptConfig c (default 0%nat (cfg_retryCount c))), w1)
    ∧ sent w1 = sent w ∧ store w1 = store w.
Proof.
  intros (Hreq & _ & _ & Hureq & _) Hretry Hmiss Hsame Hstore.
  unfold requestChain. rewrite Hureq, Hretry.
  cbn [rev throughRequestInterceptors fold_left app].
  assert (Hfirst :
    then_ (ret (normaliseMethod c)) (requestMiddlewareInterceptor svc) throw w
    = (Returns (normaliseMethod c), w)).
  { unfold then_, ret. by apply requestMiddlewareInterceptor_none. }
  destruct (cacheOptionsOf svc) as [cacheOptions|] eqn:Hco.
  - destruct (Hmiss cacheOptions c w Hco Hsame Hstore)
      as (w1 & Hrun & Hsent & Hst).
    exists w1. split; [|done].
    unfold then_ at 1. unfold then_ at 1. by rewrite Hfirst, Hrun.
  - exists w. split; [|done]. unfold then_ at 1. by rewrite Hfirst.
Qed.

(** With [k] retries left to make, an always-failing request makes [k + 1]
    attempts and is rejected with the error of the last. *)
Lemma retries_exhausted (env : Env) (svc : HttpService)
    (options : RetryOptions) (config0 : AxiosRequestConfig) (w0 : world) :
  noCustomStages svc →
  retryOptionsOf svc = Some options →
  notServedFromCache env svc config0 w0 →
  alwaysFailsRetryable env options config0 →
  ∀ k fuel c w,
    (k < fuel)%nat →
    cfg_adapter c = None →
    (∀ n, attemptConfig c n = attemptConfig config0 n) →
    store w = store w0 →
    Z.of_nat (default 0%nat (cfg_retryCount c)) + Z.of_nat k
    = retriesOf options →
    rejectedWithLastError env (S k) w (axiosRequest fuel env svc c w).
Proof.
  intros Hplain Hretry Hmiss Hfail k.
  pose proof Hplain as (_ & Hresp & Herr & _ & Huresp).
  induction k as [|k IH]; intros fuel c w Hfuel Hadapter Hsame Hstore Hleft;
    (destruct fuel as [|fuel]; [lia|]);
    set (rc := default 0%nat (cfg_retryCount c)) in *;
    destruct (requestChain_attempt env svc options config0 c w0 w Hplain
                Hretry Hmiss Hsame Hstore) as (w1 & Hchain & Hsent & Hst);
    fold rc in Hchain;
    destruct (Hfail (length (sent w1)) rc) as (error & Hsend & Hconfig & Hcond);
    rewrite <- Hsame in Hsend, Hconfig;
    cbn [axiosRequest]; unfold instanceRequest;
    rewrite middlewares_none by done;
    unfold beforeMiddlewares; rewrite Huresp, Hretry;
    cbn [throughResponseInterceptors fold_left];
    assert (Hdispatch :
      then_ (requestChain env svc c) (dispatchRequest env) throw w
      = (Throws (VError error), addSent (attemptConfig c rc) w1))
      by (unfold then_ at 1; rewrite Hchain; unfold dispatchRequest;
          replace (cfg_adapter (attemptConfig c rc)) with (@None SafeResponse)
            by done;
          by rewrite Hsend).
  - assert (Hafter :
      then_ (then_ (requestChain env svc c) (dispatchRequest env) throw) ret
        (axiosRetryOnRejected env options (axiosRequest fuel env svc)) w
      = (Throws (VError error), addSent (attemptConfig c rc) w1)).
    { unfold then_ at 1. rewrite Hdispatch. unfold axiosRetryOnRejected.
      rewrite Hconfig, Hcond.
      change (default 0%nat (cfg_retryCount (attemptConfig c rc))) with rc.
      by rewrite (proj2 (Z.ltb_ge _ _)) by lia. }
    exists [], (attemptConfig c rc), error. rewrite Hsent in Hsend.
    destruct (cacheOptionsOf svc);
      [rewrite (then_rejected _ _ w (VError error)) by (by rewrite Hafter)|];
      rewrite Hafter; cbn [fst snd sent addSent app]; by rewrite Hsent.
  - destruct (IH fuel (setRetryCount (S rc) (attemptConfig c rc))
                (addSent (attemptConfig c rc) w1))
      as (configs & last & error' & Hsent' & Hlen & Hlast & Hres).
    { lia. }
    { exact Hadapter. }
    { intros n. by rewrite attemptConfig_again. }
    { cbn [store addSent]. by rewrite Hst. }
    { change (Z.of_nat (S rc) + Z.of_nat k = retriesOf options). lia. }
    assert (Hafter :
      then_ (then_ (requestChain env svc c) (dispatchRequest env) throw) ret
        (axiosRetryOnRejected env options (axiosRequest fuel env svc)) w
      = axiosRequest fuel env svc (setRetryCount (S rc) (attemptConfig c rc))
          (addSent (attemptConfig c rc) w1)).
    { unfold then_ at 1. rewrite Hdispatch. unfold axiosRetryOnRejected.
      rewrite Hconfig, Hcond.
      change (default 0%nat (cfg_retryCount (attemptConfig c rc))) with rc.
      by rewrite (proj2 (Z.ltb_lt _ _)) by lia. }
    exists (configs ++ [attemptConfig c rc]), last, error'.
    cbn [sent addSent] in Hsent', Hlast. rewrite Hsent in Hsent', Hlast.
    assert (Hgoal :
      sent (axiosRequest fuel env svc (setRetryCount (S rc) (attemptConfig c rc))
              (addSent (attemptConfig c rc) w1)).2
      = last :: (configs ++ [attemptConfig c rc]) ++ sent w
      ∧ S (length (configs ++ [attemptConfig c rc])) = S (S k)
      ∧ transport env (length ((configs ++ [attemptConfig c rc]) ++ sent w)) last
        = inr error').
    { rewrite <- !app_assoc. cbn [app].
      split; [done|]. split; [rewrite length_app; cbn; lia|done]. }
    destruct Hgoal as (Hg1 & Hg2 & Hg3).
    destruct (cacheOptionsOf svc);
      [rewrite (then_rejected _ _ w (VError error')) by (by rewrite Hafter)|];
      rewrite Hafter; by rewrite ?Hres.
Qed.

Lemma retriesOf_default (options : RetryOptions) :
  retries options = None ∨ retries options = Some 3 → retriesOf options = 3.
Proof. unfold retriesOf. by intros [->| ->]. Qed.

(** C3, as amended.  With the default (or an explicit) maximum of 3
    retries, on a service without middlewares and global interceptors whose
    cache does not serve the request, and a transport that fails every
    attempt with a retryable error, the transport is invoked exactly 4 times
    (the first attempt and 3 retries) and the request is rejected with the
    error of the last attempt, unmodified. *)
Theorem three_retries_make_four_attempts (env : Env) (svc : HttpService)
    (options : RetryOptions) (config : AxiosRequestConfig) (w : world)
    (fuel : nat) :
  noCustomStages svc →
  retryOptionsOf svc = Some options →
  retries options = None ∨ retries options = Some 3 →
  notServedFromCache env svc config w →
  alwaysFailsRetryable env options config →
  cfg_adapter config = None →
  cfg_retryCount config = None →
  (3 < fuel)%nat →
  rejectedWithLastError env 4 w (request fuel env svc config w).
Proof.
  intros Hplain Hretry Hretries Hmiss Hfail Hadapter Hcount Hfuel.
  apply (retries_exhausted env svc options config w Hplain Hretry Hmiss Hfail
           3 fuel config w); [done|done|done|done|].
  rewrite Hcount, (retriesOf_default options Hretries). done.
Qed.

Lemma unavailable_alwaysFailsRetryable (options : RetryOptions) :
  statusCodesToRetry options = None → methodsToRetry options = None →
  retryCondition options = None →
  alwaysFailsRetryable unavailableEnv options pokemonConfig.
Proof.
  intros Hcodes Hmethods Hcondition n retryCount.
  exists (statusError 503 (attemptConfig pokemonConfig retryCount)).
  split; [done|]. split; [done|].
  unfold retryConditionOf. by rewrite Hcondition, Hcodes, Hmethods.
Defined.

(** GET /pokemon/25 on an empty store is a cache miss at every attempt. *)
Lemma pokemon_notServedFromCache :
  notServedFromCache unavailableEnv retryAndCacheService pokemonConfig
    emptyWorld.
Proof.
  intros options c w' [= <-] Hsame Hstore.
  specialize (Hsame 0%nat).
  injection Hsame as Hmethod Hurl Hheaders Hparams Hdata Hadapter.
  change (lowerMethodOr (cfg_method pokemonConfig) "get") with "get"
    in Hmethod.
  assert (Hcacheable :
    cacheableMethod emptyCacheOptions (cfg_method (normaliseMethod c)) = true).
  { cbn [cfg_method normaliseMethod]. by rewrite Hmethod. }
  assert (Hkey :
    generateCacheKey (env_heap unavailableEnv) (normaliseMethod c)
      emptyCacheOptions w'
    = (Returns pokemonKey, w')).
  { unfold generateCacheKey, serializeForKey.
    cbn [cfg_method cfg_url cfg_params cfg_data normaliseMethod
         cache_cacheKey emptyCacheOptions].
    rewrite Hmethod, Hurl, Hparams, Hdata. reflexivity. }
  exists (addStoreOp (StoreGet pokemonKey) w').
  unfold cacheRequestInterceptor. rewrite Hcacheable. cbn [negb].
  unfold bind at 1. unfold then_ at 1. rewrite Hkey.
  unfold bind, then_, cacheManagerGet.
  cbn [cacheGetFails unavailableEnv plainEnv]. rewrite Hstore.
  by repeat split.
Defined.

Lemma three_retries_make_four_attempts_witness :
  rejectedWithLastError unavailableEnv 4 emptyWorld
    (request 4 unavailableEnv retryAndCacheService pokemonConfig emptyWorld).
Proof.
  apply (three_retries_make_four_attempts unavailableEnv retryAndCacheService
           emptyRetryOptions pokemonConfig emptyWorld 4).
  - by repeat split.
  - reflexivity.
  - left. reflexivity.
  - exact pokemon_notServedFromCache.
  - by apply unavailable_alwaysFailsRetryable.
  - reflexivity.
  - reflexivity.
  - lia.
Defined.

(** The claim as stated fails: with the default of 3 and a transport that
    always answers 503 to a GET, the transport is invoked 4 times, not 3. *)
Lemma three_attempts_counterexample :
  retriesOf emptyRetryOptions = 3
  ∧ alwaysFailsRetryable unavailableEnv emptyRetryOptions pokemonConfig
  ∧ (request 4 unavailableEnv (retryOnlyService emptyRetryOptions)
       pokemonConfig emptyWorld).1
    = Throws (VError (statusError 503 (attemptConfig pokemonConfig 3)))
  ∧ length (sent (request 4 unavailableEnv (retryOnlyService emptyRetryOptions)
                    pokemonConfig emptyWorld).2) = 4%nat
  ∧ length (sent (request 4 unavailableEnv (retryOnlyService emptyRetryOptions)
                    pokemonConfig emptyWorld).2) ≠ 3%nat.
Proof.
  split; [reflexivity|].
  split; [by apply unavailable_alwaysFailsRetryable|].
  split; [vm_compute; reflexivity|].
  split; [vm_compute; reflexivity|vm_compute; discriminate].
Qed.

(** ** Numeric options set to zero *)

(** A response that passes the gates is stored under its key with the TTL
    [options.ttl || 60000]. *)
Lemma cacheResponseInterceptor_stores (env : Env) (options : CacheOptions)
    (response : AxiosResponse) (key : string) (w w1 : world) :
  cacheableMethod options (cfg_method (resp_config response)) = true →
  acceptedByShouldCache options response →
  generateCacheKey (env_heap env) (resp_config response) options w
  = (Returns key, w1) →
  cacheSetFails env key = None →
  (cacheResponseInterceptor env options (VResponse response) w).1
  = Returns (VResponse response)
  ∧ store (cacheResponseInterceptor env options (VResponse response) w).2 !! key
    = Some {| entry_value := safeResponseOf response;
              entry_ttl := numberOr (cache_ttl options) 60000 |}.
Proof.
  intros Hmethod Hshould Hkey Hset.
  unfold cacheResponseInterceptor. rewrite Hmethod. cbn [negb].
  replace (match cache_shouldCache options with
           | Some shouldCache => negb (shouldCache response)
           | None => false
           end) with false
    by (unfold acceptedByShouldCache in Hshould;
        destruct (cache_shouldCache options); [by rewrite Hshould|done]).
  unfold bind, tryCatch, then_, cacheManagerSet. rewrite Hkey, Hset. cbn.
  split; [done|]. apply lookup_insert_eq.
Qed.

(** C10.  A numeric option set to zero is treated as unset.  With
    [retries: 0] the number of retries handed to axios-retry is the default
    3, so an always-failing request is attempted 4 times instead of once;
    with [ttl: 0] a response is stored with the default TTL 60000, which is
    also the TTL the cache module is configured with. *)
Theorem zero_is_treated_as_unset (env : Env) (retryOptions : RetryOptions)
    (cacheOptions : CacheOptions) :
  retries retryOptions = Some 0 →
  cache_ttl cacheOptions = Some 0 →
  retriesOf retryOptions = 3
  ∧ (∀ svc config w fuel,
       noCustomStages svc →
       retryOptionsOf svc = Some retryOptions →
       notServedFromCache env svc config w →
       alwaysFailsRetryable env retryOptions config →
       cfg_adapter config = None → cfg_retryCount config = None →
       (3 < fuel)%nat →
       rejectedWithLastError env 4 w (request fuel env svc config w))
  ∧ (∀ response key w w1,
       cacheableMethod cacheOptions (cfg_method (resp_config response)) = true →
       acceptedByShouldCache cacheOptions response →
       generateCacheKey (env_heap env) (resp_config response) cacheOptions w
       = (Returns key, w1) →
       cacheSetFails env key = None →
       store (cacheResponseInterceptor env cacheOptions (VResponse response) w).2
         !! key
       = Some {| entry_value := safeResponseOf response; entry_ttl := 60000 |})
  ∧ (∀ retry interceptors,
       cm_ttl (configureCacheModule
                 {| opt_retry := retry; opt_cache := Some (Options cacheOptions);
                    opt_interceptors := interceptors |}) = 60000).
Proof.
  intros Hretries Httl.
  assert (Hthree : retriesOf retryOptions = 3)
    by (unfold retriesOf; by rewrite Hretries).
  split; [done|]. split; [|split].
  - intros svc config w fuel Hplain Hretry Hmiss Hfail Hadapter Hcount Hfuel.
    apply (retries_exhausted env svc retryOptions config w Hplain Hretry Hmiss
             Hfail 3 fuel config w); [done|done|done|done|].
    by rewrite Hcount, Hthree.
  - intros response key w w1 Hmethod Hshould Hkey Hset.
    destruct (cacheResponseInterceptor_stores env cacheOptions response key
                w w1 Hmethod Hshould Hkey Hset) as [_ ->].
    by rewrite Httl.
  - intros retry interceptors. unfold configureCacheModule. cbn.
    by rewrite Httl.
Qed.

Lemma zero_is_treated_as_unset_witness :
  retriesOf zeroRetryOptions = 3
  ∧ rejectedWithLastError unavailableEnv 4 emptyWorld
      (request 4 unavailableEnv (retryOnlyService zeroRetryOptions)
         pokemonConfig emptyWorld)
  ∧ store (cacheResponseInterceptor unavailableEnv zeroTtlCacheOptions
             (VResponse (okResponse (JNum 25) pokemonConfig)) emptyWorld).2
      !! "http-cache:get:/pokemon/25::"
    = Some {| entry_value := safeResponseOf (okResponse (JNum 25) pokemonConfig);
              entry_ttl := 60000 |}.
Proof.
  pose proof (zero_is_treated_as_unset unavailableEnv zeroRetryOptions
                zeroTtlCacheOptions eq_refl eq_refl)
    as (Hthree & Hretry & Hstore & _).
  split; [exact Hthree|]. split.
  - apply (Hretry (retryOnlyService zeroRetryOptions) pokemonConfig emptyWorld
             4%nat); [by repeat split|reflexivity| | |reflexivity|reflexivity|lia].
    + by intros options c w' [=].
    + by apply unavailable_alwaysFailsRetryable.
  - apply (Hstore (okResponse (JNum 25) pokemonConfig)
             "http-cache:get:/pokemon/25::" emptyWorld emptyWorld);
      [reflexivity|exact I|reflexivity|reflexivity].
Defined.

(** ** Cache strategies, routes and store failures *)

(** Whatever the strategy: when the store holds an entry for the key of a
    cacheable request, the adapter is replaced, the transport is not
    invoked, and the cached value is the response. *)
Lemma cache_hit_skips_transport (env : Env) (options : CacheOptions)
    (config : AxiosRequestConfig) (key : string) (entry : CacheEntry)
    (w w1 : world) :
  cacheableMethod options (cfg_method config) = true →
  generateCacheKey (env_heap env) config options w = (Returns key, w1) →
  cacheGetFails env key = None →
  store w1 !! key = Some entry →
  ∃ w',
    then_ (cacheRequestInterceptor env options config) (dispatchRequest env)
      throw w
    = (Returns (VResponse (responseOfSafe (entry_value entry))), w')
    ∧ sent w' = sent w1.
Proof.
  intros Hmethod Hkey Hget Hentry.
  unfold cacheRequestInterceptor. rewrite Hmethod. cbn [negb].
  unfold bind, then_, cacheManagerGet. rewrite Hkey, Hget, Hentry.
  eexists. by split.
Qed.

(** The cache interceptors read neither [strategy] nor [routes]. *)
Lemma cache_ignores_strategy_and_routes (env : Env) (options : CacheOptions)
    (strategy : option CacheStrategy) (routes : option (list CacheRouteConfig)) :
  (∀ config,
     cacheRequestInterceptor env (withStrategyAndRoutes strategy routes options)
       config
     = cacheRequestInterceptor env options config)
  ∧ (∀ response,
       cacheResponseInterceptor env
         (withStrategyAndRoutes strategy routes options) response
       = cacheResponseInterceptor env options response).
Proof. split; reflexivity. Qed.

(** C1: the code at the failing input.  With the side-cache strategy
    configured and an entry stored for the key, a GET returns the cached
    value, but the transport, which would have answered with a fresh
    response, is never invoked, and the entry written back is the cached
    value again. *)
Theorem side_cache_hit_skips_transport :
  cache_strategy sideCacheOptions = Some SIDE_CACHE
  ∧ transport (plainEnv [] freshTransport) 0 (normaliseMethod pokemonConfig)
    = inl (okResponse (JStr "fresh") (normaliseMethod pokemonConfig))
  ∧ (get 1 (plainEnv [] freshTransport) (cachingService sideCacheOptions)
       "/pokemon/25" emptyConfig staleWorld).1
    = Returns (VResponse (responseOfSafe staleResponse))
  ∧ sent (get 1 (plainEnv [] freshTransport) (cachingService sideCacheOptions)
            "/pokemon/25" emptyConfig staleWorld).2
    = []
  ∧ store (get 1 (plainEnv [] freshTransport) (cachingService sideCacheOptions)
             "/pokemon/25" emptyConfig staleWorld).2 !! pokemonKey
    = Some {| entry_value := staleResponse; entry_ttl := 60000 |}.
Proof. repeat split; vm_compute; reflexivity. Qed.

(** C2: the code at the failing input.  With the global configuration and
    the route rule of the scenario, the response to GET /pokemon/25 is stored
    with the global TTL 60000, not the rule's 3600000, and a second request
    is served from the cache without the transport (the global cache-first
    behaviour, not side-cache); in general the cache interceptors do not
    depend on [strategy] or [routes]. *)
Theorem route_rules_are_not_consulted :
  entry_ttl <$>
    store (get 1 (plainEnv [] freshTransport) (cachingService pokemonCacheOptions)
             "/pokemon/25" emptyConfig emptyWorld).2 !! pokemonKey
  = Some 60000
  ∧ length (sent (get 1 (plainEnv [] freshTransport)
                    (cachingService pokemonCacheOptions)
                    "/pokemon/25" emptyConfig emptyWorld).2) = 1%nat
  ∧ length (sent (get 1 (plainEnv [] freshTransport)
                    (cachingService pokemonCacheOptions)
                    "/pokemon/25" emptyConfig
                    (get 1 (plainEnv [] freshTransport)
                       (cachingService pokemonCacheOptions)
                       "/pokemon/25" emptyConfig emptyWorld).2).2) = 1%nat
  ∧ (∀ env options strategy routes,
       (∀ config,
          cacheRequestInterceptor env
            (withStrategyAndRoutes strategy routes options) config
          = cacheRequestInterceptor env options config)
       ∧ (∀ response,
            cacheResponseInterceptor env
              (withStrategyAndRoutes strategy routes options) response
            = cacheResponseInterceptor env options response)).
Proof.
  split; [vm_compute; reflexivity|].
  split; [vm_compute; reflexivity|].
  split; [vm_compute; reflexivity|].
  intros env options strategy routes.
  apply cache_ignores_strategy_and_routes.
Qed.

(** A failing cache write is caught: the response is returned, the store is
    left as it was and a warning is logged. *)
Lemma cache_write_failure_is_absorbed (env : Env) (options : CacheOptions)
    (response : AxiosResponse) (key : string) (error : JsError) (w w1 : world) :
  cacheableMethod options (cfg_method (resp_config response)) = true →
  acceptedByShouldCache options response →
  generateCacheKey (env_heap env) (resp_config response) options w
  = (Returns key, w1) →
  cacheSetFails env key = Some error →
  ∃ w',
    cacheResponseInterceptor env options (VResponse response) w
    = (Returns (VResponse response), w')
    ∧ store w' = store w1
    ∧ logs w' = (LogWarn, "Error al almacenar respuesta en caché: "
                          +:+ err_message error) :: logs w1.
Proof.
  intros Hmethod Hshould Hkey Hset.
  unfold cacheResponseInterceptor. rewrite Hmethod. cbn [negb].
  replace (match cache_shouldCache options with
           | Some shouldCache => negb (shouldCache response)
           | None => false
           end) with false
    by (unfold acceptedByShouldCache in Hshould;
        destruct (cache_shouldCache options); [by rewrite Hshould|done]).
  unfold bind, tryCatch, then_, cacheManagerSet. rewrite Hkey, Hset. cbn.
  eexists. by repeat split.
Qed.

(** A failing cache read is not caught: the interceptor rejects with the
    store's error. *)
Lemma cache_read_failure_propagates (env : Env) (options : CacheOptions)
    (config : AxiosRequestConfig) (key : string) (error : JsError)
    (w w1 : world) :
  cacheableMethod options (cfg_method config) = true →
  generateCacheKey (env_heap env) config options w = (Returns key, w1) →
  cacheGetFails env key = Some error →
  (cacheRequestInterceptor env options config w).1 = Throws (VError error).
Proof.
  intros Hmethod Hkey Hget.
  unfold cacheRequestInterceptor. rewrite Hmethod. cbn [negb].
  unfold bind, then_, cacheManagerGet. by rewrite Hkey, Hget.
Qed.

(** C8: the code at the failing input.  When the cache manager's read
    fails, the GET is rejected with the store's error and the transport,
    which would have answered, is never invoked; when its write fails, the
    response is returned and a warning is logged. *)
Theorem cache_read_failure_fails_the_request :
  (get 4 brokenReadEnv retryAndCacheService "/pokemon/25" emptyConfig
     emptyWorld).1
  = Throws (VError storeError)
  ∧ sent (get 4 brokenReadEnv retryAndCacheService "/pokemon/25" emptyConfig
            emptyWorld).2
    = []
  ∧ (get 4 brokenWriteEnv retryAndCacheService "/pokemon/25" emptyConfig
       emptyWorld).1
    = Returns (VResponse (okResponse (JStr "fresh")
                            (attemptConfig pokemonConfig 0)))
  ∧ logs (get 4 brokenWriteEnv retryAndCacheService "/pokemon/25" emptyConfig
            emptyWorld).2
    = [(LogWarn, "Error al almacenar respuesta en caché: Connection is closed.")].
Proof. repeat split; vm_compute; reflexivity. Qed.

(** ** A POST request through the whole instance *)

Lemma isPost_normaliseMethod (config : AxiosRequestConfig) :
  isPost config → cfg_method (normaliseMethod config) = Some "post".
Proof.
  intros Hpost. cbn. by rewrite (isPost_lowerMethodOr config "get" Hpost).
Qed.

Lemma isPost_dispatchedConfig (svc : HttpService) (config : AxiosRequestConfig) :
  isPost config → cfg_method (dispatchedConfig svc config) = Some "post".
Proof.
  intros Hpost. unfold dispatchedConfig, attemptConfig.
  destruct (retryOptionsOf svc); by apply isPost_normaliseMethod.
Qed.

Lemma isPost_of_method (config : AxiosRequestConfig) :
  cfg_method config = Some "post" → isPost config.
Proof. intros Hm. by exists "post". Qed.

Lemma cacheableMethod_post (options : CacheOptions) (config : AxiosRequestConfig) :
  cache_methods options = None → isPost config →
  cacheableMethod options (cfg_method config) = false.
Proof.
  intros Hcm Hpost. unfold cacheableMethod.
  by rewrite Hcm, (isPost_lowerMethodOr _ _ Hpost).
Qed.

(** The request interceptors leave a POST config alone and the world as it
    was. *)
Lemma requestChain_post (env : Env) (svc : HttpService)
    (config : AxiosRequestConfig) (w : world) :
  noCustomStages svc →
  (∀ options, cacheOptionsOf svc = Some options → cache_methods options = None) →
  isPost config →
  requestChain env svc config w = (Returns (dispatchedConfig svc config), w).
Proof.
  intros (Hreq & _ & _ & Hureq & _) Hcache Hpost.
  unfold requestChain, dispatchedConfig. rewrite Hureq.
  cbn [rev throughRequestInterceptors fold_left app].
  assert (Hfirst :
    then_ (ret (normaliseMethod config)) (requestMiddlewareInterceptor svc)
      throw w = (Returns (normaliseMethod config), w)).
  { unfold then_, ret. by apply requestMiddlewareInterceptor_none. }
  destruct (cacheOptionsOf svc) as [options|] eqn:Hco.
  - assert (Hsecond :
      then_ (then_ (ret (normaliseMethod config))
               (requestMiddlewareInterceptor svc) throw)
        (cacheRequestInterceptor env options) throw w
      = (Returns (normaliseMethod config), w)).
    { unfold then_ at 1. rewrite Hfirst. unfold cacheRequestInterceptor.
      rewrite (cacheableMethod_post options (normaliseMethod config));
        [done|by apply Hcache|].
      by apply isPost_of_method, isPost_normaliseMethod. }
    destruct (retryOptionsOf svc); [|done].
    unfold then_ at 1. by rewrite Hsecond.
  - destruct (retryOptionsOf svc); [|done].
    unfold then_ at 1. by rewrite Hfirst.
Qed.

Lemma dispatchedConfig_adapter (svc : HttpService) (config : AxiosRequestConfig) :
  cfg_adapter (dispatchedConfig svc config) = cfg_adapter config.
Proof. unfold dispatchedConfig. by destruct (retryOptionsOf svc). Qed.

(** The transport is called once, with [dispatchedConfig]. *)
Lemma dispatch_post (env : Env) (svc : HttpService)
    (config : AxiosRequestConfig) (w : world) :
  noCustomStages svc →
  (∀ options, cacheOptionsOf svc = Some options → cache_methods options = None) →
  isPost config → cfg_adapter config = None →
  then_ (requestChain env svc config) (dispatchRequest env) throw w
  = match transport env (length (sent w)) (dispatchedConfig svc config) with
    | inl response =>
        (Returns (VResponse response), addSent (dispatchedConfig svc config) w)
    | inr error =>
        (Throws (VError error), addSent (dispatchedConfig svc config) w)
    end.
Proof.
  intros Hplain Hcache Hpost Hadapter.
  unfold then_ at 1. rewrite (requestChain_post env svc config w) by done.
  unfold dispatchRequest. by rewrite dispatchedConfig_adapter, Hadapter.
Qed.

Lemma cacheUntouched_response (env : Env) (options : CacheOptions)
    (w : world) (result : outcome value value * world) :
  cache_methods options = None →
  cacheUntouched w result →
  cacheUntouched w
    (then_ (λ _, result) (cacheResponseInterceptor env options) throw w).
Proof.
  intros Hcm (Hops & Hstore & Hret). unfold then_.
  destruct result as [[v|v|] w']; [|done|done].
  destruct (Hret v eq_refl) as (r & -> & Hpost).
  unfold cacheResponseInterceptor.
  rewrite (cacheableMethod_post options (resp_config r) Hcm Hpost).
  split; [done|]. split; [done|]. intros v [= <-]. by exists r.
Qed.

(** A POST request through a service without middlewares and global
    interceptors, with the default cacheable methods, never reads or writes
    the cache. *)
Lemma axiosRequest_post_cacheUntouched (env : Env) (svc : HttpService) :
  noCustomStages svc →
  (∀ options, cacheOptionsOf svc = Some options → cache_methods options = None) →
  transportEchoesConfig env →
  ∀ fuel config w,
    isPost config → cfg_adapter config = None →
    cacheUntouched w (axiosRequest fuel env svc config w).
Proof.
  intros Hplain Hcache Hecho fuel.
  induction fuel as [|fuel IH]; intros config w Hpost Hadapter.
  { by repeat split. }
  pose proof Hplain as (_ & Hresp & Herr & _ & Huresp).
  cbn [axiosRequest]. unfold instanceRequest.
  rewrite middlewares_none by done.
  unfold beforeMiddlewares. rewrite Huresp.
  cbn [throughResponseInterceptors fold_left].
  set (c := dispatchedConfig svc config).
  assert (Hc : isPost c)
    by (by apply isPost_of_method, isPost_dispatchedConfig).
  assert (Hretry : cacheUntouched w
    (match retryOptionsOf svc with
     | Some options =>
         then_ (then_ (requestChain env svc config) (dispatchRequest env) throw)
           ret (axiosRetryOnRejected env options (axiosRequest fuel env svc))
     | None => then_ (requestChain env svc config) (dispatchRequest env) throw
     end w)).
  { assert (Hdispatch := dispatch_post env svc config w Hplain Hcache Hpost
                           Hadapter).
    fold c in Hdispatch. specialize (Hecho (length (sent w)) c).
    destruct (retryOptionsOf svc) as [options|];
      [unfold then_ at 1|]; rewrite Hdispatch;
      destruct (transport env (length (sent w)) c) as [r|e].
    - split; [done|]. split; [done|]. intros v [= <-]. exists r.
      by rewrite Hecho.
    - unfold axiosRetryOnRejected. rewrite Hecho.
      destruct (_ <? _); [|by repeat split].
      destruct (retryConditionOf env options e) as [[]|thrown|];
        [|by repeat split..].
      apply (IH (setRetryCount _ c) (addSent c w)).
      + by apply isPost_of_method, isPost_dispatchedConfig.
      + change (cfg_adapter c = None). unfold c.
        by rewrite dispatchedConfig_adapter.
    - split; [done|]. split; [done|]. intros v [= <-]. exists r.
      by rewrite Hecho.
    - by repeat split. }
  destruct (cacheOptionsOf svc) as [options|] eqn:Hco; [|done].
  apply (cacheUntouched_response env options w _ (Hcache options eq_refl))
    in Hretry.
  exact Hretry.
Qed.

(** The default retry condition is false for a POST that was answered. *)
Lemma retryConditionOf_post_answered (env : Env) (options : RetryOptions)
    (config : AxiosRequestConfig) (error : JsError) :
  methodsToRetry options = None → retryCondition options = None →
  isPost config →
  err_config error = Some config → is_Some (err_response error) →
  retryConditionOf env options error = Returns false.
Proof.
  intros Hrm Hrc (method & Hm & Hlow) Hc [response Hr].
  unfold retryConditionOf, isNetworkError. rewrite Hrc, Hr, Hc, Hrm, Hm, Hlow.
  by case_bool_decide.
Qed.

(** A POST answered with an error status is attempted once. *)
Lemma axiosRequest_post_answered (env : Env) (svc : HttpService)
    (fuel : nat) (config : AxiosRequestConfig) (w : world) (error : JsError) :
  noCustomStages svc →
  (∀ options, cacheOptionsOf svc = Some options → cache_methods options = None) →
  (∀ options, retryOptionsOf svc = Some options →
     methodsToRetry options = None ∧ retryCondition options = None) →
  isPost config → cfg_adapter config = None →
  transport env (length (sent w)) (dispatchedConfig svc config) = inr error →
  err_config error = Some (dispatchedConfig svc config) →
  is_Some (err_response error) →
  axiosRequest (S fuel) env svc config w
  = (Throws (VError error), addSent (dispatchedConfig svc config) w).
Proof.
  intros Hplain Hcache Hretry Hpost Hadapter Hsend Hconfig Hresponse.
  pose proof Hplain as (_ & Hresp & Herr & _ & Huresp).
  cbn [axiosRequest]. unfold instanceRequest.
  rewrite middlewares_none by done.
  unfold beforeMiddlewares. rewrite Huresp.
  cbn [throughResponseInterceptors fold_left].
  assert (Hdispatch := dispatch_post env svc config w Hplain Hcache Hpost
                         Hadapter).
  rewrite Hsend in Hdispatch.
  assert (Hafter :
    match retryOptionsOf svc with
    | Some options =>
        then_ (then_ (requestChain env svc config) (dispatchRequest env) throw)
          ret (axiosRetryOnRejected env options (axiosRequest fuel env svc))
    | None => then_ (requestChain env svc config) (dispatchRequest env) throw
    end w
    = (Throws (VError error), addSent (dispatchedConfig svc config) w)).
  { destruct (retryOptionsOf svc) as [options|] eqn:Hro; [|done].
    unfold then_ at 1. rewrite Hdispatch.
    unfold axiosRetryOnRejected. rewrite Hconfig.
    destruct (Hretry options eq_refl) as [Hrm Hrc].
    rewrite (retryConditionOf_post_answered env options
               (dispatchedConfig svc config) error Hrm Hrc); [|by apply
               isPost_of_method, isPost_dispatchedConfig|done|done].
    by destruct (_ <? _). }
  destruct (cacheOptionsOf svc); [|done].
  unfold then_ at 1. by rewrite Hafter.
Qed.

(** C4.  A POST request under the default configuration: a service without
    middlewares and global interceptors, the default cacheable methods, the
    default retryable methods and no custom retry condition.  Whatever the
    strategy, routes and other cache options, the cache interceptors return
    at the method test, and the whole request, retries included, issues no
    cache read and no cache write and leaves the store as it was.  Whatever
    the status of the response, the retry condition is false for an error
    that carries a response, and a request answered with such an error
    invokes the transport once and is rejected with that error. *)
Theorem post_is_neither_cached_nor_retried (env : Env) (svc : HttpService)
    (config : AxiosRequestConfig) (w : world) (fuel : nat) :
  noCustomStages svc →
  (∀ options, cacheOptionsOf svc = Some options → cache_methods options = None) →
  (∀ options, retryOptionsOf svc = Some options →
     methodsToRetry options = None ∧ retryCondition options = None) →
  transportEchoesConfig env →
  isPost config →
  cfg_adapter config = None →
  (∀ options, cacheOptionsOf svc = Some options →
     cacheRequestInterceptor env options config w = (Returns config, w)
     ∧ ∀ response, resp_config response = config →
         cacheResponseInterceptor env options (VResponse response) w
         = (Returns (VResponse response), w))
  ∧ cacheUntouched w (request fuel env svc config w)
  ∧ (∀ options error,
       retryOptionsOf svc = Some options →
       err_config error = Some config → is_Some (err_response error) →
       retryConditionOf env options error = Returns false)
  ∧ (∀ error,
       transport env (length (sent w)) (dispatchedConfig svc config) = inr error →
       is_Some (err_response error) →
       request (S fuel) env svc config w
       = (Throws (VError error), addSent (dispatchedConfig svc config) w)).
Proof.
  intros Hplain Hcache Hretry Hecho Hpost Hadapter.
  split; [|split; [|split]].
  - intros options Hco. specialize (Hcache options Hco).
    split.
    + unfold cacheRequestInterceptor.
      by rewrite (cacheableMethod_post options config Hcache Hpost).
    + intros response <-. unfold cacheResponseInterceptor.
      by rewrite (cacheableMethod_post options _ Hcache Hpost).
  - by apply axiosRequest_post_cacheUntouched.
  - intros options error Hro Hc Hr. destruct (Hretry options Hro) as [Hrm Hrc].
    by apply (retryConditionOf_post_answered env options config).
  - intros error Hsend Hr.
    apply axiosRequest_post_answered; try done.
    specialize (Hecho (length (sent w)) (dispatchedConfig svc config)).
    by rewrite Hsend in Hecho.
Qed.

Lemma retryAndCacheService_default :
  noCustomStages retryAndCacheService
  ∧ (∀ options, cacheOptionsOf retryAndCacheService = Some options →
       cache_methods options = None)
  ∧ (∀ options, retryOptionsOf retryAndCacheService = Some options →
       methodsToRetry options = None ∧ retryCondition options = None).
Proof.
  split; [by repeat split|].
  split; [by intros options [= <-]|by intros options [= <-]].
Defined.

Lemma unavailableEnv_echoes : transportEchoesConfig unavailableEnv.
Proof. intros n config. reflexivity. Defined.

Lemma post_is_neither_cached_nor_retried_witness :
  cacheUntouched emptyWorld
    (request 4 unavailableEnv retryAndCacheService postConfig emptyWorld)
  ∧ request 4 unavailableEnv retryAndCacheService postConfig emptyWorld
    = (Throws (VError (statusError 503
                         (dispatchedConfig retryAndCacheService postConfig))),
       addSent (dispatchedConfig retryAndCacheService postConfig) emptyWorld).
Proof.
  destruct retryAndCacheService_default as (Hplain & Hcache & Hretry).
  split.
  - exact (proj1 (proj2 (post_is_neither_cached_nor_retried unavailableEnv
             retryAndCacheService postConfig emptyWorld 4 Hplain Hcache Hretry
             unavailableEnv_echoes (ex_intro _ "POST" (conj eq_refl eq_refl))
             eq_refl))).
  - apply (post_is_neither_cached_nor_retried unavailableEnv
             retryAndCacheService postConfig emptyWorld 3 Hplain Hcache Hretry
             unavailableEnv_echoes (ex_intro _ "POST" (conj eq_refl eq_refl))
             eq_refl).
    + reflexivity.
    + by eexists.
Defined.

(** * Further properties *)

(** ** Promise chains *)

Lemma then_returns {A B : Type} (p : M A) (f : A → M B)
    (h : value → M B) (w : world) (a : A) (w' : world) :
  p w = (Returns a, w') → then_ p f h w = f a w'.
Proof. unfold then_. by intros ->. Qed.

Lemma then_throws {A B : Type} (p : M A) (f : A → M B)
    (h : value → M B) (w : world) (v : value) (w' : world) :
  p w = (Throws v, w') → then_ p f h w = h v w'.
Proof. unfold then_. by intros ->. Qed.

Lemma then_throw_throws {A B : Type} (p : M A) (f : A → M B)
    (w : world) (v : value) (w' : world) :
  p w = (Throws v, w') → then_ p f throw w = (Throws v, w').
Proof. unfold then_. by intros ->. Qed.

(** ** Middlewares that fail *)

Lemma sameStoreAndTransport_refl (w : world) : sameStoreAndTransport w w.
Proof. by repeat split. Qed.

Lemma sameStoreAndTransport_trans (w1 w2 w3 : world) :
  sameStoreAndTransport w1 w2 → sameStoreAndTransport w2 w3 →
  sameStoreAndTransport w1 w3.
Proof.
  intros (Hs1 & Ho1 & Ht1) (Hs2 & Ho2 & Ht2).
  repeat split; congruence.
Qed.

Lemma applyRequestMiddlewares_frame (ms : list RequestMiddleware) :
  ∀ config w,
    sameStoreAndTransport w (applyRequestMiddlewares ms config w).2
    ∧ logs (applyRequestMiddlewares ms config w).2 = logs w.
Proof.
  induction ms as [|m ms IH]; intros config w; cbn; [by repeat split|].
  destruct (rqm_process m config) as [next|reason]; cbn; [|by repeat split].
  destruct (IH next (addInvoked (CallRequest m) w)) as [Hframe Hlogs].
  split; [|by rewrite Hlogs].
  by apply (sameStoreAndTransport_trans w (addInvoked (CallRequest m) w)).
Qed.

Lemma applyResponseMiddlewares_frame (ms : list ResponseMiddleware) :
  ∀ response w,
    sameStoreAndTransport w (applyResponseMiddlewares ms response w).2
    ∧ logs (applyResponseMiddlewares ms response w).2 = logs w.
Proof.
  induction ms as [|m ms IH]; intros response w; cbn; [by repeat split|].
  destruct (rsm_process m response) as [next|reason]; cbn; [|by repeat split].
  destruct (IH next (addInvoked (CallResponse m) w)) as [Hframe Hlogs].
  split; [|by rewrite Hlogs].
  by apply (sameStoreAndTransport_trans w (addInvoked (CallResponse m) w)).
Qed.

Lemma applyErrorMiddlewares_frame (ms : list ErrorMiddleware) :
  ∀ error w,
    sameStoreAndTransport w (applyErrorMiddlewares ms error w).2
    ∧ logs (applyErrorMiddlewares ms error w).2 = logs w.
Proof.
  induction ms as [|m ms IH]; intros error w; cbn; [by repeat split|].
  destruct (erm_process m error) as [next|reason]; cbn; [|by repeat split].
  destruct (instanceofError next); cbn; [|by repeat split].
  destruct (IH next (addInvoked (CallError m) w)) as [Hframe Hlogs].
  split; [|by rewrite Hlogs].
  by apply (sameStoreAndTransport_trans w (addInvoked (CallError m) w)).
Qed.

(** The middleware interceptors never touch the cache store or the
    transport. *)
Lemma requestMiddlewareInterceptor_frame (svc : HttpService)
    (config : AxiosRequestConfig) (w : world) :
  sameStoreAndTransport w (requestMiddlewareInterceptor svc config w).2.
Proof.
  unfold requestMiddlewareInterceptor, tryCatch, then_.
  destruct (applyRequestMiddlewares_frame
              (sortByPriority rqm_priority (requestMiddlewares svc)) config w)
    as [Hframe _].
  by destruct (applyRequestMiddlewares _ config w) as [[c|v|] w'].
Qed.

Lemma responseMiddlewareInterceptor_frame (svc : HttpService)
    (response : value) (w : world) :
  sameStoreAndTransport w (responseMiddlewareInterceptor svc response w).2.
Proof.
  unfold responseMiddlewareInterceptor, tryCatch, then_.
  destruct (applyResponseMiddlewares_frame
              (sortByPriority rsm_priority (responseMiddlewares svc)) response w)
    as [Hframe _].
  by destruct (applyResponseMiddlewares _ response w) as [[c|v|] w'].
Qed.

Lemma errorMiddlewareInterceptor_frame (svc : HttpService)
    (error : value) (w : world) :
  sameStoreAndTransport w (errorMiddlewareInterceptor svc error w).2.
Proof.
  unfold errorMiddlewareInterceptor, bind, tryCatch, then_.
  destruct (applyErrorMiddlewares_frame
              (sortByPriority erm_priority (errorMiddlewares svc)) error w)
    as [Hframe _].
  by destruct (applyErrorMiddlewares _ error w) as [[[v|e]|v|] w'].
Qed.

Lemma applyErrorMiddlewares_rejects (pre post : list ErrorMiddleware)
    (m : ErrorMiddleware) (reason : value) :
  ∀ error next w,
    handedOn pre error = Some next →
    erm_process m next = Rejected reason →
    ∃ w',
      applyErrorMiddlewares (pre ++ m :: post) error w = (Throws reason, w')
      ∧ callsBetween w w' (CallError <$> (pre ++ [m]))
      ∧ logs w' = logs w.
Proof.
  induction pre as [|p pre IH]; intros error next w Hh Hm; cbn in *.
  - inversion Hh; subst. rewrite Hm. cbn. eexists. by repeat split.
  - destruct (erm_process p error) as [v|r]; [|done]. cbn.
    destruct (instanceofError v); [|done]. cbn.
    destruct (IH v next (addInvoked (CallError p) w) Hh Hm)
      as (w' & -> & Hc & Hl).
    exists w'. split; [done|]. split; [by apply callsBetween_cons|done].
Qed.

(** A pass whose part before the middlewares is rejected ends in the
    error middlewares. *)
Lemma instanceRequest_rejected (again : AxiosRequestConfig → M value)
    (env : Env) (svc : HttpService) (config : AxiosRequestConfig)
    (w w1 : world) (error : value) :
  beforeMiddlewares again env svc config w = (Throws error, w1) →
  instanceRequest again env svc config w
  = errorMiddlewareInterceptor svc error w1.
Proof. intros Hbefore. unfold instanceRequest. by apply then_throws. Qed.

Lemma generateCacheKey_invoked (h : heap) (config : AxiosRequestConfig)
    (options : CacheOptions) (w : world) :
  invoked (generateCacheKey h config options w).2 = invoked w.
Proof.
  unfold generateCacheKey.
  destruct (cache_cacheKey options) as [[k|f]|];
    [destruct (String.eqb k "")|..];
    unfold bind, tryCatch, then_, ret, throw, unfinished, logger;
    try destruct (serializeForKey h (cfg_params config));
    try destruct (serializeForKey h (cfg_data config));
    done.
Qed.

(** The cache interceptor of the request stage calls no middleware. *)
Lemma cacheRequestInterceptor_invoked (env : Env) (options : CacheOptions)
    (config : AxiosRequestConfig) (w : world) :
  invoked (cacheRequestInterceptor env options config w).2 = invoked w.
Proof.
  unfold cacheRequestInterceptor.
  destruct (negb (cacheableMethod options (cfg_method config))); [done|].
  pose proof (generateCacheKey_invoked (env_heap env) config options w)
    as Hkey.
  unfold bind, then_, cacheManagerGet, logger, ret, throw.
  destruct (generateCacheKey (env_heap env) config options w)
    as [[key|v|] w1]; cbn in Hkey; [|done..].
  destruct (cacheGetFails env key); [done|].
  by destruct (store w1 !! key).
Qed.

(** A failure of the transport that axios-retry leaves alone: the part of
    the pass before the middlewares is rejected with it, after one
    invocation of the transport, whatever [again] is. *)
Lemma beforeMiddlewares_not_retried (env : Env) (svc : HttpService)
    (config : AxiosRequestConfig) (w : world) (e : JsError) :
  noRequestStages svc →
  notServedFromCache env svc config w →
  cfg_adapter config = None →
  transport env (length (sent w)) (dispatchedConfig svc config) = inr e →
  notRetried env svc e →
  ∃ w1,
    sent w1 = sent w ∧ store w1 = store w ∧ invoked w1 = invoked w
    ∧ ∀ again,
        beforeMiddlewares again env svc config w
        = (Throws (VError e), addSent (dispatchedConfig svc config) w1).
Proof.
  intros (Hreq & Hureq & Huresp) Hmiss Hadapter Hsend Hnot.
  assert (Hfirst :
    then_ (ret (normaliseMethod config)) (requestMiddlewareInterceptor svc)
      throw w = (Returns (normaliseMethod config), w)).
  { unfold then_, ret. by apply requestMiddlewareInterceptor_none. }
  assert (Hlookup : ∃ w1,
    sent w1 = sent w ∧ store w1 = store w ∧ invoked w1 = invoked w
    ∧ match cacheOptionsOf svc with
      | Some options =>
          then_ (then_ (ret (normaliseMethod config))
                   (requestMiddlewareInterceptor svc) throw)
            (cacheRequestInterceptor env options) throw w
      | None =>
          then_ (ret (normaliseMethod config))
            (requestMiddlewareInterceptor svc) throw w
      end = (Returns (normaliseMethod config), w1)).
  { destruct (cacheOptionsOf svc) as [options|] eqn:Hco.
    - destruct (Hmiss options config w Hco (λ n, eq_refl) eq_refl)
        as (w1 & Hrun & Hsent & Hstore).
      exists w1. split; [done|]. split; [done|]. split.
      + replace w1 with (cacheRequestInterceptor env options
                           (normaliseMethod config) w).2
          by (by rewrite Hrun).
        apply cacheRequestInterceptor_invoked.
      + by rewrite (then_returns _ _ _ _ _ _ Hfirst).
    - by exists w. }
  destruct Hlookup as (w1 & Hsent & Hstore & Hinvoked & Hlookup).
  exists w1. split; [done|]. split; [done|]. split; [done|]. intros again.
  unfold beforeMiddlewares, requestChain, dispatchedConfig, notRetried in *.
  rewrite Hureq, Huresp.
  cbn [rev throughRequestInterceptors throughResponseInterceptors fold_left
       app].
  destruct (retryOptionsOf svc) as [retryOptions|].
  - set (d := attemptConfig config (default 0%nat (cfg_retryCount config)))
      in *.
    assert (Hretried :
      axiosRetryOnRejected env retryOptions again (VError e) (addSent d w1)
      = (Throws (VError e), addSent d w1)).
    { unfold axiosRetryOnRejected.
      destruct Hnot as [-> | Hcond]; [done|].
      destruct (err_config e); [|done]. rewrite Hcond.
      by destruct (_ <? _). }
    assert (Hdispatch : ∀ p : M AxiosRequestConfig,
      p w = (Returns (normaliseMethod config), w1) →
      then_ (then_ (then_ p axiosRetryRequestInterceptor throw)
               (dispatchRequest env) throw) ret
        (axiosRetryOnRejected env retryOptions again) w
      = (Throws (VError e), addSent d w1)).
    { intros p Hp.
      rewrite (then_throws _ _ _ _ (VError e) (addSent d w1)); [done|].
      rewrite (then_returns _ _ _ _ d w1).
      - unfold dispatchRequest.
        replace (cfg_adapter d) with (@None SafeResponse) by done.
        by rewrite Hsent, Hsend.
      - by rewrite (then_returns _ _ _ _ _ _ Hp). }
    destruct (cacheOptionsOf svc) as [options|].
    + apply then_throw_throws. by apply Hdispatch.
    + by apply Hdispatch.
  - assert (Hdispatch : ∀ p : M AxiosRequestConfig,
      p w = (Returns (normaliseMethod config), w1) →
      then_ p (dispatchRequest env) throw w
      = (Throws (VError e), addSent (normaliseMethod config) w1)).
    { intros p Hp. rewrite (then_returns _ _ _ _ _ _ Hp).
      unfold dispatchRequest.
      replace (cfg_adapter (normaliseMethod config)) with (@None SafeResponse)
        by done.
      by rewrite Hsent, Hsend. }
    destruct (cacheOptionsOf svc) as [options|].
    + apply then_throw_throws. by apply Hdispatch.
    + by apply Hdispatch.
Qed.




(** X1.  An error middleware that rejects, as the one of the example
    service does with [Promise.reject(error)], ends the error stage of the
    pass it runs in: the middlewares after it are not called, "Error in
    error middleware" is logged, and the pass is rejected with the value the
    middleware rejected with.  When the error is a failure of the transport
    that axios-retry leaves alone, that pass is the request: the request is
    rejected with the value after one invocation of the transport. *)
Theorem error_middleware_rejection_ends_stage (svc : HttpService)
    (pre post : list ErrorMiddleware) (m : ErrorMiddleware)
    (error next reason : value) :
  sortByPriority erm_priority (errorMiddlewares svc) = pre ++ m :: post →
  handedOn pre error = Some next →
  erm_process m next = Rejected reason →
  (∀ w, ∃ w',
     errorMiddlewareInterceptor svc error w = (Throws reason, w')
     ∧ callsBetween w w' (CallError <$> (pre ++ [m]))
     ∧ logs w' = (LogError, "Error in error middleware") :: logs w)
  ∧ (∀ again env config w0 w1,
       beforeMiddlewares again env svc config w0 = (Throws error, w1) →
       ∃ w',
         instanceRequest again env svc config w0 = (Throws reason, w')
         ∧ callsBetween w1 w' (CallError <$> (pre ++ [m]))
         ∧ logs w' = (LogError, "Error in error middleware") :: logs w1)
  ∧ (∀ fuel env config w e,
       error = VError e →
       noRequestStages svc →
       notServedFromCache env svc config w →
       cfg_adapter config = None →
       transport env (length (sent w)) (dispatchedConfig svc config) = inr e →
       notRetried env svc e →
       ∃ w',
         request (S fuel) env svc config w = (Throws reason, w')
         ∧ callsBetween w w' (CallError <$> (pre ++ [m]))
         ∧ sent w' = dispatchedConfig svc config :: sent w
         ∧ store w' = store w).
Proof.
  intros Hsorted Hh Hm.
  assert (Hhandler : ∀ w, ∃ w',
    errorMiddlewareInterceptor svc error w = (Throws reason, w')
    ∧ callsBetween w w' (CallError <$> (pre ++ [m]))
    ∧ logs w' = (LogError, "Error in error middleware") :: logs w).
  { intros w. unfold errorMiddlewareInterceptor. rewrite Hsorted.
    destruct (applyErrorMiddlewares_rejects pre post m reason error next w
                Hh Hm) as (w' & Hrun & Hcalls & Hlogs).
    exists (addLog (LogError, "Error in error middleware") w').
    unfold bind, tryCatch, then_. rewrite Hrun. cbn.
    split; [done|]. split; [done|by rewrite Hlogs]. }
  split; [done|]. split.
  - intros again env config w0 w1 Hbefore.
    rewrite (instanceRequest_rejected _ _ _ _ _ _ _ Hbefore).
    apply Hhandler.
  - intros fuel env config w e -> Hstages Hmiss Hadapter Hsend Hnot.
    destruct (beforeMiddlewares_not_retried env svc config w e Hstages Hmiss
                Hadapter Hsend Hnot)
      as (w1 & Hsent & Hstore & Hinvoked & Hbefore).
    unfold request. cbn [axiosRequest].
    rewrite (instanceRequest_rejected _ _ _ _ _ _ _ (Hbefore _)).
    destruct (errorMiddlewareInterceptor_frame svc (VError e)
                (addSent (dispatchedConfig svc config) w1))
      as (Hst & _ & Hse).
    destruct (Hhandler (addSent (dispatchedConfig svc config) w1))
      as (w' & Hrun & Hcalls & _).
    rewrite Hrun in Hst, Hse |- *. cbn in Hst, Hse.
    exists w'. split; [done|]. split.
    { unfold callsBetween in *. by rewrite Hcalls, <- Hinvoked. }
    split; [by rewrite Hse, Hsent|by rewrite Hst, Hstore].
Qed.

Lemma error_middleware_rejection_ends_stage_witness :
  ∃ w',
    get 1 (plainEnv notFoundHeap (failingTransport 400)) notFoundService
      "/pokemon/0" emptyConfig emptyWorld
    = (Throws (VError (statusError 400
                         (dispatchedConfig notFoundService
                            (withMethodUrl "get" "/pokemon/0" emptyConfig)))),
       w')
    ∧ callsBetween emptyWorld w'
        [CallError notFoundMiddleware; CallError loggingErrorMiddleware]
    ∧ sent w'
      = [dispatchedConfig notFoundService
           (withMethodUrl "get" "/pokemon/0" emptyConfig)]
    ∧ store w' = ∅.
Proof.
  apply (proj2 (proj2 (error_middleware_rejection_ends_stage notFoundService
                  [notFoundMiddleware] [] loggingErrorMiddleware
                  (VError (statusError 400
                             (dispatchedConfig notFoundService
                                (withMethodUrl "get" "/pokemon/0"
                                   emptyConfig))))
                  (VError (statusError 400
                             (dispatchedConfig notFoundService
                                (withMethodUrl "get" "/pokemon/0"
                                   emptyConfig))))
                  (VError (statusError 400
                             (dispatchedConfig notFoundService
                                (withMethodUrl "get" "/pokemon/0"
                                   emptyConfig))))
                  eq_refl eq_refl eq_refl))
           0%nat (plainEnv notFoundHeap (failingTransport 400))
           (withMethodUrl "get" "/pokemon/0" emptyConfig) emptyWorld _
           eq_refl).
  - by repeat split.
  - by intros options c w' [=].
  - reflexivity.
  - reflexivity.
  - right. reflexivity.
Defined.

(** X2.  A rejection raised by a response middleware is what the pass it
    runs in is rejected with, be the pass the request itself or a retry
    issued inside it ([again] is what axios-retry calls to retry): when the
    part of the pass before the middlewares is fulfilled with a value and
    the response middlewares reject it, the error middlewares of that pass,
    which sit in the same [then], are not called on the rejection, only the
    response middlewares up to the failing one have run, and what the cache
    interceptor stored before stays stored.  For the outermost pass this is
    the outcome of the request. *)
Theorem response_middleware_failure_is_final
    (again : AxiosRequestConfig → M value) (env : Env)
    (svc : HttpService) (config : AxiosRequestConfig) (w w1 w2 : world)
    (v reason : value) :
  beforeMiddlewares again env svc config w = (Returns v, w1) →
  responseMiddlewareInterceptor svc v w1 = (Throws reason, w2) →
  instanceRequest again env svc config w = (Throws reason, w2)
  ∧ (∃ executed,
       executed `prefix_of` sortByPriority rsm_priority (responseMiddlewares svc)
       ∧ callsBetween w1 w2 (CallResponse <$> executed))
  ∧ sameStoreAndTransport w1 w2
  ∧ (∀ fuel, again = request fuel env svc →
             request (S fuel) env svc config w = (Throws reason, w2)).
Proof.
  intros Hbefore Hmw.
  assert (Hpass : instanceRequest again env svc config w = (Throws reason, w2)).
  { unfold instanceRequest. by rewrite (then_returns _ _ _ _ _ _ Hbefore). }
  split; [done|]. split; [|split].
  - destruct (applyResponseMiddlewares_calls
                (sortByPriority rsm_priority (responseMiddlewares svc)) v w1)
      as (executed & Hpre & Hcalls & _).
    exists executed. split; [done|].
    unfold callsBetween in *. rewrite <- Hcalls.
    replace w2 with (responseMiddlewareInterceptor svc v w1).2
      by (by rewrite Hmw).
    unfold responseMiddlewareInterceptor. by rewrite tryCatch_log_invoked.
  - replace w2 with (responseMiddlewareInterceptor svc v w1).2
      by (by rewrite Hmw).
    apply responseMiddlewareInterceptor_frame.
  - intros fuel ->. exact Hpass.
Qed.

Lemma response_middleware_failure_is_final_witness :
  (request 1 (plainEnv [] freshTransport) (guardedService false) pokemonConfig
     emptyWorld).1
  = Throws (typeError "API returned error status")
  ∧ entry_value <$>
      store (request 1 (plainEnv [] freshTransport) (guardedService false)
               pokemonConfig emptyWorld).2 !! pokemonKey
    = Some (safeResponseOf (okResponse (JStr "fresh")
                              (attemptConfig pokemonConfig 0)))
  ∧ invoked (request 1 (plainEnv [] freshTransport) (guardedService false)
               pokemonConfig emptyWorld).2
    = [CallResponse validatingMiddleware].
Proof.
  destruct (response_middleware_failure_is_final
              (request 0 (plainEnv [] freshTransport) (guardedService false))
              (plainEnv [] freshTransport)
              (guardedService false) pokemonConfig emptyWorld
              _ _ _ _ eq_refl eq_refl) as (_ & _ & _ & Hrun).
  rewrite (Hrun 0%nat eq_refl). repeat split.
Defined.

(** X3.  When a request middleware rejects with a value that carries no
    config, the request goes no further: the cache is not read, the
    transport is not invoked, nothing is retried, and the value is handed to
    the error middlewares, whose outcome is the outcome of the request. *)
Theorem request_middleware_failure_skips_transport (fuel : nat) (env : Env)
    (svc : HttpService) (config : AxiosRequestConfig) (w w1 : world)
    (reason : value) :
  userRequestInterceptors svc = [] →
  userResponseInterceptors svc = [] →
  requestMiddlewareInterceptor svc (normaliseMethod config) w
  = (Throws reason, w1) →
  carriesNoConfig reason →
  request (S fuel) env svc config w = errorMiddlewareInterceptor svc reason w1
  ∧ sameStoreAndTransport w w1
  ∧ sameStoreAndTransport w (request (S fuel) env svc config w).2.
Proof.
  intros Hureq Huresp Hmw Hnoconfig.
  assert (Hframe : sameStoreAndTransport w w1).
  { replace w1 with (requestMiddlewareInterceptor svc (normaliseMethod config)
                       w).2 by (by rewrite Hmw).
    apply requestMiddlewareInterceptor_frame. }
  assert (Hrun :
    request (S fuel) env svc config w = errorMiddlewareInterceptor svc reason w1).
  { unfold request. cbn [axiosRequest].
    unfold instanceRequest, beforeMiddlewares, requestChain.
    rewrite Hureq, Huresp.
    cbn [rev throughRequestInterceptors throughResponseInterceptors fold_left
         app].
    assert (Hretry : ∀ options,
      axiosRetryOnRejected env options (axiosRequest fuel env svc) reason w1
      = (Throws reason, w1)).
    { intros options. unfold axiosRetryOnRejected.
      destruct reason as [r|e|d]; [done| |done].
      cbn in Hnoconfig. by rewrite Hnoconfig. }
    assert (Hfirst :
      then_ (ret (normaliseMethod config)) (requestMiddlewareInterceptor svc)
        throw w = (Throws reason, w1))
      by (unfold then_, ret; by rewrite Hmw).
    destruct (cacheOptionsOf svc), (retryOptionsOf svc).
    all: apply (then_throws _ _ _ _ reason w1).
    all: repeat first
           [ exact Hfirst
           | apply then_throw_throws
           | rewrite (then_throws _ _ _ _ reason w1); [apply Hretry|] ]. }
  split; [done|]. split; [done|].
  rewrite Hrun.
  apply (sameStoreAndTransport_trans w w1); [done|].
  apply errorMiddlewareInterceptor_frame.
Qed.

Lemma request_middleware_failure_skips_transport_witness :
  (request 1 (plainEnv [] freshTransport) (guardedService true) pokemonConfig
     emptyWorld).1
  = Throws (typeError "not signed in")
  ∧ sameStoreAndTransport emptyWorld
      (request 1 (plainEnv [] freshTransport) (guardedService true)
         pokemonConfig emptyWorld).2.
Proof.
  destruct (request_middleware_failure_skips_transport 0
              (plainEnv [] freshTransport) (guardedService true) pokemonConfig
              emptyWorld _ (typeError "not signed in") eq_refl eq_refl eq_refl
              eq_refl) as (Hrun & _ & Hframe).
  split; [by rewrite Hrun|exact Hframe].
Defined.
(** ** The cache, request after request *)

(** [generateCacheKey] reads no state and writes only to the log. *)
Lemma generateCacheKey_frame (h : heap) (config : AxiosRequestConfig)
    (options : CacheOptions) (w : world) :
  ∃ w',
    generateCacheKey h config options w = (cacheKeyOf h config options, w')
    ∧ sameStoreAndTransport w w'.
Proof.
  unfold cacheKeyOf, generateCacheKey.
  destruct (cache_cacheKey options) as [[k|f]|];
    [destruct (String.eqb k "")| |];
    unfold bind, tryCatch, then_, ret, throw, unfinished, logger;
    try destruct (serializeForKey h (cfg_params config));
    try destruct (serializeForKey h (cfg_data config));
    cbn; eexists; split; try reflexivity; by repeat split.
Qed.

(** A key that is not computed by a function of the application depends on
    the method up to letter case, the URL, the params and the body only. *)
Lemma cacheKeyOf_sameCacheIdentity (h : heap) (options : CacheOptions)
    (c1 c2 : AxiosRequestConfig) :
  keyFunction options = false →
  sameCacheIdentity c1 c2 →
  cacheKeyOf h c1 options = cacheKeyOf h c2 options.
Proof.
  intros Hkey (Hmethod & Hurl & Hparams & Hdata).
  unfold cacheKeyOf, generateCacheKey, keyFunction in *.
  rewrite Hmethod, Hurl, Hparams, Hdata.
  by destruct (cache_cacheKey options) as [[k|f]|].
Qed.

Lemma sameCacheIdentity_attempt (config : AxiosRequestConfig) (n : nat) :
  sameCacheIdentity (attemptConfig config n) config.
Proof.
  split; [exact (lowerMethodOr_idem (cfg_method config))|done].
Qed.

Lemma sameCacheIdentity_normalise (config : AxiosRequestConfig) :
  sameCacheIdentity (normaliseMethod config) config.
Proof.
  split; [exact (lowerMethodOr_idem (cfg_method config))|done].
Qed.

Lemma sameCacheIdentity_dispatched (svc : HttpService)
    (config : AxiosRequestConfig) :
  sameCacheIdentity (dispatchedConfig svc config) config.
Proof.
  unfold dispatchedConfig. destruct (retryOptionsOf svc).
  - apply sameCacheIdentity_attempt.
  - apply sameCacheIdentity_normalise.
Qed.

(** Storing what the cache handed out stores the cached value again. *)
Lemma safeResponseOf_responseOfSafe (cached : SafeResponse) :
  safeResponseOf (responseOfSafe cached) = cached.
Proof. by destruct cached as [d s t hs [u m rh]]. Qed.

(** The key of a response that came from the cache. *)
Lemma cacheKeyOf_cached (h : heap) (options : CacheOptions)
    (cached : SafeResponse) :
  cacheKeyOf h (resp_config (responseOfSafe cached)) options
  = Returns match cache_cacheKey options with
            | Some (inr f) => f (resp_config (responseOfSafe cached))
            | Some (inl k) => if String.eqb k "" then bareKey cached else k
            | None => bareKey cached
            end.
Proof.
  unfold cacheKeyOf, generateCacheKey.
  destruct (cache_cacheKey options) as [[k|f]|];
    [destruct (String.eqb k "")|..]; reflexivity.
Qed.

(** The response interceptor on a value that came from the cache: the value
    is handed on, the transport is left alone, and the store changes at
    most by an entry that holds that very value. *)
Lemma cacheResponseInterceptor_cached (env : Env) (options : CacheOptions)
    (cached : SafeResponse) (w : world) :
  ∃ w',
    cacheResponseInterceptor env options (VResponse (responseOfSafe cached)) w
    = (Returns (VResponse (responseOfSafe cached)), w')
    ∧ sent w' = sent w
    ∧ (store w' = store w
       ∨ ∃ key, store w' = <[key := entryFor options cached]> (store w)).
Proof.
  unfold cacheResponseInterceptor.
  destruct (negb (cacheableMethod options _)); [eexists; by eauto|].
  destruct (match cache_shouldCache options with
            | Some shouldCache => negb (shouldCache (responseOfSafe cached))
            | None => false
            end); [eexists; by eauto|].
  destruct (generateCacheKey_frame (env_heap env)
              (resp_config (responseOfSafe cached)) options w)
    as (w1 & Hkey & Hstore & _ & Hsent).
  rewrite cacheKeyOf_cached in Hkey.
  unfold bind, tryCatch, then_, cacheManagerSet, logger, ret.
  rewrite Hkey, safeResponseOf_responseOfSafe.
  destruct (cacheSetFails env _); cbn; eexists;
    (split; [reflexivity|split; [done|]]).
  - left. done.
  - right. eexists. by rewrite Hstore.
Qed.

(** The request interceptor of the cache, by what the store holds under
    the key of the request. *)
Lemma cacheRequestInterceptor_lookup (env : Env) (options : CacheOptions)
    (config : AxiosRequestConfig) (key : string) (w : world) :
  cacheableMethod options (cfg_method config) = true →
  cacheKeyOf (env_heap env) config options = Returns key →
  cacheGetFails env key = None →
  ∃ w',
    cacheRequestInterceptor env options config w
    = (Returns match store w !! key with
               | Some entry => setAdapter (entry_value entry) config
               | None => config
               end, w')
    ∧ store w' = store w ∧ sent w' = sent w.
Proof.
  intros Hmethod Hkey Hget. unfold cacheRequestInterceptor.
  rewrite Hmethod. cbn [negb].
  destruct (generateCacheKey_frame (env_heap env) config options w)
    as (w1 & Hrun & Hstore & _ & Hsent).
  rewrite Hkey in Hrun.
  unfold bind, then_, cacheManagerGet, logger, ret. rewrite Hrun, Hget, Hstore.
  destruct (store w !! key) as [entry|]; cbn; eexists; by split.
Qed.

(** The first half of a pass through the instance, up to the answer of the
    adapter, when the service has no middlewares and no global
    interceptors and the cache can be read. *)
Lemma requestChain_lookup (env : Env) (svc : HttpService)
    (options : CacheOptions) (config : AxiosRequestConfig) (key : string)
    (w : world) :
  noCustomStages svc →
  cacheOptionsOf svc = Some options →
  cacheable options config →
  cacheKeyOf (env_heap env) (normaliseMethod config) options = Returns key →
  cacheGetFails env key = None →
  ∃ w',
    requestChain env svc config w
    = (Returns match store w !! key with
               | Some entry =>
                   setAdapter (entry_value entry) (dispatchedConfig svc config)
               | None => dispatchedConfig svc config
               end, w')
    ∧ store w' = store w ∧ sent w' = sent w.
Proof.
  intros (Hreq & _ & _ & Hureq & _) Hco Hmethod Hkey Hget.
  destruct (cacheRequestInterceptor_lookup env options (normaliseMethod config)
              key w Hmethod Hkey Hget) as (w' & Hrun & Hstore & Hsent).
  exists w'. split; [|done].
  unfold requestChain, dispatchedConfig. rewrite Hureq, Hco.
  cbn [rev throughRequestInterceptors fold_left app].
  assert (Hfirst :
    then_ (ret (normaliseMethod config)) (requestMiddlewareInterceptor svc)
      throw w = (Returns (normaliseMethod config), w)).
  { unfold then_, ret. by apply requestMiddlewareInterceptor_none. }
  assert (Hsecond :
    then_ (then_ (ret (normaliseMethod config))
             (requestMiddlewareInterceptor svc) throw)
      (cacheRequestInterceptor env options) throw w
    = (Returns match store w !! key with
               | Some entry =>
                   setAdapter (entry_value entry) (normaliseMethod config)
               | None => normaliseMethod config
               end, w')).
  { by rewrite (then_returns _ _ _ _ _ _ Hfirst). }
  destruct (retryOptionsOf svc).
  - rewrite (then_returns _ _ _ _ _ _ Hsecond).
    unfold axiosRetryRequestInterceptor, ret, attemptConfig.
    by destruct (store w !! key).
  - exact Hsecond.
Qed.

(** A pass through the instance of a service without middlewares and global
    interceptors, whose cache holds an entry for the request: the adapter
    answers with the cached value, which then meets the response interceptor
    of the cache. *)
Lemma request_hit (fuel : nat) (env : Env) (svc : HttpService)
    (options : CacheOptions) (config : AxiosRequestConfig) (key : string)
    (entry : CacheEntry) (w : world) :
  noCustomStages svc →
  cacheOptionsOf svc = Some options →
  cacheable options config →
  cacheKeyOf (env_heap env) (normaliseMethod config) options = Returns key →
  cacheGetFails env key = None →
  store w !! key = Some entry →
  ∃ w1,
    request (S fuel) env svc config w
    = cacheResponseInterceptor env options
        (VResponse (responseOfSafe (entry_value entry))) w1
    ∧ store w1 = store w ∧ sent w1 = sent w.
Proof.
  intros Hplain Hco Hmethod Hkey Hget Hentry.
  destruct (requestChain_lookup env svc options config key w Hplain Hco Hmethod
              Hkey Hget) as (w1 & Hchain & Hstore & Hsent).
  rewrite Hentry in Hchain.
  destruct Hplain as (_ & Hresp & Herr & _ & Huresp).
  exists w1. split; [|done].
  unfold request. cbn [axiosRequest]. unfold instanceRequest.
  rewrite (middlewares_none _ _ _ Hresp Herr).
  unfold beforeMiddlewares. rewrite Huresp, Hco.
  cbn [throughResponseInterceptors fold_left].
  assert (Hadapter :
    then_ (requestChain env svc config) (dispatchRequest env) throw w
    = (Returns (VResponse (responseOfSafe (entry_value entry))), w1)).
  { by rewrite (then_returns _ _ _ _ _ _ Hchain). }
  destruct (retryOptionsOf svc) as [retryOptions|].
  - apply then_returns. by rewrite (then_returns _ _ _ _ _ _ Hadapter).
  - by apply then_returns.
Qed.

Lemma request_served (fuel : nat) (env : Env) (svc : HttpService)
    (options : CacheOptions) (config : AxiosRequestConfig) (key : string)
    (entry : CacheEntry) (w : world) :
  noCustomStages svc →
  cacheOptionsOf svc = Some options →
  cacheable options config →
  cacheKeyOf (env_heap env) (normaliseMethod config) options = Returns key →
  cacheGetFails env key = None →
  store w !! key = Some entry →
  servedFromCache (entry_value entry) w (request (S fuel) env svc config w).
Proof.
  intros Hplain Hco Hmethod Hkey Hget Hentry.
  destruct (request_hit fuel env svc options config key entry w Hplain Hco
              Hmethod Hkey Hget Hentry) as (w1 & -> & _ & Hsent).
  destruct (cacheResponseInterceptor_cached env options (entry_value entry) w1)
    as (w2 & -> & Hsent2 & _).
  split; [done|]. cbn. congruence.
Qed.

(** A pass through the instance when the cache holds nothing for the
    request and the transport answers with a response that carries the
    config it was called with. *)
Lemma request_miss (fuel : nat) (env : Env) (svc : HttpService)
    (options : CacheOptions) (config : AxiosRequestConfig) (key : string)
    (r : AxiosResponse) (w : world) :
  noCustomStages svc →
  cacheOptionsOf svc = Some options →
  keyFunction options = false →
  cacheable options config →
  cacheKeyOf (env_heap env) config options = Returns key →
  cacheGetFails env key = None →
  cacheSetFails env key = None →
  store w !! key = None →
  cfg_adapter config = None →
  transport env (length (sent w)) (dispatchedConfig svc config) = inl r →
  resp_config r = dispatchedConfig svc config →
  acceptedByShouldCache options r →
  fetchedAndStored svc options config r key w
    (request (S fuel) env svc config w).
Proof.
  intros Hplain Hco Hfn Hmethod Hkey Hget Hset Hmiss Hadapter Htransport Hecho
    Haccept.
  assert (Hkey1 :
    cacheKeyOf (env_heap env) (normaliseMethod config) options = Returns key).
  { rewrite <- Hkey.
    apply cacheKeyOf_sameCacheIdentity, sameCacheIdentity_normalise; done. }
  assert (Hkey2 :
    cacheKeyOf (env_heap env) (resp_config r) options = Returns key).
  { rewrite Hecho, <- Hkey.
    apply cacheKeyOf_sameCacheIdentity, sameCacheIdentity_dispatched; done. }
  destruct (requestChain_lookup env svc options config key w Hplain Hco Hmethod
              Hkey1 Hget) as (w1 & Hchain & Hstore & Hsent).
  rewrite Hmiss in Hchain.
  destruct Hplain as (_ & Hresp & Herr & _ & Huresp).
  assert (Hdispatch :
    then_ (requestChain env svc config) (dispatchRequest env) throw w
    = (Returns (VResponse r), addSent (dispatchedConfig svc config) w1)).
  { rewrite (then_returns _ _ _ _ _ _ Hchain). unfold dispatchRequest.
    replace (cfg_adapter (dispatchedConfig svc config)) with (@None SafeResponse)
      by (unfold dispatchedConfig; by destruct (retryOptionsOf svc)).
    by rewrite Hsent, Htransport. }
  assert (Hrun :
    request (S fuel) env svc config w
    = cacheResponseInterceptor env options (VResponse r)
        (addSent (dispatchedConfig svc config) w1)).
  { unfold request. cbn [axiosRequest]. unfold instanceRequest.
    rewrite (middlewares_none _ _ _ Hresp Herr).
    unfold beforeMiddlewares. rewrite Huresp, Hco.
    cbn [throughResponseInterceptors fold_left].
    destruct (retryOptionsOf svc) as [retryOptions|].
    - apply then_returns. by rewrite (then_returns _ _ _ _ _ _ Hdispatch).
    - by apply then_returns. }
  rewrite Hrun. unfold cacheResponseInterceptor.
  replace (cacheableMethod options (cfg_method (resp_config r))) with true.
  2:{ rewrite Hecho. symmetry. unfold cacheable in Hmethod.
      unfold dispatchedConfig. by destruct (retryOptionsOf svc). }
  cbn [negb].
  replace (match cache_shouldCache options with
           | Some shouldCache => negb (shouldCache r)
           | None => false
           end) with false
    by (unfold acceptedByShouldCache in Haccept;
        destruct (cache_shouldCache options); [by rewrite Haccept|done]).
  destruct (generateCacheKey_frame (env_heap env) (resp_config r) options
              (addSent (dispatchedConfig svc config) w1))
    as (w2 & Hgen & Hstore2 & _ & Hsent2).
  rewrite Hkey2 in Hgen.
  unfold bind, tryCatch, then_, cacheManagerSet, logger, ret.
  rewrite Hgen, Hset. unfold fetchedAndStored. cbn.
  split; [done|]. split.
  - rewrite Hsent2. cbn. by rewrite Hsent.
  - rewrite Hstore2. cbn. by rewrite Hstore.
Qed.


(** A response fetched and stored by one request is what a later request
    with the same key is answered with. *)
Lemma request_miss_then_hit (fuel fuel' : nat) (env : Env) (svc : HttpService)
    (options : CacheOptions) (c1 c2 : AxiosRequestConfig) (key : string)
    (r : AxiosResponse) (w : world) :
  noCustomStages svc →
  cacheOptionsOf svc = Some options →
  keyFunction options = false →
  cacheable options c1 →
  cacheKeyOf (env_heap env) c1 options = Returns key →
  cacheGetFails env key = None →
  cacheSetFails env key = None →
  store w !! key = None →
  cfg_adapter c1 = None →
  transport env (length (sent w)) (dispatchedConfig svc c1) = inl r →
  resp_config r = dispatchedConfig svc c1 →
  acceptedByShouldCache options r →
  cacheable options c2 →
  cacheKeyOf (env_heap env) c2 options = Returns key →
  fetchedAndStored svc options c1 r key w (request (S fuel) env svc c1 w)
  ∧ servedFromCache (safeResponseOf r) (request (S fuel) env svc c1 w).2
      (request (S fuel') env svc c2 (request (S fuel) env svc c1 w).2).
Proof.
  intros Hplain Hco Hfn Hm1 Hk1 Hget Hset Hmiss Hadapter Htransport Hecho
    Haccept Hm2 Hk2.
  pose proof (request_miss fuel env svc options c1 key r w Hplain Hco Hfn Hm1
                Hk1 Hget Hset Hmiss Hadapter Htransport Hecho Haccept)
    as Hfirst.
  split; [done|]. destruct Hfirst as (_ & _ & Hstore).
  apply (request_served fuel' env svc options c2 key
           (entryFor options (safeResponseOf r))); try done.
  - rewrite <- Hk2.
    apply cacheKeyOf_sameCacheIdentity, sameCacheIdentity_normalise; done.
  - rewrite Hstore. apply lookup_insert_eq.
Qed.



(** X5.  With [cacheKey] set to a non-empty string every cacheable request
    has that one key: once a response, whose data is not text, is stored
    under it for a request without a body, any other cacheable request
    without a body, to whatever URL and with whatever params, is answered
    with it. *)
Theorem fixed_cache_key_is_shared_by_all_requests (fuel fuel' : nat)
    (env : Env) (svc : HttpService) (options : CacheOptions)
    (c1 c2 : AxiosRequestConfig) (key : string) (r : AxiosResponse)
    (w : world) :
  noCustomStages svc →
  cacheOptionsOf svc = Some options →
  cache_cacheKey options = Some (inl key) →
  key ≠ "" →
  cacheable options c1 →
  cacheable options c2 →
  cacheGetFails env key = None →
  cacheSetFails env key = None →
  store w !! key = None →
  cfg_adapter c1 = None →
  noBody c1 →
  noBody c2 →
  transport env (length (sent w)) (dispatchedConfig svc c1) = inl r →
  resp_config r = dispatchedConfig svc c1 →
  notText (resp_data r) →
  acceptedByShouldCache options r →
  fetchedAndStored svc options c1 r key w (request (S fuel) env svc c1 w)
  ∧ servedFromCache (safeResponseOf r) (request (S fuel) env svc c1 w).2
      (request (S fuel') env svc c2 (request (S fuel) env svc c1 w).2).
Proof.
  intros Hplain Hco Hkey Hne Hm1 Hm2 Hget Hset Hmiss Hadapter Hbody1 Hbody2
    Htransport Hecho Htext Haccept.
  assert (Hfixed : ∀ c, cacheKeyOf (env_heap env) c options = Returns key).
  { intros c. unfold cacheKeyOf, generateCacheKey. rewrite Hkey.
    by rewrite (proj2 (String.eqb_neq key "") Hne). }
  apply request_miss_then_hit; try done.
  unfold keyFunction. by rewrite Hkey.
Qed.

Lemma fixed_cache_key_is_shared_by_all_requests_witness :
  servedFromCache
    (safeResponseOf
       (okResponse (JNum 25) (normaliseMethod aliceConfig)))
    (request 1 listEnv (cachingService fixedKeyOptions) aliceConfig
       emptyWorld).2
    (request 1 listEnv (cachingService fixedKeyOptions) pokemonConfig
       (request 1 listEnv (cachingService fixedKeyOptions) aliceConfig
          emptyWorld).2).
Proof.
  apply (fixed_cache_key_is_shared_by_all_requests 0 0 listEnv
           (cachingService fixedKeyOptions) fixedKeyOptions aliceConfig
           pokemonConfig "pokemon"
           (okResponse (JNum 25) (normaliseMethod aliceConfig))
           emptyWorld);
    first [reflexivity | done | by repeat split].
Defined.

(** X6.  A cache hit writes the cached value once more, under the key of
    the config kept inside it, which has neither params nor body.  With the
    default key, a request with params and without a body that is served
    from the cache, the data of the cached value not being text, thus
    leaves its response under the key of the bare URL, and a later request
    to that URL without params and body is answered with the response to
    the request with params. *)
Theorem cache_hit_is_copied_to_the_bare_url (fuel fuel' : nat) (env : Env)
    (svc : HttpService) (options : CacheOptions)
    (c1 c2 : AxiosRequestConfig) (key : string) (entry : CacheEntry)
    (w : world) :
  noCustomStages svc →
  cacheOptionsOf svc = Some options →
  cache_cacheKey options = None →
  cacheable options c1 →
  cacheKeyOf (env_heap env) c1 options = Returns key →
  cacheGetFails env key = None →
  store w !! key = Some entry →
  noBody c1 →
  notText (safe_data (entry_value entry)) →
  cacheableMethod options (safe_method (safe_config (entry_value entry)))
  = true →
  acceptedByShouldCache options (responseOfSafe (entry_value entry)) →
  cacheSetFails env (bareKey (entry_value entry)) = None →
  cacheGetFails env (bareKey (entry_value entry)) = None →
  cacheable options c2 →
  sameCacheIdentity (resp_config (responseOfSafe (entry_value entry))) c2 →
  servedFromCache (entry_value entry) w (request (S fuel) env svc c1 w)
  ∧ store (request (S fuel) env svc c1 w).2
    = <[bareKey (entry_value entry) := entryFor options (entry_value entry)]>
        (store w)
  ∧ servedFromCache (entry_value entry) (request (S fuel) env svc c1 w).2
      (request (S fuel') env svc c2 (request (S fuel) env svc c1 w).2).
Proof.
  intros Hplain Hco Hdefault Hm1 Hk1 Hget Hentry Hbody Htext Hmethod Haccept
    Hset Hget2 Hm2 Hsame.
  assert (Hfn : keyFunction options = false)
    by (unfold keyFunction; by rewrite Hdefault).
  assert (Hk1' :
    cacheKeyOf (env_heap env) (normaliseMethod c1) options = Returns key).
  { rewrite <- Hk1.
    apply cacheKeyOf_sameCacheIdentity, sameCacheIdentity_normalise; done. }
  assert (Hstore :
    store (request (S fuel) env svc c1 w).2
    = <[bareKey (entry_value entry) := entryFor options (entry_value entry)]>
        (store w)).
  { destruct (request_hit fuel env svc options c1 key entry w Hplain Hco Hm1
                Hk1' Hget Hentry) as (w1 & -> & Hstore1 & _).
    unfold cacheResponseInterceptor.
    change (cfg_method (resp_config (responseOfSafe (entry_value entry))))
      with (safe_method (safe_config (entry_value entry))).
    rewrite Hmethod. cbn [negb].
    replace (match cache_shouldCache options with
             | Some shouldCache =>
                 negb (shouldCache (responseOfSafe (entry_value entry)))
             | None => false
             end) with false
      by (unfold acceptedByShouldCache in Haccept;
          destruct (cache_shouldCache options); [by rewrite Haccept|done]).
    destruct (generateCacheKey_frame (env_heap env)
                (resp_config (responseOfSafe (entry_value entry))) options w1)
      as (w2 & Hgen & Hstore2 & _).
    rewrite cacheKeyOf_cached, Hdefault in Hgen.
    unfold bind, tryCatch, then_, cacheManagerSet, logger, ret.
    rewrite Hgen, Hset, safeResponseOf_responseOfSafe. cbn.
    by rewrite Hstore2, Hstore1. }
  split; [by apply (request_served fuel env svc options c1 key)|].
  split; [done|].
  apply (request_served fuel' env svc options c2
           (bareKey (entry_value entry))
           (entryFor options (entry_value entry))); try done.
  - rewrite <- (cacheKeyOf_sameCacheIdentity (env_heap env) options
                  (resp_config (responseOfSafe (entry_value entry)))
                  (normaliseMethod c2) Hfn).
    + by rewrite cacheKeyOf_cached, Hdefault.
    + destruct Hsame as (Hmeth & Hurl & Hparams & Hdata).
      split; [|done]. rewrite Hmeth. symmetry.
      exact (lowerMethodOr_idem (cfg_method c2)).
  - rewrite Hstore. apply lookup_insert_eq.
Qed.

Lemma cache_hit_is_copied_to_the_bare_url_witness :
  servedFromCache (safeResponseOf aliceResponse) aliceWorld
    (request 1 listEnv retryAndCacheService bobConfig aliceWorld)
  ∧ store (request 1 listEnv retryAndCacheService bobConfig aliceWorld).2
    = <["http-cache:get:/pokemon::" :=
          entryFor emptyCacheOptions (safeResponseOf aliceResponse)]>
        (store aliceWorld)
  ∧ servedFromCache (safeResponseOf aliceResponse)
      (request 1 listEnv retryAndCacheService bobConfig aliceWorld).2
      (request 1 listEnv retryAndCacheService bareListConfig
         (request 1 listEnv retryAndCacheService bobConfig aliceWorld).2).
Proof.
  apply (cache_hit_is_copied_to_the_bare_url 0 0 listEnv retryAndCacheService
           emptyCacheOptions bobConfig bareListConfig listKey
           (entryFor emptyCacheOptions (safeResponseOf aliceResponse))
           aliceWorld);
    first [reflexivity | by repeat split].
Defined.

(** ** Method lists *)

Lemma lowerMethodOr_lower (method : option string) :
  toLowerCase (lowerMethodOr method "") = lowerMethodOr method "".
Proof.
  destruct method as [m|]; cbn; [|done].
  destruct (String.eqb (toLowerCase m) ""); [done|apply toLowerCase_idem].
Qed.

(** X7.  The methods of [cache.methods] are compared with the lower-cased
    method of the request.  When every entry of the list has an upper-case
    letter, as in [methods: ['GET']], no method matches: the cache
    interceptors pass every request and every response on, nothing is
    looked up and nothing is stored. *)
Theorem upper_case_cache_methods_disable_the_cache (env : Env)
    (options : CacheOptions) :
  noLowerCaseEntry (default ["get"] (cache_methods options)) →
  (∀ method, cacheableMethod options method = false)
  ∧ (∀ config, cacheRequestInterceptor env options config = ret config)
  ∧ (∀ response,
       cacheResponseInterceptor env options (VResponse response)
       = ret (VResponse response)).
Proof.
  intros Hupper.
  assert (Hnever : ∀ method, cacheableMethod options method = false).
  { intros method. unfold cacheableMethod. apply bool_decide_eq_false.
    intros Hin. apply (Hupper _ Hin), lowerMethodOr_lower. }
  split; [done|].
  split; [intros config|intros response];
    unfold cacheRequestInterceptor, cacheResponseInterceptor;
    by rewrite Hnever.
Qed.

Lemma upper_case_cache_methods_disable_the_cache_witness :
  (∀ method, cacheableMethod upperCaseCacheOptions method = false)
  ∧ (∀ config,
       cacheRequestInterceptor listEnv upperCaseCacheOptions config
       = ret config)
  ∧ (∀ response,
       cacheResponseInterceptor listEnv upperCaseCacheOptions
         (VResponse response)
       = ret (VResponse response)).
Proof.
  apply (upper_case_cache_methods_disable_the_cache listEnv
           upperCaseCacheOptions).
  intros m Hm. cbn in Hm.
  apply elem_of_cons in Hm as [->|Hm]; [done|].
  apply list_elem_of_singleton in Hm as ->. done.
Defined.

(** X8.  The methods of [retry.methodsToRetry] are compared with the
    lower-cased method of the failed request.  When every entry of the list
    has an upper-case letter, the built-in retry condition holds for network
    errors only: no response status is ever retried. *)
Theorem upper_case_retry_methods_disable_status_retries (env : Env)
    (options : RetryOptions) (error : JsError) :
  retryCondition options = None →
  noLowerCaseEntry (default defaultMethodsToRetry (methodsToRetry options)) →
  retryConditionOf env options error = Returns true →
  isNetworkError env error = true ∧ err_response error = None.
Proof.
  intros Hcustom Hupper. unfold retryConditionOf. rewrite Hcustom.
  destruct (isNetworkError env error) eqn:Hnet.
  - intros _. split; [done|]. unfold isNetworkError in Hnet.
    by destruct (err_response error).
  - destruct (err_response error) as [response|]; [|done].
    destruct (bool_decide _); [|done].
    destruct (err_config error) as [config|]; [|done].
    destruct (cfg_method config) as [method|]; [|done].
    intros [= Hin]. apply bool_decide_eq_true in Hin.
    destruct (Hupper _ Hin). apply toLowerCase_idem.
Qed.

Lemma upper_case_retry_methods_disable_status_retries_witness :
  isNetworkError unavailableEnv
    {| err_message := "socket hang up"; err_code := Some "ECONNRESET";
       err_config := Some pokemonConfig; err_response := None |} = true
  ∧ err_response
      {| err_message := "socket hang up"; err_code := Some "ECONNRESET";
         err_config := Some pokemonConfig; err_response := None |} = None.
Proof.
  apply (upper_case_retry_methods_disable_status_retries unavailableEnv
           upperCaseRetryOptions); [reflexivity| |reflexivity].
  intros m Hm. cbn in Hm.
  apply elem_of_cons in Hm as [->|Hm]; [done|].
  apply list_elem_of_singleton in Hm as ->. done.
Defined.

(** ** Params that cannot be serialised *)

Lemma serializeForKey_throws_truthy (h : heap) (v : jsval) (e : string) :
  serializeForKey h v = Throws e → truthy v = true.
Proof. unfold serializeForKey. by destruct (truthy v). Qed.

(** X9.  When the params of a request cannot be serialised, the default key
    records only that params are present.  Two requests without a body to
    one URL whose params both fail to serialise therefore share a cache
    entry, however the params differ: the second is answered with the
    response to the first (whose data is not text). *)
Theorem unserialisable_params_share_a_cache_entry (fuel fuel' : nat)
    (env : Env) (svc : HttpService) (options : CacheOptions)
    (c1 c2 : AxiosRequestConfig) (e1 e2 : string) (r : AxiosResponse)
    (w : world) :
  noCustomStages svc →
  cacheOptionsOf svc = Some options →
  cache_cacheKey options = None →
  serializeForKey (env_heap env) (cfg_params c1) = Throws e1 →
  serializeForKey (env_heap env) (cfg_params c2) = Throws e2 →
  lowerMethodOr (cfg_method c1) "get" = lowerMethodOr (cfg_method c2) "get" →
  default "" (cfg_url c1) = default "" (cfg_url c2) →
  noBody c1 →
  noBody c2 →
  cacheable options c1 →
  (∀ key, cacheGetFails env key = None ∧ cacheSetFails env key = None) →
  store w = ∅ →
  cfg_adapter c1 = None →
  transport env (length (sent w)) (dispatchedConfig svc c1) = inl r →
  resp_config r = dispatchedConfig svc c1 →
  notText (resp_data r) →
  acceptedByShouldCache options r →
  (request (S fuel) env svc c1 w).1 = Returns (VResponse r)
  ∧ servedFromCache (safeResponseOf r) (request (S fuel) env svc c1 w).2
      (request (S fuel') env svc c2 (request (S fuel) env svc c1 w).2).
Proof.
  intros Hplain Hco Hdefault Hp1 Hp2 Hmethod Hurl Hbody1 Hbody2 Hm1 Hworks
    Hempty Hadapter Htransport Hecho Htext Haccept.
  assert (Hdata : truthy (cfg_data c1) = truthy (cfg_data c2))
    by (unfold noBody in *; by rewrite Hbody1, Hbody2).
  pose (key := "http-cache:" +:+ lowerMethodOr (cfg_method c1) "get"
               +:+ ":" +:+ default "" (cfg_url c1)
               +:+ ":params-present:"
               +:+ (if truthy (cfg_data c1) then "data-present" else "")).
  assert (Hk1 : cacheKeyOf (env_heap env) c1 options = Returns key).
  { unfold cacheKeyOf.
    rewrite (generateCacheKey_fallback _ _ _ _ e1 Hdefault (or_introl Hp1)).
    by rewrite (serializeForKey_throws_truthy _ _ _ Hp1). }
  assert (Hk2 : cacheKeyOf (env_heap env) c2 options = Returns key).
  { unfold cacheKeyOf.
    rewrite (generateCacheKey_fallback _ _ _ _ e2 Hdefault (or_introl Hp2)).
    by rewrite (serializeForKey_throws_truthy _ _ _ Hp2), <- Hmethod, <- Hurl,
         <- Hdata. }
  destruct (request_miss_then_hit fuel fuel' env svc options c1 c2 key r w)
    as ((Hres & _) & Hserved); try done; try apply Hworks.
  - unfold keyFunction. by rewrite Hdefault.
  - by rewrite Hempty.
  - unfold cacheable in *. cbn [normaliseMethod cfg_method] in *.
    by rewrite <- Hmethod.
Qed.

Lemma unserialisable_params_share_a_cache_entry_witness :
  cfg_params (bigIntConfig 0) ≠ cfg_params (bigIntConfig 1)
  ∧ (request 1 (plainEnv bigIntHeap numberTransport)
       (cachingService emptyCacheOptions) (bigIntConfig 0) emptyWorld).1
    = Returns (VResponse (okResponse (JNum 25)
                            (normaliseMethod (bigIntConfig 0))))
  ∧ servedFromCache
      (safeResponseOf (okResponse (JNum 25)
                         (normaliseMethod (bigIntConfig 0))))
      (request 1 (plainEnv bigIntHeap numberTransport)
         (cachingService emptyCacheOptions) (bigIntConfig 0) emptyWorld).2
      (request 1 (plainEnv bigIntHeap numberTransport)
         (cachingService emptyCacheOptions) (bigIntConfig 1)
         (request 1 (plainEnv bigIntHeap numberTransport)
            (cachingService emptyCacheOptions) (bigIntConfig 0)
            emptyWorld).2).
Proof.
  split; [done|].
  apply (unserialisable_params_share_a_cache_entry 0 0
           (plainEnv bigIntHeap numberTransport)
           (cachingService emptyCacheOptions) emptyCacheOptions
           (bigIntConfig 0) (bigIntConfig 1)
           "Do not know how to serialize a BigInt"
           "Do not know how to serialize a BigInt");
    first [reflexivity | done | by repeat split].
Defined.

(** ** Requests that fail *)

Lemma cacheRequestInterceptor_store (env : Env) (options : CacheOptions)
    (config : AxiosRequestConfig) (w : world) :
  store (cacheRequestInterceptor env options config w).2 = store w.
Proof.
  unfold cacheRequestInterceptor.
  destruct (negb (cacheableMethod options (cfg_method config))); [done|].
  destruct (generateCacheKey_frame (env_heap env) config options w)
    as (w1 & Hrun & Hstore & _).
  unfold bind, then_, cacheManagerGet, logger, ret, throw. rewrite Hrun.
  destruct (cacheKeyOf (env_heap env) config options) as [key|v|]; [|done..].
  destruct (cacheGetFails env key); [done|].
  by destruct (store w1 !! key).
Qed.

Lemma then_store_kept {A B : Type} (p : M A) (f : A → M B) (w : world)
    (s : gmap string CacheEntry) :
  (∀ a w', store (f a w').2 = store w') →
  store (p w).2 = s →
  store (then_ p f throw w).2 = s.
Proof.
  intros Hf Hp. unfold then_.
  destruct (p w) as [[a|v|] w1]; [|done..]. by rewrite Hf.
Qed.

Lemma requestChain_store (env : Env) (svc : HttpService)
    (config : AxiosRequestConfig) (w : world) :
  noCustomStages svc →
  store (requestChain env svc config w).2 = store w.
Proof.
  intros (Hreq & _ & _ & Hureq & _).
  unfold requestChain. rewrite Hureq.
  cbn [rev throughRequestInterceptors fold_left app].
  assert (Hfirst :
    store (then_ (ret (normaliseMethod config))
             (requestMiddlewareInterceptor svc) throw w).2 = store w).
  { apply then_store_kept; [|done].
    intros c w'. by rewrite requestMiddlewareInterceptor_none. }
  destruct (cacheOptionsOf svc) as [options|], (retryOptionsOf svc);
    repeat (apply then_store_kept;
            [first [ by intros c w'
                   | intros c w'; apply cacheRequestInterceptor_store ]|]);
    exact Hfirst.
Qed.

(** A key that cannot be computed properly is replaced by the fallback key:
    [generateCacheKey] does not throw. *)
Lemma cacheKeyOf_never_throws (h : heap) (config : AxiosRequestConfig)
    (options : CacheOptions) (v : value) :
  cacheKeyOf h config options ≠ Throws v.
Proof.
  unfold cacheKeyOf, generateCacheKey.
  destruct (cache_cacheKey options) as [[k|f]|];
    [destruct (String.eqb k "")|..];
    unfold bind, tryCatch, then_, logger, ret, throw, unfinished;
    try destruct (serializeForKey h (cfg_params config));
    try destruct (serializeForKey h (cfg_data config));
    done.
Qed.

(** The response interceptor of the cache never rejects a response. *)
Lemma cacheResponseInterceptor_response (env : Env) (options : CacheOptions)
    (r : AxiosResponse) (w : world) :
  (cacheResponseInterceptor env options (VResponse r) w).1
  = Returns (VResponse r)
  ∨ (cacheResponseInterceptor env options (VResponse r) w).1 = OutOfFuel.
Proof.
  unfold cacheResponseInterceptor.
  destruct (negb (cacheableMethod options _)); [by left|].
  destruct (match cache_shouldCache options with
            | Some shouldCache => negb (shouldCache r)
            | None => false
            end); [by left|].
  destruct (generateCacheKey_frame (env_heap env) (resp_config r) options w)
    as (w1 & Hrun & _).
  unfold bind, tryCatch, then_, cacheManagerSet, logger, ret, throw.
  rewrite Hrun.
  destruct (cacheKeyOf (env_heap env) (resp_config r) options)
    as [key|v|] eqn:Hkey.
  - destruct (cacheSetFails env key); by left.
  - by destruct (cacheKeyOf_never_throws _ _ _ _ Hkey).
  - by right.
Qed.

Lemma request_responseOrStoreKept (env : Env) (svc : HttpService) :
  noCustomStages svc →
  ∀ fuel config w,
    responseOrStoreKept (store w) (request fuel env svc config w).
Proof.
  intros Hplain. pose proof Hplain as (_ & Hresp & Herr & _ & Huresp).
  induction fuel as [|fuel IH]; intros config w; [done|].
  unfold request in *. cbn [axiosRequest]. unfold instanceRequest.
  rewrite (middlewares_none _ _ _ Hresp Herr).
  unfold beforeMiddlewares. rewrite Huresp.
  cbn [throughResponseInterceptors fold_left].
  assert (Hdispatch :
    responseOrStoreKept (store w)
      (then_ (requestChain env svc config) (dispatchRequest env) throw w)).
  { pose proof (requestChain_store env svc config w Hplain) as Hstore.
    unfold then_, responseOrStoreKept.
    destruct (requestChain env svc config w) as [[c|v|] w1]; [|done..].
    unfold dispatchRequest. destruct (cfg_adapter c); [by eexists|].
    destruct (transport env (length (sent w1)) c); [by eexists|done]. }
  assert (Hretry : ∀ options,
    responseOrStoreKept (store w)
      (then_ (then_ (requestChain env svc config) (dispatchRequest env) throw)
         ret (axiosRetryOnRejected env options (axiosRequest fuel env svc)) w)).
  { intros options. unfold then_ at 1. unfold responseOrStoreKept in Hdispatch.
    destruct (then_ (requestChain env svc config) (dispatchRequest env) throw w)
      as [[v|v|] w1]; [done| |done].
    cbn in Hdispatch. rewrite <- Hdispatch. unfold axiosRetryOnRejected.
    destruct v as [r|e|d]; [done| |done].
    destruct (err_config e) as [c|]; [|done].
    destruct (_ <? _); [|done].
    destruct (retryConditionOf env options e) as [[]|thrown|]; [|done..].
    apply IH. }
  assert (Hcache : ∀ (p : M value) options,
    responseOrStoreKept (store w) (p w) →
    responseOrStoreKept (store w)
      (then_ p (cacheResponseInterceptor env options) throw w)).
  { intros p options Hp. unfold then_, responseOrStoreKept in *.
    destruct (p w) as [[v|v|] w1]; [|done..].
    destruct Hp as [r ->].
    destruct (cacheResponseInterceptor_response env options r w1) as [-> | ->];
      [by eexists|done]. }
  destruct (retryOptionsOf svc), (cacheOptionsOf svc); auto.
Qed.

(** X10.  On a service without middlewares and global interceptors a
    request that is rejected, after however many retries, leaves the cache
    store as it found it: failures are never cached. *)
Theorem rejected_request_leaves_the_store (fuel : nat) (env : Env)
    (svc : HttpService) (config : AxiosRequestConfig) (w : world)
    (reason : value) :
  noCustomStages svc →
  (request fuel env svc config w).1 = Throws reason →
  store (request fuel env svc config w).2 = store w.
Proof.
  intros Hplain Hthrows.
  pose proof (request_responseOrStoreKept env svc Hplain fuel config w) as Hkept.
  unfold responseOrStoreKept in Hkept. by rewrite Hthrows in Hkept.
Qed.

Lemma rejected_request_leaves_the_store_witness :
  store (request 5 unavailableEnv retryAndCacheService bareListConfig
           staleWorld).2
  = store staleWorld.
Proof.
  apply (rejected_request_leaves_the_store 5 unavailableEnv
           retryAndCacheService bareListConfig staleWorld
           (VError (statusError 503 (attemptConfig bareListConfig 3)))).
  - by repeat split.
  - reflexivity.
Defined.

(** ** Retries and middlewares *)

Lemma callsBetween_app (w1 w2 w3 : world) (a b : list middlewareCall) :
  callsBetween w1 w2 a → callsBetween w2 w3 b → callsBetween w1 w3 (a ++ b).
Proof.
  unfold callsBetween. intros Ha ->.
  by rewrite Ha, rev_app_distr, app_assoc.
Qed.

Lemma repeated_snoc {A : Type} (n : nat) (l : list A) :
  repeated n l ++ l = repeated (S n) l.
Proof.
  induction n as [|n IH]; cbn; [by rewrite app_nil_r|].
  by rewrite <- app_assoc, IH.
Qed.

Lemma attemptsSent_first (config : AxiosRequestConfig) (first count : nat)
    (w w' : world) :
  attemptsSent config (S first) count (addSent (attemptConfig config first) w)
    w' →
  attemptsSent config first (S count) w w'.
Proof.
  unfold attemptsSent. intros ->. cbn [seq addSent sent].
  rewrite fmap_cons. cbn [rev]. by rewrite <- app_assoc.
Qed.

Lemma applyResponseMiddlewares_observes (ms : list ResponseMiddleware) :
  (∀ m v, m ∈ ms → rsm_process m v = Fulfilled v) →
  ∀ v w,
    ∃ w',
      applyResponseMiddlewares ms v w = (Returns v, w')
      ∧ callsBetween w w' (CallResponse <$> ms)
      ∧ sameStoreAndTransport w w'.
Proof.
  induction ms as [|m ms IH]; intros Hobs v w.
  - exists w. split; [done|]. split; [done|apply sameStoreAndTransport_refl].
  - cbn. rewrite (Hobs m v) by apply list_elem_of_here. cbn.
    destruct (IH (λ m' v' Hin, Hobs m' v' (list_elem_of_further _ _ _ Hin)) v
                (addInvoked (CallResponse m) w)) as (w' & -> & Hcalls & Hframe).
    exists w'. split; [done|]. split; [by apply callsBetween_cons|exact Hframe].
Qed.

Lemma applyErrorMiddlewares_observes (ms : list ErrorMiddleware) :
  (∀ m v, m ∈ ms → erm_process m v = Fulfilled v) →
  ∀ e w,
    ∃ w',
      applyErrorMiddlewares ms (VError e) w
      = (Returns (Rejected (VError e)), w')
      ∧ callsBetween w w' (CallError <$> ms)
      ∧ sameStoreAndTransport w w'.
Proof.
  induction ms as [|m ms IH]; intros Hobs e w.
  - exists w. split; [done|]. split; [done|apply sameStoreAndTransport_refl].
  - cbn. rewrite (Hobs m (VError e)) by apply list_elem_of_here. cbn.
    destruct (IH (λ m' v' Hin, Hobs m' v' (list_elem_of_further _ _ _ Hin)) e
                (addInvoked (CallError m) w)) as (w' & -> & Hcalls & Hframe).
    exists w'. split; [done|]. split; [by apply callsBetween_cons|exact Hframe].
Qed.

Lemma sorted_observes {A : Type} (priority : A → option Z) (l : list A)
    (P : A → Prop) :
  (∀ m, m ∈ l → P m) → ∀ m, m ∈ sortByPriority priority l → P m.
Proof.
  intros Hl m Hin. apply Hl. by rewrite <- (sortByPriority_perm priority l).
Qed.

Lemma responseMiddlewareInterceptor_observes (svc : HttpService) (v : value)
    (w : world) :
  observesResponses svc →
  ∃ w',
    responseMiddlewareInterceptor svc v w = (Returns v, w')
    ∧ callsBetween w w'
        (CallResponse <$> sortByPriority rsm_priority (responseMiddlewares svc))
    ∧ sameStoreAndTransport w w'.
Proof.
  intros Hobs.
  destruct (applyResponseMiddlewares_observes
              (sortByPriority rsm_priority (responseMiddlewares svc))
              (λ m v' Hin,
                 sorted_observes rsm_priority (responseMiddlewares svc)
                   (λ m', ∀ v'', rsm_process m' v'' = Fulfilled v'')
                   (λ m' Hm' v'', Hobs m' v'' Hm') m Hin v') v w)
    as (w' & Hrun & Hcalls & Hframe).
  exists w'. split; [|done].
  unfold responseMiddlewareInterceptor, tryCatch, then_. by rewrite Hrun.
Qed.

Lemma errorMiddlewareInterceptor_observes (svc : HttpService) (e : JsError)
    (w : world) :
  observesErrors svc →
  ∃ w',
    errorMiddlewareInterceptor svc (VError e) w = (Throws (VError e), w')
    ∧ callsBetween w w'
        (CallError <$> sortByPriority erm_priority (errorMiddlewares svc))
    ∧ sameStoreAndTransport w w'.
Proof.
  intros Hobs.
  destruct (applyErrorMiddlewares_observes
              (sortByPriority erm_priority (errorMiddlewares svc))
              (λ m v' Hin,
                 sorted_observes erm_priority (errorMiddlewares svc)
                   (λ m', ∀ v'', erm_process m' v'' = Fulfilled v'')
                   (λ m' Hm' v'', Hobs m' v'' Hm') m Hin v') e w)
    as (w' & Hrun & Hcalls & Hframe).
  exists w'. split; [|done].
  unfold errorMiddlewareInterceptor, bind, tryCatch, then_. by rewrite Hrun.
Qed.

(** One pass through the instance of a service that only retries, up to
    the answer of the transport. *)
Lemma instanceRequest_retriesOnly (again : AxiosRequestConfig → M value)
    (env : Env) (svc : HttpService) (options : RetryOptions)
    (c : AxiosRequestConfig) (w : world) :
  retriesOnly svc options →
  cfg_adapter c = None →
  instanceRequest again env svc c w
  = match transport env (length (sent w))
            (attemptConfig c (default 0%nat (cfg_retryCount c))) with
    | inl r =>
        responseMiddlewareInterceptor svc (VResponse r)
          (addSent (attemptConfig c (default 0%nat (cfg_retryCount c))) w)
    | inr error =>
        then_ (axiosRetryOnRejected env options again (VError error))
          (responseMiddlewareInterceptor svc) (errorMiddlewareInterceptor svc)
          (addSent (attemptConfig c (default 0%nat (cfg_retryCount c))) w)
    end.
Proof.
  intros (Hretry & Hcache & Hreq & Hureq & Huresp) Hadapter.
  unfold instanceRequest, beforeMiddlewares, requestChain.
  rewrite Hretry, Hcache, Hureq, Huresp.
  cbn [rev throughRequestInterceptors throughResponseInterceptors fold_left
       app].
  set (cfg := attemptConfig c (default 0%nat (cfg_retryCount c))).
  assert (Hchain :
    then_ (then_ (ret (normaliseMethod c)) (requestMiddlewareInterceptor svc)
             throw) axiosRetryRequestInterceptor throw w
    = (Returns cfg, w)).
  { unfold then_, ret. by rewrite requestMiddlewareInterceptor_none. }
  assert (Hnone : cfg_adapter cfg = None) by done.
  destruct (transport env (length (sent w)) cfg) as [r|error] eqn:Hsend.
  - assert (Hdispatch :
      then_ (then_ (then_ (ret (normaliseMethod c))
                      (requestMiddlewareInterceptor svc) throw)
               axiosRetryRequestInterceptor throw)
        (dispatchRequest env) throw w
      = (Returns (VResponse r), addSent cfg w)).
    { rewrite (then_returns _ _ _ _ _ _ Hchain). unfold dispatchRequest.
      by rewrite Hnone, Hsend. }
    apply then_returns. by rewrite (then_returns _ _ _ _ _ _ Hdispatch).
  - assert (Hdispatch :
      then_ (then_ (then_ (ret (normaliseMethod c))
                      (requestMiddlewareInterceptor svc) throw)
               axiosRetryRequestInterceptor throw)
        (dispatchRequest env) throw w
      = (Throws (VError error), addSent cfg w)).
    { rewrite (then_returns _ _ _ _ _ _ Hchain). unfold dispatchRequest.
      by rewrite Hnone, Hsend. }
    unfold then_ at 1. unfold then_ at 1. rewrite Hdispatch.
    reflexivity.
Qed.

Lemma retry_recovers_from (env : Env) (svc : HttpService)
    (options : RetryOptions) (config0 : AxiosRequestConfig)
    (r : AxiosResponse) :
  retriesOnly svc options →
  observesResponses svc →
  ∀ j fuel c w,
    (j < fuel)%nat →
    cfg_adapter c = None →
    (∀ n, attemptConfig c n = attemptConfig config0 n) →
    Z.of_nat (default 0%nat (cfg_retryCount c)) + Z.of_nat j
    ≤ retriesOf options →
    failsThenAnswers env options config0 (length (sent w))
      (default 0%nat (cfg_retryCount c)) j r →
    ∃ w',
      axiosRequest fuel env svc c w = (Returns (VResponse r), w')
      ∧ attemptsSent config0 (default 0%nat (cfg_retryCount c)) (S j) w w'
      ∧ callsBetween w w'
          (repeated (S j)
             (CallResponse
                <$> sortByPriority rsm_priority (responseMiddlewares svc))).
Proof.
  intros Hsvc Hobs j.
  induction j as [|j IH]; intros fuel c w Hfuel Hadapter Hsame Hleft
    (Hfails & Hanswer);
    (destruct fuel as [|fuel]; [lia|]);
    set (rc := default 0%nat (cfg_retryCount c)) in *;
    cbn [axiosRequest];
    rewrite (instanceRequest_retriesOnly _ env svc options c w Hsvc Hadapter);
    fold rc; rewrite (Hsame rc).
  - rewrite Nat.add_0_r in Hanswer.
    replace (rc + 0)%nat with rc in Hanswer by lia. rewrite Hanswer.
    destruct (responseMiddlewareInterceptor_observes svc (VResponse r)
                (addSent (attemptConfig config0 rc) w) Hobs)
      as (w' & Hrun & Hcalls & _ & _ & Hsent).
    exists w'. split; [done|]. split.
    + unfold attemptsSent. by rewrite Hsent.
    + cbn [repeated]. rewrite app_nil_r. exact Hcalls.
  - destruct (Hfails 0%nat ltac:(lia)) as (error & Hsend & Hconfig & Hcond).
    rewrite Nat.add_0_r in Hsend.
    replace (rc + 0)%nat with rc in Hsend, Hconfig by lia. rewrite Hsend.
    destruct (IH fuel (setRetryCount (S rc) (attemptConfig config0 rc))
                (addSent (attemptConfig config0 rc) w))
      as (w1 & Hagain & Hsent1 & Hcalls1).
    { lia. }
    { rewrite <- (Hsame rc). exact Hadapter. }
    { intros n. rewrite <- (Hsame rc), <- (Hsame n).
      apply attemptConfig_again. }
    { change (Z.of_nat (S rc) + Z.of_nat j ≤ retriesOf options). lia. }
    { change (default 0%nat
                (cfg_retryCount (setRetryCount (S rc) (attemptConfig config0 rc))))
        with (S rc).
      cbn [sent addSent length]. split.
      - intros d Hd. destruct (Hfails (S d) ltac:(lia)) as (e & He).
        exists e.
        replace (S (length (sent w)) + d)%nat
          with (length (sent w) + S d)%nat by lia.
        by replace (S rc + d)%nat with (rc + S d)%nat by lia.
      - replace (S (length (sent w)) + j)%nat
          with (length (sent w) + S j)%nat by lia.
        by replace (S rc + j)%nat with (rc + S j)%nat by lia. }
    change (default 0%nat
              (cfg_retryCount (setRetryCount (S rc) (attemptConfig config0 rc))))
      with (S rc) in Hsent1.
    destruct (responseMiddlewareInterceptor_observes svc (VResponse r) w1 Hobs)
      as (w2 & Hrun & Hcalls2 & _ & _ & Hsent2).
    exists w2. split; [|split].
    + rewrite (then_returns _ _ _ _ (VResponse r) w1); [exact Hrun|].
      rewrite <- Hagain.
      unfold axiosRetryOnRejected. rewrite Hconfig, Hcond.
      change (default 0%nat (cfg_retryCount (attemptConfig config0 rc)))
        with rc.
      by rewrite (proj2 (Z.ltb_lt _ _)) by lia.
    + apply attemptsSent_first. unfold attemptsSent in *. by rewrite Hsent2.
    + rewrite <- repeated_snoc. by apply (callsBetween_app w w1 w2).
Qed.

(** X11.  A request that the transport fails [j] times with errors the
    retry condition accepts, [j] being at most the number of retries, and
    then answers, is fulfilled with that answer.  The transport is invoked
    [j + 1] times, with the attempts 0 to [j] of the request.  Each retry
    passes through the whole instance again, inside the pass that failed:
    the answer goes through the response middlewares once per pass, [j + 1]
    times in all, and the error middlewares never see the failures. *)
Theorem retried_answer_passes_the_response_middlewares_again (fuel : nat)
    (env : Env) (svc : HttpService) (options : RetryOptions)
    (config : AxiosRequestConfig) (r : AxiosResponse) (j : nat) (w : world) :
  retriesOnly svc options →
  observesResponses svc →
  cfg_adapter config = None →
  cfg_retryCount config = None →
  Z.of_nat j ≤ retriesOf options →
  failsThenAnswers env options config (length (sent w)) 0 j r →
  (j < fuel)%nat →
  ∃ w',
    request fuel env svc config w = (Returns (VResponse r), w')
    ∧ attemptsSent config 0 (S j) w w'
    ∧ callsBetween w w'
        (repeated (S j)
           (CallResponse
              <$> sortByPriority rsm_priority (responseMiddlewares svc))).
Proof.
  intros Hsvc Hobs Hadapter Hcount Hleft Htransport Hfuel.
  destruct (retry_recovers_from env svc options config r Hsvc Hobs j fuel
              config w Hfuel Hadapter (λ n, eq_refl)) as (w' & Hrun);
    rewrite ?Hcount; cbn [default]; try done.
  exists w'. by rewrite Hcount in Hrun.
Qed.

Lemma retried_answer_passes_the_response_middlewares_again_witness :
  ∃ w',
    request 3 (plainEnv [] (flakyTransport 2)) observedService pokemonConfig
      emptyWorld
    = (Returns (VResponse (okResponse (JStr "fresh")
                             (attemptConfig pokemonConfig 2))), w')
    ∧ attemptsSent pokemonConfig 0 3 emptyWorld w'
    ∧ callsBetween emptyWorld w'
        (repeated 3 [CallResponse loggingResponseMiddleware]).
Proof.
  apply (retried_answer_passes_the_response_middlewares_again 3
           (plainEnv [] (flakyTransport 2)) observedService emptyRetryOptions
           pokemonConfig
           (okResponse (JStr "fresh") (attemptConfig pokemonConfig 2))
           2 emptyWorld).
  - by repeat split.
  - intros m v Hm. apply list_elem_of_singleton in Hm. by subst.
  - reflexivity.
  - reflexivity.
  - by vm_compute.
  - split; [|reflexivity].
    intros [|[|d]] Hd; [eexists; by repeat split..|lia].
  - lia.
Defined.

Lemma retry_exhausts_from (env : Env) (svc : HttpService)
    (options : RetryOptions) (config0 : AxiosRequestConfig) :
  retriesOnly svc options →
  observesErrors svc →
  alwaysFailsRetryable env options config0 →
  ∀ k fuel c w,
    (k < fuel)%nat →
    cfg_adapter c = None →
    (∀ n, attemptConfig c n = attemptConfig config0 n) →
    Z.of_nat (default 0%nat (cfg_retryCount c)) + Z.of_nat k
    = retriesOf options →
    ∃ error w',
      axiosRequest fuel env svc c w = (Throws (VError error), w')
      ∧ attemptsSent config0 (default 0%nat (cfg_retryCount c)) (S k) w w'
      ∧ transport env (length (sent w) + k)
          (attemptConfig config0 (default 0%nat (cfg_retryCount c) + k))
        = inr error
      ∧ callsBetween w w'
          (repeated (S k)
             (CallError <$> sortByPriority erm_priority (errorMiddlewares svc))).
Proof.
  intros Hsvc Hobs Hfail k.
  induction k as [|k IH]; intros fuel c w Hfuel Hadapter Hsame Hleft;
    (destruct fuel as [|fuel]; [lia|]);
    set (rc := default 0%nat (cfg_retryCount c)) in *;
    cbn [axiosRequest];
    rewrite (instanceRequest_retriesOnly _ env svc options c w Hsvc Hadapter);
    fold rc; rewrite (Hsame rc);
    destruct (Hfail (length (sent w)) rc) as (error & Hsend & Hconfig & Hcond);
    rewrite Hsend.
  - destruct (errorMiddlewareInterceptor_observes svc error
                (addSent (attemptConfig config0 rc) w) Hobs)
      as (w' & Hrun & Hcalls & _ & _ & Hsent).
    exists error, w'. split; [|split; [|split]].
    + rewrite (then_throws _ _ _ _ (VError error)
                 (addSent (attemptConfig config0 rc) w)); [exact Hrun|].
      unfold axiosRetryOnRejected. rewrite Hconfig.
      change (default 0%nat (cfg_retryCount (attemptConfig config0 rc)))
        with rc.
      by rewrite (proj2 (Z.ltb_ge _ _)) by lia.
    + unfold attemptsSent. by rewrite Hsent.
    + rewrite Nat.add_0_r. by replace (rc + 0)%nat with rc by lia.
    + cbn [repeated]. rewrite app_nil_r. exact Hcalls.
  - destruct (IH fuel (setRetryCount (S rc) (attemptConfig config0 rc))
                (addSent (attemptConfig config0 rc) w))
      as (last & w1 & Hagain & Hsent1 & Hlast & Hcalls1).
    { lia. }
    { rewrite <- (Hsame rc). exact Hadapter. }
    { intros n. rewrite <- (Hsame rc), <- (Hsame n).
      apply attemptConfig_again. }
    { change (Z.of_nat (S rc) + Z.of_nat k = retriesOf options). lia. }
    change (default 0%nat
              (cfg_retryCount (setRetryCount (S rc) (attemptConfig config0 rc))))
      with (S rc) in Hsent1, Hlast.
    destruct (errorMiddlewareInterceptor_observes svc last w1 Hobs)
      as (w2 & Hrun & Hcalls2 & _ & _ & Hsent2).
    exists last, w2. split; [|split; [|split]].
    + rewrite (then_throws _ _ _ _ (VError last) w1); [exact Hrun|].
      rewrite <- Hagain.
      unfold axiosRetryOnRejected. rewrite Hconfig, Hcond.
      change (default 0%nat (cfg_retryCount (attemptConfig config0 rc)))
        with rc.
      by rewrite (proj2 (Z.ltb_lt _ _)) by lia.
    + apply attemptsSent_first. unfold attemptsSent in *. by rewrite Hsent2.
    + cbn [sent addSent length] in Hlast.
      replace (length (sent w) + S k)%nat
        with (S (length (sent w)) + k)%nat by lia.
      by replace (rc + S k)%nat with (S rc + k)%nat by lia.
    + rewrite <- repeated_snoc. by apply (callsBetween_app w w1 w2).
Qed.

(** X12.  A request whose every attempt fails with an error the retry
    condition accepts is rejected with the error of the last attempt, after
    [retries + 1] invocations of the transport with the attempts 0 to
    [retries].  The rejection travels outwards through every pass that was
    begun: error middlewares that return the error they are given are
    called once per pass, [retries + 1] times in all, and the response
    middlewares are never called. *)
Theorem exhausted_retries_pass_the_error_middlewares_again (fuel : nat)
    (env : Env) (svc : HttpService) (options : RetryOptions)
    (config : AxiosRequestConfig) (k : nat) (w : world) :
  retriesOnly svc options →
  observesErrors svc →
  alwaysFailsRetryable env options config →
  cfg_adapter config = None →
  cfg_retryCount config = None →
  retriesOf options = Z.of_nat k →
  (k < fuel)%nat →
  ∃ error w',
    request fuel env svc config w = (Throws (VError error), w')
    ∧ attemptsSent config 0 (S k) w w'
    ∧ transport env (length (sent w) + k) (attemptConfig config k) = inr error
    ∧ callsBetween w w'
        (repeated (S k)
           (CallError <$> sortByPriority erm_priority (errorMiddlewares svc))).
Proof.
  intros Hsvc Hobs Hfail Hadapter Hcount Hretries Hfuel.
  destruct (retry_exhausts_from env svc options config Hsvc Hobs Hfail k fuel
              config w Hfuel Hadapter (λ n, eq_refl)) as (error & w' & Hrun).
  { rewrite Hcount. cbn [default]. lia. }
  exists error, w'. by rewrite Hcount in Hrun.
Qed.

Lemma exhausted_retries_pass_the_error_middlewares_again_witness :
  ∃ error w',
    request 4 unavailableEnv observedService pokemonConfig emptyWorld
    = (Throws (VError error), w')
    ∧ attemptsSent pokemonConfig 0 4 emptyWorld w'
    ∧ transport unavailableEnv 3 (attemptConfig pokemonConfig 3) = inr error
    ∧ callsBetween emptyWorld w'
        (repeated 4 [CallError observingErrorMiddleware]).
Proof.
  apply (exhausted_retries_pass_the_error_middlewares_again 4 unavailableEnv
           observedService emptyRetryOptions pokemonConfig 3 emptyWorld).
  - by repeat split.
  - intros m v Hm. apply list_elem_of_singleton in Hm. by subst.
  - by apply unavailable_alwaysFailsRetryable.
  - reflexivity.
  - reflexivity.
  - reflexivity.
  - lia.
Defined.

(** ** The configuration handed to axios *)

(** X13.  The configuration [getAxiosConfig] hands to [axios.create]:
    [retry], [cache] and [interceptors] are never part of it; every other
    property of the options is passed on with the value it has, a timeout of
    0 or another falsy value included; and the defaults, a timeout of 10000
    and the [qs] params serializer, apply only to properties that are
    absent. *)
Theorem getAxiosConfig_passes_axios_options_on {V : Type} (truthyV : V → bool)
    (numberV : Z → V) (qsSerializer : V) (options : gmap string V)
    (k : string) :
  getAxiosConfig truthyV numberV qsSerializer options !! k
  = if bool_decide (k ∈ customOptionKeys) then None
    else match options !! k with
         | Some v => Some v
         | None =>
             if bool_decide (k = "timeout") then Some (numberV 10000)
             else if bool_decide (k = "paramsSerializer") then Some qsSerializer
             else None
         end.
Proof.
  assert (Hconfig :
    (axiosOptionsOf options
     ∪ <["paramsSerializer" := qsSerializer]>
         (<["timeout" := timeoutOr truthyV numberV options]> ∅)) !! k
    = if bool_decide (k ∈ customOptionKeys) then None
      else match options !! k with
           | Some v => Some v
           | None =>
               if bool_decide (k = "timeout") then Some (numberV 10000)
               else if bool_decide (k = "paramsSerializer")
                    then Some qsSerializer
               else None
           end).
  { rewrite lookup_union. unfold axiosOptionsOf, customOptionKeys.
    destruct (decide (k = "interceptors")) as [->|Hi].
    { rewrite lookup_delete_eq. by rewrite bool_decide_eq_true_2
        by (repeat constructor). }
    rewrite lookup_delete_ne by done.
    destruct (decide (k = "cache")) as [->|Hc].
    { rewrite lookup_delete_eq. by rewrite bool_decide_eq_true_2
        by (repeat constructor). }
    rewrite lookup_delete_ne by done.
    destruct (decide (k = "retry")) as [->|Hr].
    { rewrite lookup_delete_eq. by rewrite bool_decide_eq_true_2
        by (repeat constructor). }
    rewrite lookup_delete_ne by done.
    rewrite bool_decide_eq_false_2.
    2:{ intros Hin. repeat (apply elem_of_cons in Hin as [?|Hin]; [done|]).
        by apply elem_of_nil in Hin. }
    destruct (decide (k = "paramsSerializer")) as [->|Hp].
    { rewrite lookup_insert_eq. cbn. by destruct (options !! _). }
    rewrite lookup_insert_ne by done.
    destruct (decide (k = "timeout")) as [->|Ht].
    { rewrite lookup_insert_eq. cbn. unfold timeoutOr.
      by destruct (options !! "timeout") as [t|]. }
    rewrite lookup_insert_ne, lookup_empty by done.
    rewrite !bool_decide_eq_false_2 by done.
    by destruct (options !! k). }
  unfold getAxiosConfig.
  destruct (options !! "headers") as [hs|] eqn:Hheaders; [|done].
  destruct (truthyV hs); [|done].
  destruct (decide (k = "headers")) as [->|Hk].
  - rewrite lookup_insert_eq, Hheaders. done.
  - by rewrite lookup_insert_ne.
Qed.

(** ** Retry, cache and an error middleware that resolves *)






(** ** The example service *)

Lemma readProperty_throws (h : heap) (o : jsval) (name : string)
    (thrown : value) :
  readProperty h o name = Throws thrown →
  ∃ message, thrown = typeError message.
Proof. destruct o; intros [= <-]; by eexists. Qed.

(** X15.  [fetchData] translates every failure of [get] that carries a
    404 response: whatever the service, the transport and the middlewares
    are, it never rejects with an error whose response has status 404.  Such
    an error is replaced by a plain [Error] that names the endpoint; a
    response that [get] is fulfilled with yields its [data]. *)
Theorem fetchData_never_rejects_with_a_404 (fuel : nat) (env : Env)
    (svc : HttpService) (endpoint : string) (params : jsval) (w : world)
    (e : JsError) (response : AxiosResponse) :
  (fetchData fuel env svc endpoint params w).1 = Throws (VError e) →
  err_response e = Some response →
  resp_status response ≠ 404
  ∧ (get fuel env svc endpoint (withParams params emptyConfig) w).1
    = Throws (VError e).
Proof.
  unfold fetchData, tryCatch, bind, then_.
  destruct (get fuel env svc endpoint (withParams params emptyConfig) w)
    as [[v|v|] w1]; cbn -[notFoundError].
  - destruct (dataOf (env_heap env) v) as [d|thrown|] eqn:Hdata; cbn;
      [done| |done].
    assert (Hthrown : ∃ message, thrown = typeError message).
    { destruct v as [r|e'|d]; [done..|].
      by apply (readProperty_throws _ _ _ _ Hdata). }
    destruct Hthrown as [message ->]. cbn. by intros [= <-].
  - destruct (readMessage (env_heap env) v) as [[]|thrown|] eqn:Hmessage;
      [| |done].
    + destruct (isNotFound (env_heap env) v) eqn:H404.
      * cbn. by intros [= <-].
      * cbn. intros [= ->] Hresponse. cbn in H404.
        rewrite Hresponse in H404. split; [lia|done].
    + assert (Hthrown : ∃ message, thrown = typeError message).
      { destruct v as [r|e'|d]; [done..|]. cbn in Hmessage.
        destruct (readProperty (env_heap env) d "message") eqn:Hread;
          [done| |done].
        injection Hmessage as <-.
        by apply (readProperty_throws _ _ _ _ Hread). }
      destruct Hthrown as [message ->]. cbn. by intros [= <-].
  - done.
Qed.

Lemma fetchData_never_rejects_with_a_404_witness :
  (fetchData 5 unavailableEnv (retryOnlyService emptyRetryOptions)
     "/pokemon/25" JUndefined emptyWorld).1
  = Throws (VError (statusError 503 (attemptConfig pokemonConfig 3)))
  ∧ (fetchData 1 (plainEnv [] (failingTransport 404))
       (retryOnlyService emptyRetryOptions) "/pokemon/0" JUndefined
       emptyWorld).1
    = Throws (notFoundError "/pokemon/0")
  ∧ (503 : Z) ≠ 404.
Proof.
  split; [reflexivity|]. split; [reflexivity|].
  apply (fetchData_never_rejects_with_a_404 5 unavailableEnv
           (retryOnlyService emptyRetryOptions) "/pokemon/25" JUndefined
           emptyWorld (statusError 503 (attemptConfig pokemonConfig 3))
           {| resp_data := JNull; resp_status := 503; resp_statusText := "";
              resp_headers := [];
              resp_config := attemptConfig pokemonConfig 3 |});
    reflexivity.
Defined.

(** ** Retries and request middlewares *)

Lemma dispatchedWith_state (F : AxiosRequestConfig → AxiosRequestConfig)
    (c : AxiosRequestConfig) :
  (∀ c, cfg_adapter (F c) = cfg_adapter c
        ∧ cfg_retryCount (F c) = cfg_retryCount c) →
  cfg_adapter (dispatchedWith F c) = cfg_adapter c
  ∧ cfg_retryCount (dispatchedWith F c)
    = Some (default 0%nat (cfg_retryCount c)).
Proof.
  intros HF. unfold dispatchedWith.
  cbn [cfg_adapter cfg_retryCount setRetryCount].
  by destruct (HF (normaliseMethod c)) as [-> ->].
Qed.

Lemma dispatchedAt_state (F : AxiosRequestConfig → AxiosRequestConfig)
    (config : AxiosRequestConfig) :
  (∀ c, cfg_adapter (F c) = cfg_adapter c
        ∧ cfg_retryCount (F c) = cfg_retryCount c) →
  cfg_adapter config = None →
  cfg_retryCount config = None →
  ∀ i, cfg_adapter (dispatchedAt F config i) = None
       ∧ cfg_retryCount (dispatchedAt F config i) = Some i.
Proof.
  intros HF Hadapter Hcount. unfold dispatchedAt.
  induction i as [|i [IHa IHc]].
  - cbn [passInput].
    destruct (dispatchedWith_state F config HF) as [-> ->].
    by rewrite Hadapter, Hcount.
  - destruct (dispatchedWith_state F (passInput F config (S i)) HF)
      as [-> ->].
    cbn [passInput cfg_adapter cfg_retryCount setRetryCount default].
    by rewrite IHa, IHc.
Qed.

(** One pass through the instance of a service that retries and has
    request middlewares only. *)
Lemma instanceRequest_transformed (again : AxiosRequestConfig → M value)
    (env : Env) (svc : HttpService) (options : RetryOptions)
    (F : AxiosRequestConfig → AxiosRequestConfig) (c : AxiosRequestConfig)
    (w : world) :
  retriesAndTransforms svc options →
  transformsRequests svc F →
  cfg_adapter (dispatchedWith F c) = None →
  ∃ w1,
    sent w1 = sent w
    ∧ instanceRequest again env svc c w
      = match transport env (length (sent w)) (dispatchedWith F c) with
        | inl r => (Returns (VResponse r), addSent (dispatchedWith F c) w1)
        | inr error =>
            axiosRetryOnRejected env options again (VError error)
              (addSent (dispatchedWith F c) w1)
        end.
Proof.
  intros (Hretry & Hcache & Hresp & Herr & Hureq & Huresp) (HF & _) Hadapter.
  pose proof (HF (normaliseMethod c) w) as Hvalue.
  destruct (requestMiddlewareInterceptor_frame svc (normaliseMethod c) w)
    as (_ & _ & Hsent).
  destruct (requestMiddlewareInterceptor svc (normaliseMethod c) w)
    as [x w1] eqn:Hmw.
  cbn in Hvalue, Hsent. subst x.
  exists w1. split; [done|].
  unfold instanceRequest. rewrite (middlewares_none _ _ _ Hresp Herr).
  unfold beforeMiddlewares, requestChain.
  rewrite Hretry, Hcache, Hureq, Huresp.
  cbn [rev throughRequestInterceptors throughResponseInterceptors fold_left
       app].
  assert (Hchain :
    then_ (then_ (ret (normaliseMethod c)) (requestMiddlewareInterceptor svc)
             throw) axiosRetryRequestInterceptor throw w
    = (Returns (dispatchedWith F c), w1)).
  { unfold then_, ret. by rewrite Hmw. }
  unfold then_ at 1. unfold then_ at 1.
  rewrite Hchain. unfold dispatchRequest. rewrite Hadapter, Hsent.
  by destruct (transport env (length (sent w)) (dispatchedWith F c)).
Qed.

Lemma retry_transforms_from (env : Env) (svc : HttpService)
    (options : RetryOptions) (F : AxiosRequestConfig → AxiosRequestConfig)
    (config : AxiosRequestConfig) (r : AxiosResponse) :
  retriesAndTransforms svc options →
  transformsRequests svc F →
  cfg_adapter config = None →
  cfg_retryCount config = None →
  ∀ m fuel i w,
    (m < fuel)%nat →
    Z.of_nat (i + m) ≤ retriesOf options →
    (∀ d, (d < m)%nat →
       ∃ error,
         transport env (length (sent w) + d) (dispatchedAt F config (i + d))
         = inr error
         ∧ err_config error = Some (dispatchedAt F config (i + d))
         ∧ retryConditionOf env options error = Returns true) →
    transport env (length (sent w) + m) (dispatchedAt F config (i + m))
    = inl r →
    ∃ w',
      axiosRequest fuel env svc (passInput F config i) w
      = (Returns (VResponse r), w')
      ∧ sent w' = rev (dispatchedAt F config <$> seq i (S m)) ++ sent w.
Proof.
  intros Hsvc HF Hadapter Hcount m.
  pose proof (dispatchedAt_state F config (proj2 HF) Hadapter Hcount) as Hstate.
  induction m as [|m IH]; intros fuel i w Hfuel Hleft Hfails Hanswer;
    (destruct fuel as [|fuel]; [lia|]);
    cbn [axiosRequest];
    destruct (instanceRequest_transformed (axiosRequest fuel env svc) env svc
                options F (passInput F config i) w Hsvc HF
                (proj1 (Hstate i))) as (w1 & Hsent1 & ->);
    fold (dispatchedAt F config i).
  - rewrite Nat.add_0_r in Hanswer.
    replace (i + 0)%nat with i in Hanswer by lia. rewrite Hanswer.
    eexists. split; [done|]. cbn. by rewrite Hsent1.
  - destruct (Hfails 0%nat ltac:(lia)) as (error & Hsend & Hconfig & Hcond).
    rewrite Nat.add_0_r in Hsend.
    replace (i + 0)%nat with i in Hsend, Hconfig by lia. rewrite Hsend.
    unfold axiosRetryOnRejected. rewrite Hconfig, Hcond.
    rewrite (proj2 (Hstate i)).
    change (default 0%nat (Some i)) with i.
    rewrite (proj2 (Z.ltb_lt _ _)) by lia.
    destruct (IH fuel (S i) (addSent (dispatchedAt F config i) w1))
      as (w' & Hagain & Hsent').
    { lia. }
    { lia. }
    { intros d Hd. destruct (Hfails (S d) ltac:(lia)) as (e & He).
      exists e. cbn [sent addSent length]. rewrite Hsent1.
      replace (S (length (sent w)) + d)%nat
        with (length (sent w) + S d)%nat by lia.
      by replace (S i + d)%nat with (i + S d)%nat by lia. }
    { cbn [sent addSent length]. rewrite Hsent1.
      replace (S (length (sent w)) + m)%nat
        with (length (sent w) + S m)%nat by lia.
      by replace (S i + m)%nat with (i + S m)%nat by lia. }
    exists w'. split.
    + rewrite <- Hagain. cbn [passInput]. fold (dispatchedAt F config i).
      by rewrite (proj2 (Hstate i)).
    + rewrite Hsent'. cbn [sent addSent]. rewrite Hsent1.
      change (seq i (S (S m))) with (i :: seq (S i) (S m)).
      rewrite fmap_cons. cbn [rev]. by rewrite <- app_assoc.
Qed.

(** X16.  Every retry passes the request middlewares again, and what they
    are given is the config the attempt before was sent with, which they
    have transformed already.  When the transport fails [j] attempts with
    errors the retry condition accepts and answers the next, the request is
    fulfilled with the answer, and attempt [i] was sent with the config that
    the middlewares made of the config sent in attempt [i - 1]: a
    transformation that is not idempotent accumulates from attempt to
    attempt. *)
Theorem retries_pass_the_request_middlewares_again (fuel : nat) (env : Env)
    (svc : HttpService) (options : RetryOptions)
    (F : AxiosRequestConfig → AxiosRequestConfig)
    (config : AxiosRequestConfig) (r : AxiosResponse) (j : nat) (w : world) :
  retriesAndTransforms svc options →
  transformsRequests svc F →
  cfg_adapter config = None →
  cfg_retryCount config = None →
  Z.of_nat j ≤ retriesOf options →
  (∀ i, (i < j)%nat →
     ∃ error,
       transport env (length (sent w) + i) (dispatchedAt F config i)
       = inr error
       ∧ err_config error = Some (dispatchedAt F config i)
       ∧ retryConditionOf env options error = Returns true) →
  transport env (length (sent w) + j) (dispatchedAt F config j) = inl r →
  (j < fuel)%nat →
  ∃ w',
    request fuel env svc config w = (Returns (VResponse r), w')
    ∧ sent w' = rev (dispatchedAt F config <$> seq 0 (S j)) ++ sent w
    ∧ ∀ i, dispatchedAt F config (S i)
           = setRetryCount (S i)
               (F (normaliseMethod
                     (setRetryCount (S i) (dispatchedAt F config i)))).
Proof.
  intros Hsvc HF Hadapter Hcount Hleft Hfails Hanswer Hfuel.
  destruct (retry_transforms_from env svc options F config r Hsvc HF Hadapter
              Hcount j fuel 0%nat w Hfuel Hleft Hfails Hanswer)
    as (w' & Hrun & Hsent).
  exists w'. split; [exact Hrun|]. split; [exact Hsent|].
  intros i.
  pose proof (dispatchedAt_state F config (proj2 HF) Hadapter Hcount i)
    as [_ Hi].
  unfold dispatchedAt at 1. cbn [passInput]. fold (dispatchedAt F config i).
  rewrite Hi. change (default 0%nat (Some i)) with i. unfold dispatchedWith.
  destruct (proj2 HF (normaliseMethod
                        (setRetryCount (S i) (dispatchedAt F config i))))
    as [_ ->].
  done.
Qed.

Lemma retries_pass_the_request_middlewares_again_witness :
  ∃ w',
    request 3 (plainEnv [] (flakyTransport 2)) appendingService pokemonConfig
      emptyWorld
    = (Returns (VResponse
                  (okResponse (JStr "fresh")
                     (dispatchedAt appendToUrl pokemonConfig 2))), w')
    ∧ cfg_url <$> sent w'
      = [Some "/pokemon/25/x/x/x"; Some "/pokemon/25/x/x"; Some "/pokemon/25/x"].
Proof.
  destruct (retries_pass_the_request_middlewares_again 3
              (plainEnv [] (flakyTransport 2)) appendingService
              emptyRetryOptions appendToUrl pokemonConfig
              (okResponse (JStr "fresh")
                 (dispatchedAt appendToUrl pokemonConfig 2))
              2 emptyWorld) as (w' & Hrun & Hsent & _).
  - by repeat split.
  - split; [intros c w; reflexivity|intros c; by split].
  - reflexivity.
  - reflexivity.
  - by vm_compute.
  - intros [|[|i]] Hi; [eexists; by repeat split..|lia].
  - reflexivity.
  - lia.
  - exists w'. split; [exact Hrun|]. by rewrite Hsent.
Defined.
